(** * Order manager of the management API: shallow embedding and properties

    The development follows [manager.OrderManager] (package [manager]): the
    order creation pipeline ([Process] and its helpers), the payment
    notification pipeline ([ProcessNotifyPayment]), the list filter builder
    ([ProcessFilters]) and the revenue dynamics aggregation
    ([GetRevenueDynamic]).

    Conventions.
    - Go's [float64] amounts are kept abstract: the code only adds, subtracts
      and compares them, so the embedding is parametric in a type with these
      operations (class [Amount]).  Nothing is assumed on them unless a
      theorem says so.
    - A Go function returning [(T, error)] that may also panic is a value of
      [Outcome T]; functions touching the order table thread the table
      explicitly (monad [M]).
    - A pointer the code compares with [nil], or leaves [nil] itself, is an
      [option]; dereferencing [None] is [Panic].  Pointers inside stored
      documents that the code never tests are taken as always set.
    - Collaborators outside of the order manager (project, currency, payment
      method, rate, commission and VAT managers, the GeoIP reader, the
      payment system handlers, the DAO, [FormatAmount], SHA-256, the clock)
      are the fields of the record [OrderManager]. *)

From Stdlib Require Import ZArith String Ascii List Bool Lia.
From stdpp Require Import base option list strings gmap fin_maps sorting pretty.

Local Open Scope Z_scope.

(** ** Amounts *)

(** The operations the order manager applies to [float64] values. *)
Class Amount (A : Type) := {
  a0 : A;                       (* the zero value of a Go float64 *)
  aadd : A -> A -> A;           (* x + y *)
  asub : A -> A -> A;           (* x - y *)
  altb : A -> A -> bool;        (* x < y *)
  aeqb : A -> A -> bool         (* x == y *)
}.

(** [x > y] and [x != y] as Go evaluates them. *)
Definition agtb {A} `{Amount A} (x y : A) : bool := altb y x.
Definition aneqb {A} `{Amount A} (x y : A) : bool := negb (aeqb x y).

(** [nonneg x]: the comparison [x < 0] is false. *)
Definition nonneg {A} `{Amount A} (x : A) : Prop := altb x a0 = false.

(** Exact integer amounts, used to run the model on examples. *)
#[export] Instance Amount_Z : Amount Z := {
  a0 := 0;
  aadd := Z.add;
  asub := Z.sub;
  altb := Z.ltb;
  aeqb := Z.eqb
}.

(** ** Errors and outcomes *)

(** Order statuses (the named constants of package [model]). *)
Inductive OrderStatus :=
  | OrderStatusNew
  | OrderStatusPaymentSystemCreate
  | OrderStatusPaymentSystemReject
  | OrderStatusPaymentSystemComplete
  | OrderStatusComplete.

(** The error values of the order manager, by the names of its message
    constants; [collaboratorError] is an error produced by a collaborator
    and passed through unchanged. *)
Inductive error :=
  | orderErrorProjectNotFound
  | orderErrorProjectInactive
  | orderErrorPaymentMethodNotAllowed
  | orderErrorPaymentMethodNotFound
  | orderErrorPaymentMethodInactive
  | orderErrorPaymentSystemNotFound
  | orderErrorPaymentSystemInactive
  | orderErrorPayerRegionUnknown
  | orderErrorFixedPackageForRegionNotFound
  | orderErrorFixedPackageNotFound
  | orderErrorProjectOrderIdIsDuplicate
  | orderErrorDynamicNotifyUrlsNotAllowed
  | orderErrorDynamicRedirectUrlsNotAllowed
  | orderErrorCurrencyNotFound
  | orderErrorAmountLowerThanMinAllowed
  | orderErrorAmountGreaterThanMaxAllowed
  | orderErrorAmountLowerThanMinAllowedPaymentMethod
  | orderErrorAmountGreaterThanMaxAllowedPaymentMethod
  | orderErrorCanNotCreate
  | orderErrorSignatureInvalid
  | orderErrorNotFound
  | orderErrorOrderAlreadyHasEndedStatus (status : OrderStatus)
  | orderErrorOrderPaymentMethodIncomeCurrencyNotFound
  | orderErrorOrderPSPAccountingCurrencyNotFound
  | collaboratorError (msg : string).

Inductive Outcome (T : Type) :=
  | Ok (t : T)
  | Err (e : error)
  | Panic.
Arguments Ok {T} t.
Arguments Err {T} e.
Arguments Panic {T}.

Definition orderSignatureElementsGlue : string := "|".
Definition orderDefaultDescription (hex : string) : string :=
  "Payment by order # " +:+ hex.

(** ** Data model (package [model] and [geoip2], the fields the manager uses) *)

Definition ObjectId := string.
Definition Time := Z.

Record Currency := {
  CodeInt : Z;
  CodeA3 : string
}.

Record Name := { EN : string; RU : string }.

Module geoip2.
Record Country := { IsoCode : string; Names : gmap string string }.
Record Subdivision := { SubIsoCode : string }.
Record City := {
  CityCountry : Country;
  CityNames : gmap string string;
  Subdivisions : list Subdivision;
  TimeZone : string
}.
End geoip2.

Record Merchant := {
  IsCommissionToUserEnabled : bool;
  IsVatEnabled : bool;
  MerchantCurrency : Currency
}.

Record PaymentSystem := {
  PsIsActive : bool;
  AccountingCurrency : Currency
}.

Record ProjectPaymentModes := {
  PpmId : ObjectId;
  AddedAt : Time
}.

Record CommissionOrder {A : Type} := {
  PMCommission : A;
  PspCommission : A;
  ToUserCommission : A
}.
Arguments CommissionOrder A : clear implicits.

Record PaymentMethod {A : Type} := {
  PmId : ObjectId;
  PmName : string;
  PmParams : gmap string string;
  PmPaymentSystem : option PaymentSystem;
  PmGroupAlias : string;
  PmCurrency : Currency;
  PmMinPaymentAmount : A;
  PmMaxPaymentAmount : A;
  PmIsActive : bool
}.
Arguments PaymentMethod A : clear implicits.

Record FixedPackage {A : Type} := {
  FpName : string;
  FpCurrencyInt : Z;
  FpPrice : A;
  FpCurrency : Currency
}.
Arguments FixedPackage A : clear implicits.

Record OrderFixedPackage {A : Type} := {
  OfpId : nat;
  OfpRegion : string;
  OfpName : string;
  OfpCurrencyInt : Z;
  OfpPrice : A
}.
Arguments OrderFixedPackage A : clear implicits.

Record Project {A : Type} := {
  PId : ObjectId;
  PName : string;
  PIsActive : bool;
  PMerchant : Merchant;
  CallbackCurrency : Currency;
  LimitsCurrency : Currency;
  MinPaymentAmount : A;
  MaxPaymentAmount : A;
  OnlyFixedAmounts : bool;
  SecretKey : string;
  PPaymentMethods : gmap string (list ProjectPaymentModes);
  PFixedPackage : gmap string (list (FixedPackage A));
  IsAllowDynamicNotifyUrls : bool;
  IsAllowDynamicRedirectUrls : bool
}.
Arguments Project A : clear implicits.

Record OrderScalar {A : Type} := {
  ProjectId : string;
  Amount_ : A;
  OsCurrency : option string;
  Region : option string;
  CreateOrderIp : string;
  RawRequestParams : gmap string string;
  Signature : option string;
  OsPaymentMethod : option string;
  OrderId : option string;
  Account : string;
  OsDescription : option string;
  UrlVerify : option string;
  UrlNotify : option string;
  UrlSuccess : option string;
  UrlFail : option string;
  PayerPhone : option string;
  PayerEmail : option string;
  Other : gmap string string;
  OsIsJsonRequest : bool
}.
Arguments OrderScalar A : clear implicits.

Record ProjectOrder := {
  PoId : ObjectId;
  PoName : string;
  PoMerchant : Merchant
}.

Record PayerData := {
  Ip : string;
  CountryCodeA2 : string;
  CountryName : Name;
  PdCity : Name;
  Subdivision : string;
  Timezone : string;
  Phone : option string;
  Email : option string
}.

Record OrderPaymentMethod := {
  OpmId : ObjectId;
  OpmName : string;
  OpmParams : gmap string string;
  OpmPaymentSystem : option PaymentSystem;
  OpmGroupAlias : string
}.

Record Order {A : Type} := {
  Id : ObjectId;
  OProject : ProjectOrder;
  Description : string;
  ProjectOrderId : option string;
  ProjectAccount : string;
  ProjectIncomeAmount : A;
  ProjectIncomeCurrency : option Currency;
  ProjectOutcomeAmount : A;
  ProjectOutcomeCurrency : Currency;
  ProjectParams : gmap string string;
  OPayerData : PayerData;
  OPaymentMethod : option OrderPaymentMethod;
  PaymentMethodOutcomeAmount : A;
  PaymentMethodOutcomeCurrency : option Currency;
  PaymentMethodIncomeAmount : A;
  PaymentMethodIncomeCurrencyA3 : string;
  PaymentMethodIncomeCurrency : option Currency;
  Status : OrderStatus;
  CreatedAt : Time;
  UpdatedAt : Time;
  IsJsonRequest : bool;
  OFixedPackage : option (OrderFixedPackage A);
  AmountInMerchantAccountingCurrency : A;
  AmountOutMerchantAccountingCurrency : A;
  AmountInPSPAccountingCurrency : A;
  AmountInPaymentSystemAccountingCurrency : A;
  ProjectFeeAmount : A;
  PaymentMethodFeeAmount : A;
  PspFeeAmount : A;
  ToPayerFeeAmount : A;
  VatAmount : A
}.
Arguments Order A : clear implicits.

(** Assignment to one field of an order ([o.Field = v]). *)
Definition set_Description {A} (v : string) (o : Order A) : Order A :=
  {| Id := Id o; OProject := OProject o; Description := v; ProjectOrderId :=
     ProjectOrderId o; ProjectAccount := ProjectAccount o; ProjectIncomeAmount
     := ProjectIncomeAmount o; ProjectIncomeCurrency := ProjectIncomeCurrency
     o; ProjectOutcomeAmount := ProjectOutcomeAmount o; ProjectOutcomeCurrency
     := ProjectOutcomeCurrency o; ProjectParams := ProjectParams o; OPayerData
     := OPayerData o; OPaymentMethod := OPaymentMethod o;
     PaymentMethodOutcomeAmount := PaymentMethodOutcomeAmount o;
     PaymentMethodOutcomeCurrency := PaymentMethodOutcomeCurrency o;
     PaymentMethodIncomeAmount := PaymentMethodIncomeAmount o;
     PaymentMethodIncomeCurrencyA3 := PaymentMethodIncomeCurrencyA3 o;
     PaymentMethodIncomeCurrency := PaymentMethodIncomeCurrency o; Status :=
     Status o; CreatedAt := CreatedAt o; UpdatedAt := UpdatedAt o;
     IsJsonRequest := IsJsonRequest o; OFixedPackage := OFixedPackage o;
     AmountInMerchantAccountingCurrency := AmountInMerchantAccountingCurrency
     o; AmountOutMerchantAccountingCurrency :=
     AmountOutMerchantAccountingCurrency o; AmountInPSPAccountingCurrency :=
     AmountInPSPAccountingCurrency o; AmountInPaymentSystemAccountingCurrency
     := AmountInPaymentSystemAccountingCurrency o; ProjectFeeAmount :=
     ProjectFeeAmount o; PaymentMethodFeeAmount := PaymentMethodFeeAmount o;
     PspFeeAmount := PspFeeAmount o; ToPayerFeeAmount := ToPayerFeeAmount o;
     VatAmount := VatAmount o |}.
Definition set_OPaymentMethod {A} (v : option OrderPaymentMethod) (o : Order A) : Order A :=
  {| Id := Id o; OProject := OProject o; Description := Description o;
     ProjectOrderId := ProjectOrderId o; ProjectAccount := ProjectAccount o;
     ProjectIncomeAmount := ProjectIncomeAmount o; ProjectIncomeCurrency :=
     ProjectIncomeCurrency o; ProjectOutcomeAmount := ProjectOutcomeAmount o;
     ProjectOutcomeCurrency := ProjectOutcomeCurrency o; ProjectParams :=
     ProjectParams o; OPayerData := OPayerData o; OPaymentMethod := v;
     PaymentMethodOutcomeAmount := PaymentMethodOutcomeAmount o;
     PaymentMethodOutcomeCurrency := PaymentMethodOutcomeCurrency o;
     PaymentMethodIncomeAmount := PaymentMethodIncomeAmount o;
     PaymentMethodIncomeCurrencyA3 := PaymentMethodIncomeCurrencyA3 o;
     PaymentMethodIncomeCurrency := PaymentMethodIncomeCurrency o; Status :=
     Status o; CreatedAt := CreatedAt o; UpdatedAt := UpdatedAt o;
     IsJsonRequest := IsJsonRequest o; OFixedPackage := OFixedPackage o;
     AmountInMerchantAccountingCurrency := AmountInMerchantAccountingCurrency
     o; AmountOutMerchantAccountingCurrency :=
     AmountOutMerchantAccountingCurrency o; AmountInPSPAccountingCurrency :=
     AmountInPSPAccountingCurrency o; AmountInPaymentSystemAccountingCurrency
     := AmountInPaymentSystemAccountingCurrency o; ProjectFeeAmount :=
     ProjectFeeAmount o; PaymentMethodFeeAmount := PaymentMethodFeeAmount o;
     PspFeeAmount := PspFeeAmount o; ToPayerFeeAmount := ToPayerFeeAmount o;
     VatAmount := VatAmount o |}.
Definition set_PaymentMethodOutcomeAmount {A} (v : A) (o : Order A) : Order A :=
  {| Id := Id o; OProject := OProject o; Description := Description o;
     ProjectOrderId := ProjectOrderId o; ProjectAccount := ProjectAccount o;
     ProjectIncomeAmount := ProjectIncomeAmount o; ProjectIncomeCurrency :=
     ProjectIncomeCurrency o; ProjectOutcomeAmount := ProjectOutcomeAmount o;
     ProjectOutcomeCurrency := ProjectOutcomeCurrency o; ProjectParams :=
     ProjectParams o; OPayerData := OPayerData o; OPaymentMethod :=
     OPaymentMethod o; PaymentMethodOutcomeAmount := v;
     PaymentMethodOutcomeCurrency := PaymentMethodOutcomeCurrency o;
     PaymentMethodIncomeAmount := PaymentMethodIncomeAmount o;
     PaymentMethodIncomeCurrencyA3 := PaymentMethodIncomeCurrencyA3 o;
     PaymentMethodIncomeCurrency := PaymentMethodIncomeCurrency o; Status :=
     Status o; CreatedAt := CreatedAt o; UpdatedAt := UpdatedAt o;
     IsJsonRequest := IsJsonRequest o; OFixedPackage := OFixedPackage o;
     AmountInMerchantAccountingCurrency := AmountInMerchantAccountingCurrency
     o; AmountOutMerchantAccountingCurrency :=
     AmountOutMerchantAccountingCurrency o; AmountInPSPAccountingCurrency :=
     AmountInPSPAccountingCurrency o; AmountInPaymentSystemAccountingCurrency
     := AmountInPaymentSystemAccountingCurrency o; ProjectFeeAmount :=
     ProjectFeeAmount o; PaymentMethodFeeAmount := PaymentMethodFeeAmount o;
     PspFeeAmount := PspFeeAmount o; ToPayerFeeAmount := ToPayerFeeAmount o;
     VatAmount := VatAmount o |}.
Definition set_PaymentMethodOutcomeCurrency {A} (v : option Currency) (o : Order A) : Order A :=
  {| Id := Id o; OProject := OProject o; Description := Description o;
     ProjectOrderId := ProjectOrderId o; ProjectAccount := ProjectAccount o;
     ProjectIncomeAmount := ProjectIncomeAmount o; ProjectIncomeCurrency :=
     ProjectIncomeCurrency o; ProjectOutcomeAmount := ProjectOutcomeAmount o;
     ProjectOutcomeCurrency := ProjectOutcomeCurrency o; ProjectParams :=
     ProjectParams o; OPayerData := OPayerData o; OPaymentMethod :=
     OPaymentMethod o; PaymentMethodOutcomeAmount :=
     PaymentMethodOutcomeAmount o; PaymentMethodOutcomeCurrency := v;
     PaymentMethodIncomeAmount := PaymentMethodIncomeAmount o;
     PaymentMethodIncomeCurrencyA3 := PaymentMethodIncomeCurrencyA3 o;
     PaymentMethodIncomeCurrency := PaymentMethodIncomeCurrency o; Status :=
     Status o; CreatedAt := CreatedAt o; UpdatedAt := UpdatedAt o;
     IsJsonRequest := IsJsonRequest o; OFixedPackage := OFixedPackage o;
     AmountInMerchantAccountingCurrency := AmountInMerchantAccountingCurrency
     o; AmountOutMerchantAccountingCurrency :=
     AmountOutMerchantAccountingCurrency o; AmountInPSPAccountingCurrency :=
     AmountInPSPAccountingCurrency o; AmountInPaymentSystemAccountingCurrency
     := AmountInPaymentSystemAccountingCurrency o; ProjectFeeAmount :=
     ProjectFeeAmount o; PaymentMethodFeeAmount := PaymentMethodFeeAmount o;
     PspFeeAmount := PspFeeAmount o; ToPayerFeeAmount := ToPayerFeeAmount o;
     VatAmount := VatAmount o |}.
Definition set_PaymentMethodIncomeCurrency {A} (v : option Currency) (o : Order A) : Order A :=
  {| Id := Id o; OProject := OProject o; Description := Description o;
     ProjectOrderId := ProjectOrderId o; ProjectAccount := ProjectAccount o;
     ProjectIncomeAmount := ProjectIncomeAmount o; ProjectIncomeCurrency :=
     ProjectIncomeCurrency o; ProjectOutcomeAmount := ProjectOutcomeAmount o;
     ProjectOutcomeCurrency := ProjectOutcomeCurrency o; ProjectParams :=
     ProjectParams o; OPayerData := OPayerData o; OPaymentMethod :=
     OPaymentMethod o; PaymentMethodOutcomeAmount :=
     PaymentMethodOutcomeAmount o; PaymentMethodOutcomeCurrency :=
     PaymentMethodOutcomeCurrency o; PaymentMethodIncomeAmount :=
     PaymentMethodIncomeAmount o; PaymentMethodIncomeCurrencyA3 :=
     PaymentMethodIncomeCurrencyA3 o; PaymentMethodIncomeCurrency := v; Status
     := Status o; CreatedAt := CreatedAt o; UpdatedAt := UpdatedAt o;
     IsJsonRequest := IsJsonRequest o; OFixedPackage := OFixedPackage o;
     AmountInMerchantAccountingCurrency := AmountInMerchantAccountingCurrency
     o; AmountOutMerchantAccountingCurrency :=
     AmountOutMerchantAccountingCurrency o; AmountInPSPAccountingCurrency :=
     AmountInPSPAccountingCurrency o; AmountInPaymentSystemAccountingCurrency
     := AmountInPaymentSystemAccountingCurrency o; ProjectFeeAmount :=
     ProjectFeeAmount o; PaymentMethodFeeAmount := PaymentMethodFeeAmount o;
     PspFeeAmount := PspFeeAmount o; ToPayerFeeAmount := ToPayerFeeAmount o;
     VatAmount := VatAmount o |}.
Definition set_ProjectOutcomeAmount {A} (v : A) (o : Order A) : Order A :=
  {| Id := Id o; OProject := OProject o; Description := Description o;
     ProjectOrderId := ProjectOrderId o; ProjectAccount := ProjectAccount o;
     ProjectIncomeAmount := ProjectIncomeAmount o; ProjectIncomeCurrency :=
     ProjectIncomeCurrency o; ProjectOutcomeAmount := v;
     ProjectOutcomeCurrency := ProjectOutcomeCurrency o; ProjectParams :=
     ProjectParams o; OPayerData := OPayerData o; OPaymentMethod :=
     OPaymentMethod o; PaymentMethodOutcomeAmount :=
     PaymentMethodOutcomeAmount o; PaymentMethodOutcomeCurrency :=
     PaymentMethodOutcomeCurrency o; PaymentMethodIncomeAmount :=
     PaymentMethodIncomeAmount o; PaymentMethodIncomeCurrencyA3 :=
     PaymentMethodIncomeCurrencyA3 o; PaymentMethodIncomeCurrency :=
     PaymentMethodIncomeCurrency o; Status := Status o; CreatedAt := CreatedAt
     o; UpdatedAt := UpdatedAt o; IsJsonRequest := IsJsonRequest o;
     OFixedPackage := OFixedPackage o; AmountInMerchantAccountingCurrency :=
     AmountInMerchantAccountingCurrency o; AmountOutMerchantAccountingCurrency
     := AmountOutMerchantAccountingCurrency o; AmountInPSPAccountingCurrency
     := AmountInPSPAccountingCurrency o;
     AmountInPaymentSystemAccountingCurrency :=
     AmountInPaymentSystemAccountingCurrency o; ProjectFeeAmount :=
     ProjectFeeAmount o; PaymentMethodFeeAmount := PaymentMethodFeeAmount o;
     PspFeeAmount := PspFeeAmount o; ToPayerFeeAmount := ToPayerFeeAmount o;
     VatAmount := VatAmount o |}.
Definition set_Status {A} (v : OrderStatus) (o : Order A) : Order A :=
  {| Id := Id o; OProject := OProject o; Description := Description o;
     ProjectOrderId := ProjectOrderId o; ProjectAccount := ProjectAccount o;
     ProjectIncomeAmount := ProjectIncomeAmount o; ProjectIncomeCurrency :=
     ProjectIncomeCurrency o; ProjectOutcomeAmount := ProjectOutcomeAmount o;
     ProjectOutcomeCurrency := ProjectOutcomeCurrency o; ProjectParams :=
     ProjectParams o; OPayerData := OPayerData o; OPaymentMethod :=
     OPaymentMethod o; PaymentMethodOutcomeAmount :=
     PaymentMethodOutcomeAmount o; PaymentMethodOutcomeCurrency :=
     PaymentMethodOutcomeCurrency o; PaymentMethodIncomeAmount :=
     PaymentMethodIncomeAmount o; PaymentMethodIncomeCurrencyA3 :=
     PaymentMethodIncomeCurrencyA3 o; PaymentMethodIncomeCurrency :=
     PaymentMethodIncomeCurrency o; Status := v; CreatedAt := CreatedAt o;
     UpdatedAt := UpdatedAt o; IsJsonRequest := IsJsonRequest o; OFixedPackage
     := OFixedPackage o; AmountInMerchantAccountingCurrency :=
     AmountInMerchantAccountingCurrency o; AmountOutMerchantAccountingCurrency
     := AmountOutMerchantAccountingCurrency o; AmountInPSPAccountingCurrency
     := AmountInPSPAccountingCurrency o;
     AmountInPaymentSystemAccountingCurrency :=
     AmountInPaymentSystemAccountingCurrency o; ProjectFeeAmount :=
     ProjectFeeAmount o; PaymentMethodFeeAmount := PaymentMethodFeeAmount o;
     PspFeeAmount := PspFeeAmount o; ToPayerFeeAmount := ToPayerFeeAmount o;
     VatAmount := VatAmount o |}.
Definition set_UpdatedAt {A} (v : Time) (o : Order A) : Order A :=
  {| Id := Id o; OProject := OProject o; Description := Description o;
     ProjectOrderId := ProjectOrderId o; ProjectAccount := ProjectAccount o;
     ProjectIncomeAmount := ProjectIncomeAmount o; ProjectIncomeCurrency :=
     ProjectIncomeCurrency o; ProjectOutcomeAmount := ProjectOutcomeAmount o;
     ProjectOutcomeCurrency := ProjectOutcomeCurrency o; ProjectParams :=
     ProjectParams o; OPayerData := OPayerData o; OPaymentMethod :=
     OPaymentMethod o; PaymentMethodOutcomeAmount :=
     PaymentMethodOutcomeAmount o; PaymentMethodOutcomeCurrency :=
     PaymentMethodOutcomeCurrency o; PaymentMethodIncomeAmount :=
     PaymentMethodIncomeAmount o; PaymentMethodIncomeCurrencyA3 :=
     PaymentMethodIncomeCurrencyA3 o; PaymentMethodIncomeCurrency :=
     PaymentMethodIncomeCurrency o; Status := Status o; CreatedAt := CreatedAt
     o; UpdatedAt := v; IsJsonRequest := IsJsonRequest o; OFixedPackage :=
     OFixedPackage o; AmountInMerchantAccountingCurrency :=
     AmountInMerchantAccountingCurrency o; AmountOutMerchantAccountingCurrency
     := AmountOutMerchantAccountingCurrency o; AmountInPSPAccountingCurrency
     := AmountInPSPAccountingCurrency o;
     AmountInPaymentSystemAccountingCurrency :=
     AmountInPaymentSystemAccountingCurrency o; ProjectFeeAmount :=
     ProjectFeeAmount o; PaymentMethodFeeAmount := PaymentMethodFeeAmount o;
     PspFeeAmount := PspFeeAmount o; ToPayerFeeAmount := ToPayerFeeAmount o;
     VatAmount := VatAmount o |}.
Definition set_OPayerData {A} (v : PayerData) (o : Order A) : Order A :=
  {| Id := Id o; OProject := OProject o; Description := Description o;
     ProjectOrderId := ProjectOrderId o; ProjectAccount := ProjectAccount o;
     ProjectIncomeAmount := ProjectIncomeAmount o; ProjectIncomeCurrency :=
     ProjectIncomeCurrency o; ProjectOutcomeAmount := ProjectOutcomeAmount o;
     ProjectOutcomeCurrency := ProjectOutcomeCurrency o; ProjectParams :=
     ProjectParams o; OPayerData := v; OPaymentMethod := OPaymentMethod o;
     PaymentMethodOutcomeAmount := PaymentMethodOutcomeAmount o;
     PaymentMethodOutcomeCurrency := PaymentMethodOutcomeCurrency o;
     PaymentMethodIncomeAmount := PaymentMethodIncomeAmount o;
     PaymentMethodIncomeCurrencyA3 := PaymentMethodIncomeCurrencyA3 o;
     PaymentMethodIncomeCurrency := PaymentMethodIncomeCurrency o; Status :=
     Status o; CreatedAt := CreatedAt o; UpdatedAt := UpdatedAt o;
     IsJsonRequest := IsJsonRequest o; OFixedPackage := OFixedPackage o;
     AmountInMerchantAccountingCurrency := AmountInMerchantAccountingCurrency
     o; AmountOutMerchantAccountingCurrency :=
     AmountOutMerchantAccountingCurrency o; AmountInPSPAccountingCurrency :=
     AmountInPSPAccountingCurrency o; AmountInPaymentSystemAccountingCurrency
     := AmountInPaymentSystemAccountingCurrency o; ProjectFeeAmount :=
     ProjectFeeAmount o; PaymentMethodFeeAmount := PaymentMethodFeeAmount o;
     PspFeeAmount := PspFeeAmount o; ToPayerFeeAmount := ToPayerFeeAmount o;
     VatAmount := VatAmount o |}.
Definition set_AmountOutMerchantAccountingCurrency {A} (v : A) (o : Order A) : Order A :=
  {| Id := Id o; OProject := OProject o; Description := Description o;
     ProjectOrderId := ProjectOrderId o; ProjectAccount := ProjectAccount o;
     ProjectIncomeAmount := ProjectIncomeAmount o; ProjectIncomeCurrency :=
     ProjectIncomeCurrency o; ProjectOutcomeAmount := ProjectOutcomeAmount o;
     ProjectOutcomeCurrency := ProjectOutcomeCurrency o; ProjectParams :=
     ProjectParams o; OPayerData := OPayerData o; OPaymentMethod :=
     OPaymentMethod o; PaymentMethodOutcomeAmount :=
     PaymentMethodOutcomeAmount o; PaymentMethodOutcomeCurrency :=
     PaymentMethodOutcomeCurrency o; PaymentMethodIncomeAmount :=
     PaymentMethodIncomeAmount o; PaymentMethodIncomeCurrencyA3 :=
     PaymentMethodIncomeCurrencyA3 o; PaymentMethodIncomeCurrency :=
     PaymentMethodIncomeCurrency o; Status := Status o; CreatedAt := CreatedAt
     o; UpdatedAt := UpdatedAt o; IsJsonRequest := IsJsonRequest o;
     OFixedPackage := OFixedPackage o; AmountInMerchantAccountingCurrency :=
     AmountInMerchantAccountingCurrency o; AmountOutMerchantAccountingCurrency
     := v; AmountInPSPAccountingCurrency := AmountInPSPAccountingCurrency o;
     AmountInPaymentSystemAccountingCurrency :=
     AmountInPaymentSystemAccountingCurrency o; ProjectFeeAmount :=
     ProjectFeeAmount o; PaymentMethodFeeAmount := PaymentMethodFeeAmount o;
     PspFeeAmount := PspFeeAmount o; ToPayerFeeAmount := ToPayerFeeAmount o;
     VatAmount := VatAmount o |}.
Definition set_AmountInPSPAccountingCurrency {A} (v : A) (o : Order A) : Order A :=
  {| Id := Id o; OProject := OProject o; Description := Description o;
     ProjectOrderId := ProjectOrderId o; ProjectAccount := ProjectAccount o;
     ProjectIncomeAmount := ProjectIncomeAmount o; ProjectIncomeCurrency :=
     ProjectIncomeCurrency o; ProjectOutcomeAmount := ProjectOutcomeAmount o;
     ProjectOutcomeCurrency := ProjectOutcomeCurrency o; ProjectParams :=
     ProjectParams o; OPayerData := OPayerData o; OPaymentMethod :=
     OPaymentMethod o; PaymentMethodOutcomeAmount :=
     PaymentMethodOutcomeAmount o; PaymentMethodOutcomeCurrency :=
     PaymentMethodOutcomeCurrency o; PaymentMethodIncomeAmount :=
     PaymentMethodIncomeAmount o; PaymentMethodIncomeCurrencyA3 :=
     PaymentMethodIncomeCurrencyA3 o; PaymentMethodIncomeCurrency :=
     PaymentMethodIncomeCurrency o; Status := Status o; CreatedAt := CreatedAt
     o; UpdatedAt := UpdatedAt o; IsJsonRequest := IsJsonRequest o;
     OFixedPackage := OFixedPackage o; AmountInMerchantAccountingCurrency :=
     AmountInMerchantAccountingCurrency o; AmountOutMerchantAccountingCurrency
     := AmountOutMerchantAccountingCurrency o; AmountInPSPAccountingCurrency
     := v; AmountInPaymentSystemAccountingCurrency :=
     AmountInPaymentSystemAccountingCurrency o; ProjectFeeAmount :=
     ProjectFeeAmount o; PaymentMethodFeeAmount := PaymentMethodFeeAmount o;
     PspFeeAmount := PspFeeAmount o; ToPayerFeeAmount := ToPayerFeeAmount o;
     VatAmount := VatAmount o |}.
Definition set_AmountInPaymentSystemAccountingCurrency {A} (v : A) (o : Order A) : Order A :=
  {| Id := Id o; OProject := OProject o; Description := Description o;
     ProjectOrderId := ProjectOrderId o; ProjectAccount := ProjectAccount o;
     ProjectIncomeAmount := ProjectIncomeAmount o; ProjectIncomeCurrency :=
     ProjectIncomeCurrency o; ProjectOutcomeAmount := ProjectOutcomeAmount o;
     ProjectOutcomeCurrency := ProjectOutcomeCurrency o; ProjectParams :=
     ProjectParams o; OPayerData := OPayerData o; OPaymentMethod :=
     OPaymentMethod o; PaymentMethodOutcomeAmount :=
     PaymentMethodOutcomeAmount o; PaymentMethodOutcomeCurrency :=
     PaymentMethodOutcomeCurrency o; PaymentMethodIncomeAmount :=
     PaymentMethodIncomeAmount o; PaymentMethodIncomeCurrencyA3 :=
     PaymentMethodIncomeCurrencyA3 o; PaymentMethodIncomeCurrency :=
     PaymentMethodIncomeCurrency o; Status := Status o; CreatedAt := CreatedAt
     o; UpdatedAt := UpdatedAt o; IsJsonRequest := IsJsonRequest o;
     OFixedPackage := OFixedPackage o; AmountInMerchantAccountingCurrency :=
     AmountInMerchantAccountingCurrency o; AmountOutMerchantAccountingCurrency
     := AmountOutMerchantAccountingCurrency o; AmountInPSPAccountingCurrency
     := AmountInPSPAccountingCurrency o;
     AmountInPaymentSystemAccountingCurrency := v; ProjectFeeAmount :=
     ProjectFeeAmount o; PaymentMethodFeeAmount := PaymentMethodFeeAmount o;
     PspFeeAmount := PspFeeAmount o; ToPayerFeeAmount := ToPayerFeeAmount o;
     VatAmount := VatAmount o |}.
Definition set_ProjectFeeAmount {A} (v : A) (o : Order A) : Order A :=
  {| Id := Id o; OProject := OProject o; Description := Description o;
     ProjectOrderId := ProjectOrderId o; ProjectAccount := ProjectAccount o;
     ProjectIncomeAmount := ProjectIncomeAmount o; ProjectIncomeCurrency :=
     ProjectIncomeCurrency o; ProjectOutcomeAmount := ProjectOutcomeAmount o;
     ProjectOutcomeCurrency := ProjectOutcomeCurrency o; ProjectParams :=
     ProjectParams o; OPayerData := OPayerData o; OPaymentMethod :=
     OPaymentMethod o; PaymentMethodOutcomeAmount :=
     PaymentMethodOutcomeAmount o; PaymentMethodOutcomeCurrency :=
     PaymentMethodOutcomeCurrency o; PaymentMethodIncomeAmount :=
     PaymentMethodIncomeAmount o; PaymentMethodIncomeCurrencyA3 :=
     PaymentMethodIncomeCurrencyA3 o; PaymentMethodIncomeCurrency :=
     PaymentMethodIncomeCurrency o; Status := Status o; CreatedAt := CreatedAt
     o; UpdatedAt := UpdatedAt o; IsJsonRequest := IsJsonRequest o;
     OFixedPackage := OFixedPackage o; AmountInMerchantAccountingCurrency :=
     AmountInMerchantAccountingCurrency o; AmountOutMerchantAccountingCurrency
     := AmountOutMerchantAccountingCurrency o; AmountInPSPAccountingCurrency
     := AmountInPSPAccountingCurrency o;
     AmountInPaymentSystemAccountingCurrency :=
     AmountInPaymentSystemAccountingCurrency o; ProjectFeeAmount := v;
     PaymentMethodFeeAmount := PaymentMethodFeeAmount o; PspFeeAmount :=
     PspFeeAmount o; ToPayerFeeAmount := ToPayerFeeAmount o; VatAmount :=
     VatAmount o |}.
Definition set_PaymentMethodFeeAmount {A} (v : A) (o : Order A) : Order A :=
  {| Id := Id o; OProject := OProject o; Description := Description o;
     ProjectOrderId := ProjectOrderId o; ProjectAccount := ProjectAccount o;
     ProjectIncomeAmount := ProjectIncomeAmount o; ProjectIncomeCurrency :=
     ProjectIncomeCurrency o; ProjectOutcomeAmount := ProjectOutcomeAmount o;
     ProjectOutcomeCurrency := ProjectOutcomeCurrency o; ProjectParams :=
     ProjectParams o; OPayerData := OPayerData o; OPaymentMethod :=
     OPaymentMethod o; PaymentMethodOutcomeAmount :=
     PaymentMethodOutcomeAmount o; PaymentMethodOutcomeCurrency :=
     PaymentMethodOutcomeCurrency o; PaymentMethodIncomeAmount :=
     PaymentMethodIncomeAmount o; PaymentMethodIncomeCurrencyA3 :=
     PaymentMethodIncomeCurrencyA3 o; PaymentMethodIncomeCurrency :=
     PaymentMethodIncomeCurrency o; Status := Status o; CreatedAt := CreatedAt
     o; UpdatedAt := UpdatedAt o; IsJsonRequest := IsJsonRequest o;
     OFixedPackage := OFixedPackage o; AmountInMerchantAccountingCurrency :=
     AmountInMerchantAccountingCurrency o; AmountOutMerchantAccountingCurrency
     := AmountOutMerchantAccountingCurrency o; AmountInPSPAccountingCurrency
     := AmountInPSPAccountingCurrency o;
     AmountInPaymentSystemAccountingCurrency :=
     AmountInPaymentSystemAccountingCurrency o; ProjectFeeAmount :=
     ProjectFeeAmount o; PaymentMethodFeeAmount := v; PspFeeAmount :=
     PspFeeAmount o; ToPayerFeeAmount := ToPayerFeeAmount o; VatAmount :=
     VatAmount o |}.
Definition set_PspFeeAmount {A} (v : A) (o : Order A) : Order A :=
  {| Id := Id o; OProject := OProject o; Description := Description o;
     ProjectOrderId := ProjectOrderId o; ProjectAccount := ProjectAccount o;
     ProjectIncomeAmount := ProjectIncomeAmount o; ProjectIncomeCurrency :=
     ProjectIncomeCurrency o; ProjectOutcomeAmount := ProjectOutcomeAmount o;
     ProjectOutcomeCurrency := ProjectOutcomeCurrency o; ProjectParams :=
     ProjectParams o; OPayerData := OPayerData o; OPaymentMethod :=
     OPaymentMethod o; PaymentMethodOutcomeAmount :=
     PaymentMethodOutcomeAmount o; PaymentMethodOutcomeCurrency :=
     PaymentMethodOutcomeCurrency o; PaymentMethodIncomeAmount :=
     PaymentMethodIncomeAmount o; PaymentMethodIncomeCurrencyA3 :=
     PaymentMethodIncomeCurrencyA3 o; PaymentMethodIncomeCurrency :=
     PaymentMethodIncomeCurrency o; Status := Status o; CreatedAt := CreatedAt
     o; UpdatedAt := UpdatedAt o; IsJsonRequest := IsJsonRequest o;
     OFixedPackage := OFixedPackage o; AmountInMerchantAccountingCurrency :=
     AmountInMerchantAccountingCurrency o; AmountOutMerchantAccountingCurrency
     := AmountOutMerchantAccountingCurrency o; AmountInPSPAccountingCurrency
     := AmountInPSPAccountingCurrency o;
     AmountInPaymentSystemAccountingCurrency :=
     AmountInPaymentSystemAccountingCurrency o; ProjectFeeAmount :=
     ProjectFeeAmount o; PaymentMethodFeeAmount := PaymentMethodFeeAmount o;
     PspFeeAmount := v; ToPayerFeeAmount := ToPayerFeeAmount o; VatAmount :=
     VatAmount o |}.
Definition set_ToPayerFeeAmount {A} (v : A) (o : Order A) : Order A :=
  {| Id := Id o; OProject := OProject o; Description := Description o;
     ProjectOrderId := ProjectOrderId o; ProjectAccount := ProjectAccount o;
     ProjectIncomeAmount := ProjectIncomeAmount o; ProjectIncomeCurrency :=
     ProjectIncomeCurrency o; ProjectOutcomeAmount := ProjectOutcomeAmount o;
     ProjectOutcomeCurrency := ProjectOutcomeCurrency o; ProjectParams :=
     ProjectParams o; OPayerData := OPayerData o; OPaymentMethod :=
     OPaymentMethod o; PaymentMethodOutcomeAmount :=
     PaymentMethodOutcomeAmount o; PaymentMethodOutcomeCurrency :=
     PaymentMethodOutcomeCurrency o; PaymentMethodIncomeAmount :=
     PaymentMethodIncomeAmount o; PaymentMethodIncomeCurrencyA3 :=
     PaymentMethodIncomeCurrencyA3 o; PaymentMethodIncomeCurrency :=
     PaymentMethodIncomeCurrency o; Status := Status o; CreatedAt := CreatedAt
     o; UpdatedAt := UpdatedAt o; IsJsonRequest := IsJsonRequest o;
     OFixedPackage := OFixedPackage o; AmountInMerchantAccountingCurrency :=
     AmountInMerchantAccountingCurrency o; AmountOutMerchantAccountingCurrency
     := AmountOutMerchantAccountingCurrency o; AmountInPSPAccountingCurrency
     := AmountInPSPAccountingCurrency o;
     AmountInPaymentSystemAccountingCurrency :=
     AmountInPaymentSystemAccountingCurrency o; ProjectFeeAmount :=
     ProjectFeeAmount o; PaymentMethodFeeAmount := PaymentMethodFeeAmount o;
     PspFeeAmount := PspFeeAmount o; ToPayerFeeAmount := v; VatAmount :=
     VatAmount o |}.
Definition set_VatAmount {A} (v : A) (o : Order A) : Order A :=
  {| Id := Id o; OProject := OProject o; Description := Description o;
     ProjectOrderId := ProjectOrderId o; ProjectAccount := ProjectAccount o;
     ProjectIncomeAmount := ProjectIncomeAmount o; ProjectIncomeCurrency :=
     ProjectIncomeCurrency o; ProjectOutcomeAmount := ProjectOutcomeAmount o;
     ProjectOutcomeCurrency := ProjectOutcomeCurrency o; ProjectParams :=
     ProjectParams o; OPayerData := OPayerData o; OPaymentMethod :=
     OPaymentMethod o; PaymentMethodOutcomeAmount :=
     PaymentMethodOutcomeAmount o; PaymentMethodOutcomeCurrency :=
     PaymentMethodOutcomeCurrency o; PaymentMethodIncomeAmount :=
     PaymentMethodIncomeAmount o; PaymentMethodIncomeCurrencyA3 :=
     PaymentMethodIncomeCurrencyA3 o; PaymentMethodIncomeCurrency :=
     PaymentMethodIncomeCurrency o; Status := Status o; CreatedAt := CreatedAt
     o; UpdatedAt := UpdatedAt o; IsJsonRequest := IsJsonRequest o;
     OFixedPackage := OFixedPackage o; AmountInMerchantAccountingCurrency :=
     AmountInMerchantAccountingCurrency o; AmountOutMerchantAccountingCurrency
     := AmountOutMerchantAccountingCurrency o; AmountInPSPAccountingCurrency
     := AmountInPSPAccountingCurrency o;
     AmountInPaymentSystemAccountingCurrency :=
     AmountInPaymentSystemAccountingCurrency o; ProjectFeeAmount :=
     ProjectFeeAmount o; PaymentMethodFeeAmount := PaymentMethodFeeAmount o;
     PspFeeAmount := PspFeeAmount o; ToPayerFeeAmount := ToPayerFeeAmount o;
     VatAmount := v |}.

Record OrderPaymentNotification := {
  OpnId : string;
  OpnRequest : gmap string string
}.

(** The request-scoped bundle threaded through the validation steps. *)
Record check {A : Type} := {
  c_order : OrderScalar A;
  c_project : Project A;
  c_oCurrency : option Currency;
  c_paymentMethod : option (PaymentMethod A)
}.
Arguments check A : clear implicits.

Record pmOutcomeData {A : Type} := {
  pmo_amount : A;
  pmo_currency : Currency
}.
Arguments pmOutcomeData A : clear implicits.

(** ** Outcomes and the monad of the manager *)

(** Sequencing of Go calls: the first error or panic ends the function. *)
#[export] Instance Outcome_ret : MRet Outcome := fun T t => Ok t.
#[export] Instance Outcome_bind : MBind Outcome := fun T U k o =>
  match o with
  | Ok t => k t
  | Err e => Err e
  | Panic => Panic
  end.

(** Dereference of a pointer that may be [nil]. *)
Definition deref {T} (p : option T) : Outcome T :=
  match p with
  | Some t => Ok t
  | None => Panic
  end.

(** [if err != nil { return nil, err }] after a call returning [(v, err)]. *)
Definition checked {T} (r : T * option error) : Outcome T :=
  match r with
  | (_, Some e) => Err e
  | (v, None) => Ok v
  end.

(** Functions that reach the order table thread it explicitly. *)
Definition M (Store T : Type) : Type := Store -> Outcome T * Store.

#[export] Instance M_ret {Store} : MRet (M Store) := fun T t st => (Ok t, st).
#[export] Instance M_bind {Store} : MBind (M Store) := fun T U k m st =>
  match m st with
  | (Ok t, st') => k t st'
  | (Err e, st') => (Err e, st')
  | (Panic, st') => (Panic, st')
  end.

(** A step that does not touch the table. *)
Definition lift {Store T} (o : Outcome T) : M Store T := fun st => (o, st).

(** [bson.IsObjectIdHex]: twenty-four hexadecimal digits; [bson.ObjectIdHex]
    panics on anything else. *)
Definition isHexDigit (ch : ascii) : bool :=
  let n := N_of_ascii ch in
  ((48 <=? n) && (n <=? 57) || (97 <=? n) && (n <=? 102)
   || (65 <=? n) && (n <=? 70))%N.

Definition IsObjectIdHex (s : string) : bool :=
  (String.length s =? 24)%nat && forallb isHexDigit (list_ascii_of_string s).

Definition ObjectIdHex (s : string) : Outcome ObjectId :=
  if IsObjectIdHex s then Ok s else Panic.

(** ** The order manager and its collaborators *)

Section Collaborators.
Context {A : Type} {Store : Type}.

(** A payment system handler as obtained from the payment system settings:
    [ProcessPayment] returns the order it was given, updated from the
    notification, together with the handler's verdict. *)
Record PaymentHandler := {
  ProcessPayment : Order A -> OrderPaymentNotification -> Order A * option error
}.

(** The struct [OrderManager]: one field per collaborator call the manager
    makes.  Go pairs [(value, error)] are pairs here, since the code at
    times keeps the value and drops the error. *)
Record OrderManager := {
  (* projectManager.FindProjectById *)
  FindProjectById : string -> option (Project A);
  (* paymentMethodManager.FindById *)
  PmFindById : ObjectId -> option (PaymentMethod A);
  (* currencyManager.FindByCodeA3 *)
  FindByCodeA3 : string -> option Currency;
  (* currencyRateManager.convert(from, to, amount) *)
  convert : Z -> Z -> A -> A * option error;
  (* commissionManager.CalculateCommission(projectId, pmId, amount) *)
  CalculateCommission :
    ObjectId -> ObjectId -> A -> option (CommissionOrder A) * option error;
  (* vatManager.CalculateVat(country, subdivision, amount) *)
  CalculateVat : string -> string -> A -> A * option error;
  (* geoDbReader.City(net.ParseIP(ip)); None when it reports an error *)
  geoDbReader_City : string -> option geoip2.City;
  pspAccountingCurrency : option Currency;
  (* paymentSystemsSettings.GetPaymentHandler(order, settings) *)
  GetPaymentHandler : Order A -> gmap string string -> PaymentHandler + error;
  (* the shared amount formatting rule *)
  FormatAmount : A -> A;
  (* crypto/sha256 over the bytes of a string, as a string *)
  sha256 : string -> string;
  (* bson.NewObjectId() and time.Now() *)
  NewObjectId : ObjectId;
  Now : Time;
  (* Database.Repository(TableOrder) *)
  FindOrderById : Store -> string -> option (Order A);
  FindOrderByProjectOrderId : Store -> string -> option (Order A);
  InsertOrder : Store -> Order A -> option error * Store;
  UpdateOrder : Store -> Order A -> option error * Store
}.

End Collaborators.

Arguments PaymentHandler A : clear implicits.
Arguments OrderManager A Store : clear implicits.

(** ** The order creation pipeline *)

Section Pipeline.
Context {A : Type} `{Amount A} {Store : Type}.
Variable om : OrderManager A Store.

(** *** [getPaymentMethod] *)

(** One pass of the loop: keep [ppm] when nothing was kept yet or when the
    kept configuration was added before it. *)
Definition laterAdded (opm : option ProjectPaymentModes) (ppm : ProjectPaymentModes)
  : option ProjectPaymentModes :=
  match opm with
  | None => Some ppm
  | Some o => if AddedAt o <? AddedAt ppm then Some ppm else Some o
  end.

Definition getPaymentMethod (order : OrderScalar A)
    (pms : gmap string (list ProjectPaymentModes))
  : Outcome (option ProjectPaymentModes) :=
  name ← deref (OsPaymentMethod order);
  match pms !! name with
  | None => Err orderErrorPaymentMethodNotAllowed
  | Some cpms =>
      if (length cpms <=? 0)%nat then Err orderErrorPaymentMethodNotAllowed
      else Ok (fold_left laterAdded cpms None)
  end.

(** *** [checkPaymentMethod] *)

Definition checkPaymentMethod (c : check A) : Outcome (PaymentMethod A) :=
  opm ← getPaymentMethod (c_order c) (PPaymentMethods (c_project c));
  opm ← deref opm;
  match PmFindById om (PpmId opm) with
  | None => Err orderErrorPaymentMethodNotFound
  | Some pm =>
      if negb (PmIsActive pm) then Err orderErrorPaymentMethodInactive
      else
        match PmPaymentSystem pm with
        | None => Err orderErrorPaymentSystemNotFound
        | Some ps =>
            if negb (PsIsActive ps) then Err orderErrorPaymentSystemInactive
            else Ok pm
        end
  end.

(** *** [checkProjectLimits] and [checkPaymentMethodLimits] *)

(** The amount the limits are compared with: converted when the order has a
    currency that differs from the currency of the limits. *)
Definition limitAmount (c : check A) (limits : Currency) : Outcome A :=
  match c_oCurrency c with
  | Some oc =>
      if negb (String.eqb (CodeA3 oc) (CodeA3 limits))
      then checked (convert om (CodeInt oc) (CodeInt limits) (Amount_ (c_order c)))
      else Ok (Amount_ (c_order c))
  | None => Ok (Amount_ (c_order c))
  end.

Definition checkProjectLimits (c : check A) : Outcome unit :=
  cAmount ← limitAmount c (LimitsCurrency (c_project c));
  if altb cAmount (MinPaymentAmount (c_project c))
  then Err orderErrorAmountLowerThanMinAllowed
  else if agtb cAmount (MaxPaymentAmount (c_project c))
  then Err orderErrorAmountGreaterThanMaxAllowed
  else Ok tt.

Definition checkPaymentMethodLimits (c : check A) : Outcome (pmOutcomeData A) :=
  pm ← deref (c_paymentMethod c);
  cAmount ← limitAmount c (PmCurrency pm);
  if altb cAmount (PmMinPaymentAmount pm)
  then Err orderErrorAmountLowerThanMinAllowedPaymentMethod
  else if agtb cAmount (PmMaxPaymentAmount pm)
  then Err orderErrorAmountGreaterThanMaxAllowedPaymentMethod
  else Ok {| pmo_amount := cAmount; pmo_currency := PmCurrency pm |}.

(** *** [getOrderFixedPackage] *)

(** The loop over the packages of the region, from index [i] on: [ofp] holds
    the package kept so far with its index.  The currency of the request is
    dereferenced only when the price already matches. *)
Fixpoint fixedPackageLoop (order : OrderScalar A) (fps : list (FixedPackage A))
    (i : nat) (ofp : option (FixedPackage A * nat))
  : Outcome (option (FixedPackage A * nat)) :=
  match fps with
  | [] => Ok ofp
  | fp :: rest =>
      if aneqb (FpPrice fp) (Amount_ order)
      then fixedPackageLoop order rest (S i) ofp
      else
        cur ← deref (OsCurrency order);
        if negb (String.eqb (CodeA3 (FpCurrency fp)) cur)
        then fixedPackageLoop order rest (S i) ofp
        else fixedPackageLoop order rest (S i) (Some (fp, i))
  end.

(** The region the packages are looked up for. *)
Definition payerRegion (order : OrderScalar A) (gRecord : geoip2.City) : string :=
  let region := match Region order with Some r => r | None => "" end in
  if String.eqb region "" then geoip2.IsoCode (geoip2.CityCountry gRecord)
  else region.

Definition getOrderFixedPackage (c : check A)
  : Outcome (geoip2.City * OrderFixedPackage A) :=
  match geoDbReader_City om (CreateOrderIp (c_order c)) with
  | None => Err orderErrorPayerRegionUnknown
  | Some gRecord =>
      let region := payerRegion (c_order c) gRecord in
      match PFixedPackage (c_project c) !! region with
      | None => Err orderErrorFixedPackageForRegionNotFound
      | Some fps =>
          if (length fps <=? 0)%nat
          then Err orderErrorFixedPackageForRegionNotFound
          else
            found ← fixedPackageLoop (c_order c) fps 0%nat None;
            match found with
            | None => Err orderErrorFixedPackageNotFound
            | Some (ofp, ofpId) =>
                Ok (gRecord,
                    {| OfpId := ofpId;
                       OfpRegion := region;
                       OfpName := FpName ofp;
                       OfpCurrencyInt := FpCurrencyInt ofp;
                       OfpPrice := FpPrice ofp |})
            end
      end
  end.

(** *** [checkSignature] *)

(** [for k := range params { keys = append(keys, k) }], for the order [iter]
    in which the map happens to be traversed. *)
Definition collectKeys (iter : list string) : list string :=
  fold_left (fun keys k => keys ++ [k]) iter [].

(** [sort.Strings]: ascending in the byte-wise order of Go strings. *)
Definition sortStrings (keys : list string) : list string :=
  merge_sort String.le keys.

(** [for _, k := range keys { gs = append(gs, k + "=" + params[k]) }]. *)
Definition signatureElements (params : gmap string string) (keys : list string)
  : list string :=
  fold_left (fun gs k => gs ++ [k +:+ "=" +:+ default "" (params !! k)]) keys [].

(** The signature the manager computes for a request, when the raw
    parameters are traversed in the order [iter]. *)
Definition requestSignature (params : gmap string string) (secret : string)
    (iter : list string) : string :=
  let keys := sortStrings (collectKeys iter) in
  let gs := signatureElements params keys in
  sha256 om (String.concat orderSignatureElementsGlue gs
             +:+ orderSignatureElementsGlue +:+ secret).

Definition checkSignature (c : check A) : Outcome unit :=
  let params := RawRequestParams (c_order c) in
  let computed :=
    requestSignature params (SecretKey (c_project c)) (map_to_list params).*1 in
  supplied ← deref (Signature (c_order c));
  if negb (String.eqb computed supplied) then Err orderErrorSignatureInvalid
  else Ok tt.

(** *** [checkProjectOrderIdUnique] *)

Definition checkProjectOrderIdUnique (order : OrderScalar A) : M Store unit :=
  fun st =>
    match OrderId order with
    | None => (Ok tt, st)
    | Some oid =>
        match FindOrderByProjectOrderId om st oid with
        | None => (Ok tt, st)
        | Some _ => (Err orderErrorProjectOrderIdIsDuplicate, st)
        end
    end.

(** *** [Process] *)

(** The scalar part of the request copied into the [check] bundle; the
    other fields of the copy keep their zero values. *)
Definition checkOrder (order : OrderScalar A) : OrderScalar A :=
  {| ProjectId := "";
     Amount_ := Amount_ order;
     OsCurrency := OsCurrency order;
     Region := Region order;
     CreateOrderIp := CreateOrderIp order;
     RawRequestParams := RawRequestParams order;
     Signature := Signature order;
     OsPaymentMethod := OsPaymentMethod order;
     OrderId := None;
     Account := "";
     OsDescription := None;
     UrlVerify := None;
     UrlNotify := None;
     UrlSuccess := None;
     UrlFail := None;
     PayerPhone := None;
     PayerEmail := None;
     Other := ∅;
     OsIsJsonRequest := false |}.

(** What the payment method block of [Process] leaves behind: the amount
    sent to the payment method, the commissions and the VAT. *)
Definition paymentMethodAmounts (order : OrderScalar A) (p : Project A)
    (c : check A) (pm : option (PaymentMethod A)) (gRecord : option geoip2.City)
  : Outcome (option (pmOutcomeData A) * option (CommissionOrder A) * A) :=
  match OsPaymentMethod order with
  | None => Ok (None, None, a0)
  | Some _ =>
      pmOutcome ← checkPaymentMethodLimits c;
      let pmOutAmount := pmo_amount pmOutcome in
      pmv ← deref pm;
      commissions ←
        checked (CalculateCommission om (PId p) (PmId pmv) (pmo_amount pmOutcome));
      pmOutAmount ←
        (if IsCommissionToUserEnabled (PMerchant p)
         then cm ← deref commissions; Ok (aadd pmOutAmount (ToUserCommission cm))
         else Ok pmOutAmount);
      '(vatAmount, pmOutAmount) ←
        (if IsVatEnabled (PMerchant p)
         then
           g ← deref gRecord;
           sub ← deref (head (geoip2.Subdivisions g));
           vat ← checked (CalculateVat om (geoip2.IsoCode (geoip2.CityCountry g))
                            (geoip2.SubIsoCode sub) (pmo_amount pmOutcome));
           Ok (vat, aadd pmOutAmount vat)
         else Ok (a0, pmOutAmount));
      Ok (Some {| pmo_amount := pmOutAmount; pmo_currency := pmo_currency pmOutcome |},
          commissions, vatAmount)
  end.

(** The commission block: fees of the order in the payment method currency,
    then in the currency of the merchant. *)
Definition orderCommissions (p : Project A) (pmv : PaymentMethod A)
    (commissions : option (CommissionOrder A)) (nOrder : Order A)
  : Outcome (Order A) :=
  match commissions with
  | None => Ok nOrder
  | Some cm =>
      let nOrder :=
        set_ProjectFeeAmount
          (FormatAmount om (aadd (PspCommission cm) (PMCommission cm))) nOrder in
      let nOrder := set_PaymentMethodFeeAmount (FormatAmount om (PMCommission cm)) nOrder in
      pspConvertCommission ←
        checked (convert om (CodeInt (PmCurrency pmv))
                   (CodeInt (MerchantCurrency (PMerchant p))) (PMCommission cm));
      let nOrder := set_PspFeeAmount (FormatAmount om pspConvertCommission) nOrder in
      let nOrder :=
        if IsCommissionToUserEnabled (PMerchant p)
        then
          let nOrder :=
            set_ToPayerFeeAmount (FormatAmount om (ToUserCommission cm)) nOrder in
          set_ProjectFeeAmount
            (FormatAmount om (asub (ProjectFeeAmount nOrder) (ToPayerFeeAmount nOrder)))
            nOrder
        else nOrder in
      prjConvertCommission ←
        checked (convert om (CodeInt (PmCurrency pmv))
                   (CodeInt (MerchantCurrency (PMerchant p))) (ProjectFeeAmount nOrder));
      Ok (set_ProjectFeeAmount (FormatAmount om prjConvertCommission) nOrder)
  end.

(** The closing [InsertOrder]: a failure of the table is reported as
    [orderErrorCanNotCreate]. *)
Definition insertNewOrder (nOrder : Order A) : M Store (Order A) :=
  fun st =>
    match InsertOrder om st nOrder with
    | (Some _, st') => (Err orderErrorCanNotCreate, st')
    | (None, st') => (Ok nOrder, st')
    end.

(** The order currency: looked up only when the request names one. *)
Definition orderCurrency (order : OrderScalar A) : Outcome (option Currency) :=
  match OsCurrency order with
  | None => Ok None
  | Some code =>
      match FindByCodeA3 om code with
      | None => Err orderErrorCurrencyNotFound
      | Some cur => Ok (Some cur)
      end
  end.

(** The bundle the validation steps receive. *)
Definition newCheck (order : OrderScalar A) (p : Project A)
    (oCurrency : option Currency) (pm : option (PaymentMethod A)) : check A :=
  {| c_order := checkOrder order; c_project := p;
     c_oCurrency := oCurrency; c_paymentMethod := pm |}.

(** The geo record and the fixed package: fetched only for a project that
    sells fixed amounts, [nil] otherwise. *)
Definition orderFixedPackage (p : Project A) (c : check A)
  : Outcome (option geoip2.City * option (OrderFixedPackage A)) :=
  if OnlyFixedAmounts p
  then '(g, fp) ← getOrderFixedPackage c; Ok (Some g, Some fp)
  else Ok (None, None).

(** The struct literal of the new order.  [oc], [g] and [sub] are
    [*oCurrency], [*gRecord] and [gRecord.Subdivisions[0]], which the literal
    and the two conversions before it dereference. *)
Definition newOrder (order : OrderScalar A) (p : Project A)
    (oCurrency : option Currency) (oc : Currency)
    (g : geoip2.City) (sub : geoip2.Subdivision)
    (ofp : option (OrderFixedPackage A)) (vatAmount : A) : Order A :=
  let mACAmount :=
    (convert om (CodeInt oc) (CodeInt (MerchantCurrency (PMerchant p))) (Amount_ order)).1 in
  let pOutAmount :=
    (convert om (CodeInt oc) (CodeInt (CallbackCurrency p)) (Amount_ order)).1 in
  let id := NewObjectId om in
  let names := geoip2.Names (geoip2.CityCountry g) in
  {| Id := id;
     OProject := {| PoId := PId p; PoName := PName p; PoMerchant := PMerchant p |};
     Description := orderDefaultDescription id;
     ProjectOrderId := OrderId order;
     ProjectAccount := Account order;
     ProjectIncomeAmount := FormatAmount om (Amount_ order);
     ProjectIncomeCurrency := oCurrency;
     ProjectOutcomeAmount := FormatAmount om pOutAmount;
     ProjectOutcomeCurrency := CallbackCurrency p;
     ProjectParams := Other order;
     OPayerData :=
       {| Ip := CreateOrderIp order;
          CountryCodeA2 := geoip2.IsoCode (geoip2.CityCountry g);
          CountryName := {| EN := default "" (names !! "en");
                            RU := default "" (names !! "ru") |};
          PdCity := {| EN := default "" (geoip2.CityNames g !! "en");
                       RU := default "" (geoip2.CityNames g !! "ru") |};
          Subdivision := geoip2.SubIsoCode sub;
          Timezone := geoip2.TimeZone g;
          Phone := PayerPhone order;
          Email := PayerEmail order |};
     OPaymentMethod := None;
     PaymentMethodOutcomeAmount := a0;
     PaymentMethodOutcomeCurrency := None;
     PaymentMethodIncomeAmount := a0;
     PaymentMethodIncomeCurrencyA3 := "";
     PaymentMethodIncomeCurrency := None;
     Status := OrderStatusNew;
     CreatedAt := Now om;
     UpdatedAt := 0;
     IsJsonRequest := OsIsJsonRequest order;
     OFixedPackage := ofp;
     AmountInMerchantAccountingCurrency := FormatAmount om mACAmount;
     AmountOutMerchantAccountingCurrency := a0;
     AmountInPSPAccountingCurrency := a0;
     AmountInPaymentSystemAccountingCurrency := a0;
     ProjectFeeAmount := a0;
     PaymentMethodFeeAmount := a0;
     PspFeeAmount := a0;
     ToPayerFeeAmount := a0;
     VatAmount := FormatAmount om vatAmount |}.

(** [if order.Description != nil { nOrder.Description = *order.Description }]. *)
Definition orderDescription (order : OrderScalar A) (nOrder : Order A) : Order A :=
  match OsDescription order with
  | Some d => set_Description d nOrder
  | None => nOrder
  end.

(** The last block before the insert: the payment method of the order, the
    amount sent to it and the commissions. *)
Definition orderPaymentMethod (order : OrderScalar A) (p : Project A)
    (pm : option (PaymentMethod A)) (pmOutcome : option (pmOutcomeData A))
    (commissions : option (CommissionOrder A)) (nOrder : Order A)
  : Outcome (Order A) :=
  match OsPaymentMethod order with
  | None => Ok nOrder
  | Some _ =>
      pmv ← deref pm;
      let nOrder :=
        set_OPaymentMethod
          (Some {| OpmId := PmId pmv; OpmName := PmName pmv;
                   OpmParams := PmParams pmv;
                   OpmPaymentSystem := PmPaymentSystem pmv;
                   OpmGroupAlias := PmGroupAlias pmv |}) nOrder in
      pmOut ← deref pmOutcome;
      let nOrder :=
        set_PaymentMethodOutcomeAmount (FormatAmount om (pmo_amount pmOut)) nOrder in
      let nOrder :=
        set_PaymentMethodOutcomeCurrency (Some (pmo_currency pmOut)) nOrder in
      orderCommissions p pmv commissions nOrder
  end.

(** Dynamic URLs of the request against the permissions of the project. *)
Definition checkDynamicUrls (order : OrderScalar A) (p : Project A) : Outcome unit :=
  if (bool_decide (is_Some (UrlVerify order)) || bool_decide (is_Some (UrlNotify order)))
     && negb (IsAllowDynamicNotifyUrls p)
  then Err orderErrorDynamicNotifyUrlsNotAllowed
  else if (bool_decide (is_Some (UrlSuccess order))
           || bool_decide (is_Some (UrlFail order)))
          && negb (IsAllowDynamicRedirectUrls p)
  then Err orderErrorDynamicRedirectUrlsNotAllowed
  else Ok tt.

Definition Process (order : OrderScalar A) : M Store (Order A) :=
  p ← lift (match FindProjectById om (ProjectId order) with
            | None => Err orderErrorProjectNotFound
            | Some p => Ok p
            end);
  _ ← lift (if negb (PIsActive p) then Err orderErrorProjectInactive else Ok tt);
  oCurrency ← lift (orderCurrency order);
  let c := newCheck order p oCurrency None in
  _ ← lift (match Signature order with
            | Some _ => checkSignature c
            | None => Ok tt
            end);
  pm ← lift (match OsPaymentMethod order with
             | Some _ => pm ← checkPaymentMethod c; Ok (Some pm)
             | None => Ok None
             end);
  let c := newCheck order p oCurrency pm in
  '(gRecord, ofp) ← lift (orderFixedPackage p c);
  _ ← lift (checkProjectLimits c);
  '(pmOutcome, commissions, vatAmount) ←
    lift (paymentMethodAmounts order p c pm gRecord);
  _ ← match OrderId order with
      | Some _ => checkProjectOrderIdUnique order
      | None => mret tt
      end;
  _ ← lift (checkDynamicUrls order p);
  oc ← lift (deref oCurrency);
  g ← lift (deref gRecord);
  sub ← lift (deref (head (geoip2.Subdivisions g)));
  let nOrder := newOrder order p oCurrency oc g sub ofp vatAmount in
  let nOrder := orderDescription order nOrder in
  nOrder ← lift (orderPaymentMethod order p pm pmOutcome commissions nOrder);
  insertNewOrder nOrder.

(** ** Payment method chosen on the order form *)

(** [&model.OrderScalar{Amount: amount}]. *)
Definition amountOnly (amount : A) : OrderScalar A :=
  {| ProjectId := ""; Amount_ := amount; OsCurrency := None; Region := None;
     CreateOrderIp := ""; RawRequestParams := ∅; Signature := None;
     OsPaymentMethod := None; OrderId := None; Account := "";
     OsDescription := None; UrlVerify := None; UrlNotify := None;
     UrlSuccess := None; UrlFail := None; PayerPhone := None;
     PayerEmail := None; Other := ∅; OsIsJsonRequest := false |}.

(** [o.PaymentMethod != nil && o.PaymentMethod.Id == pm.Id]. *)
Definition samePaymentMethod (o : Order A) (pm : PaymentMethod A) : bool :=
  match OPaymentMethod o with
  | Some opm => String.eqb (OpmId opm) (PmId pm)
  | None => false
  end.

(** The error of [CalculateCommission] is overwritten before it is read, so
    only the returned pointer matters here. *)
Definition modifyOrderAfterOrderFormSubmit (o : Order A) (pm : PaymentMethod A)
  : Outcome (Order A) :=
  if samePaymentMethod o pm then Ok o else
  match FindProjectById om (PoId (OProject o)) with
  | None => Err orderErrorProjectNotFound
  | Some p =>
      let c := {| c_order := amountOnly (ProjectIncomeAmount o); c_project := p;
                  c_oCurrency := ProjectIncomeCurrency o;
                  c_paymentMethod := Some pm |} in
      pmOutData ← checkPaymentMethodLimits c;
      let pmOutAmount := pmo_amount pmOutData in
      cm ← deref (CalculateCommission om (PoId (OProject o)) (PmId pm)
                    (pmo_amount pmOutData)).1;
      let o := set_ProjectFeeAmount
                 (FormatAmount om (aadd (PspCommission cm) (PMCommission cm))) o in
      let o := set_PaymentMethodFeeAmount (FormatAmount om (PMCommission cm)) o in
      pspConvertCommission ←
        checked (convert om (CodeInt (PmCurrency pm))
                   (CodeInt (MerchantCurrency (PMerchant p))) (PMCommission cm));
      let o := set_PspFeeAmount (FormatAmount om pspConvertCommission) o in
      let '(pmOutAmount, o) :=
        if IsCommissionToUserEnabled (PoMerchant (OProject o))
        then
          let o := set_ToPayerFeeAmount (FormatAmount om (ToUserCommission cm)) o in
          (aadd pmOutAmount (ToUserCommission cm),
           set_ProjectFeeAmount
             (FormatAmount om (asub (ProjectFeeAmount o) (ToPayerFeeAmount o))) o)
        else (pmOutAmount, o) in
      prjConvertCommission ←
        checked (convert om (CodeInt (PmCurrency pm))
                   (CodeInt (MerchantCurrency (PMerchant p))) (ProjectFeeAmount o));
      let o := set_ProjectFeeAmount (FormatAmount om prjConvertCommission) o in
      '(pmOutAmount, o) ←
        (if IsVatEnabled (PoMerchant (OProject o))
         then
           vat ← checked (CalculateVat om (CountryCodeA2 (OPayerData o))
                            (Subdivision (OPayerData o)) (pmo_amount pmOutData));
           Ok (aadd pmOutAmount vat, set_VatAmount (FormatAmount om vat) o)
         else Ok (pmOutAmount, o));
      let o := set_OPaymentMethod
                 (Some {| OpmId := PmId pm; OpmName := PmName pm;
                          OpmParams := PmParams pm;
                          OpmPaymentSystem := PmPaymentSystem pm;
                          OpmGroupAlias := PmGroupAlias pm |}) o in
      let o := set_PaymentMethodOutcomeAmount (FormatAmount om pmOutAmount) o in
      Ok (set_PaymentMethodOutcomeCurrency (Some (pmo_currency pmOutData)) o)
  end.

(** ** The payment notification pipeline *)

(** [FindById]: a failure of the query is logged, the order is then [nil]. *)
Definition FindById (id : string) : M Store (option (Order A)) :=
  fun st => (oid ← ObjectIdHex id; Ok (FindOrderById om st oid), st).

Definition processNotifyPaymentAmounts (o : Order A) : Outcome (Order A) :=
  let o := set_PaymentMethodIncomeCurrency
             (FindByCodeA3 om (PaymentMethodIncomeCurrencyA3 o)) o in
  match PaymentMethodIncomeCurrency o with
  | None => Err orderErrorOrderPaymentMethodIncomeCurrencyNotFound
  | Some income =>
      amount ← checked (convert om (CodeInt income)
                          (CodeInt (ProjectOutcomeCurrency o))
                          (PaymentMethodIncomeAmount o));
      let o := set_ProjectOutcomeAmount amount o in
      match pspAccountingCurrency om with
      | None => Err orderErrorOrderPSPAccountingCurrencyNotFound
      | Some psp =>
          amount ← checked (convert om (CodeInt income) (CodeInt psp)
                              (PaymentMethodIncomeAmount o));
          let o := set_AmountInPSPAccountingCurrency amount o in
          amount ← checked (convert om (CodeInt income)
                              (CodeInt (MerchantCurrency (PoMerchant (OProject o))))
                              (PaymentMethodIncomeAmount o));
          let o := set_AmountOutMerchantAccountingCurrency amount o in
          opm ← deref (OPaymentMethod o);
          ps ← deref (OpmPaymentSystem opm);
          amount ← checked (convert om (CodeInt income)
                              (CodeInt (AccountingCurrency ps))
                              (PaymentMethodIncomeAmount o));
          Ok (set_AmountInPaymentSystemAccountingCurrency amount o)
      end
  end.

(** The closing [UpdateOrder]; its error is returned as it is. *)
Definition updateOrder (o : Order A) (hErr : option error)
  : M Store (Order A * option error) :=
  fun st =>
    match UpdateOrder om st o with
    | (Some e, st') => (Err e, st')
    | (None, st') => (Ok (o, hErr), st')
    end.

(** The status recorded for the verdict of the handler. *)
Definition notifiedStatus (hErr : option error) : OrderStatus :=
  match hErr with
  | Some _ => OrderStatusPaymentSystemReject
  | None => OrderStatusPaymentSystemComplete
  end.

(** The result pairs the order with the verdict of the handler, as the Go
    function returns [(o, hErr)]. *)
Definition ProcessNotifyPayment (opn : OrderPaymentNotification)
    (psSettings : gmap string string) : M Store (Order A * option error) :=
  found ← FindById (OpnId opn);
  match found with
  | None => lift (Err orderErrorNotFound)
  | Some o =>
      match Status o with
      | OrderStatusPaymentSystemCreate =>
          match GetPaymentHandler om o psSettings with
          | inr e => lift (Err e)
          | inl handler =>
              let '(o, hErr) := ProcessPayment handler o opn in
              let o := set_Status (notifiedStatus hErr) o in
              o ← lift (processNotifyPaymentAmounts o);
              let o := set_UpdatedAt (Now om) o in
              updateOrder o hErr
          end
      | status => lift (Err (orderErrorOrderAlreadyHasEndedStatus status))
      end
  end.

End Pipeline.

(** ** Listing: the filter builder *)

(** [strconv.ParseInt(s, 10, 64)] (and [strconv.Atoi] on a 64-bit platform):
    an optional sign, then one or more decimal digits, within the range of
    [int64]; [None] stands for a returned error. *)
Definition digitValue (ch : ascii) : option Z :=
  let n := N_of_ascii ch in
  if ((48 <=? n) && (n <=? 57))%N then Some (Z.of_N n - 48) else None.

Fixpoint parseDigits (acc : Z) (s : string) : option Z :=
  match s with
  | EmptyString => Some acc
  | String ch rest =>
      match digitValue ch with
      | Some d => parseDigits (acc * 10 + d) rest
      | None => None
      end
  end.

Definition parseUnsigned (s : string) : option Z :=
  match s with
  | EmptyString => None
  | _ => parseDigits 0 s
  end.

Definition ParseInt (s : string) : option Z :=
  let signed :=
    match s with
    | String "+" rest => parseUnsigned rest
    | String "-" rest => Z.opp <$> parseUnsigned rest
    | _ => parseUnsigned s
    end in
  v ← signed;
  if (- 2 ^ 63 <=? v) && (v <=? 2 ^ 63 - 1) then Some v else None.

Definition Atoi (s : string) : option Z := ParseInt s.

(** The values stored in a [bson.M] filter by [ProcessFilters]. *)
Inductive FilterValue :=
  | FvObjectId (id : ObjectId)
  | FvInObjectIds (ids : list ObjectId)        (* {"$in": []bson.ObjectId} *)
  | FvInStrings (ss : list string)             (* {"$in": []string} *)
  | FvInInts (ints : list Z)                    (* {"$in": []int} *)
  | FvRegExFields (fields : gmap string (string * string))
                                               (* field -> RegEx{Pattern, Options} *)
  | FvDates (range : gmap string Time).        (* {"$gte": t, "$lte": t} *)

(** The names of the request parameters (constants of package [model]). *)
Record OrderFilterFields := {
  OrderFilterFieldId : string;
  OrderFilterFieldPaymentMethods : string;
  OrderFilterFieldCountries : string;
  OrderFilterFieldStatuses : string;
  OrderFilterFieldAccount : string;
  OrderFilterFieldPMDateFrom : string;
  OrderFilterFieldPMDateTo : string;
  OrderFilterFieldProjectDateFrom : string;
  OrderFilterFieldProjectDateTo : string
}.

Section Filters.
Variable model : OrderFilterFields.

(** [for _, pm := range pms { fPms = append(fPms, bson.ObjectIdHex(pm)) }]. *)
Fixpoint objectIdsHex (pms : list string) (fPms : list ObjectId)
  : Outcome (list ObjectId) :=
  match pms with
  | [] => Ok fPms
  | pm :: rest => id ← ObjectIdHex pm; objectIdsHex rest (fPms ++ [id])
  end.

(** The statuses that parse as integers, in order. *)
Definition statusCodes (ss : list string) : list Z :=
  fold_left (fun ssi s => match Atoi s with
                          | Some si => ssi ++ [si]
                          | None => ssi
                          end) ss [].

(** One bound of a date range: [dates[op] = time.Unix(ts, 0)] when the
    parameter [field] is present and its first value parses. *)
Definition dateBound (values : gmap string (list string)) (field op : string)
    (dates : gmap string Time) : Outcome (gmap string Time) :=
  match values !! field with
  | Some vs =>
      first ← deref (head vs);
      match ParseInt first with
      | Some ts => Ok (<[op := ts]> dates)
      | None => Ok dates
      end
  | None => Ok dates
  end.

(** [if len(dates) > 0 { filter[key] = dates }]. *)
Definition setDates (key : string) (dates : gmap string Time)
    (filter : gmap string FilterValue) : gmap string FilterValue :=
  if (0 <? size dates)%nat then <[key := FvDates dates]> filter else filter.

Definition ProcessFilters (values : gmap string (list string))
    (filter : gmap string FilterValue) : Outcome (gmap string FilterValue) :=
  filter ←
    match values !! OrderFilterFieldId model with
    | Some id =>
        first ← deref (head id);
        oid ← ObjectIdHex first;
        Ok (<["_id" := FvObjectId oid]> filter)
    | None => Ok filter
    end;
  filter ←
    match values !! OrderFilterFieldPaymentMethods model with
    | Some pms =>
        fPms ← objectIdsHex pms [];
        Ok (<["payment_method.id" := FvInObjectIds fPms]> filter)
    | None => Ok filter
    end;
  let filter :=
    match values !! OrderFilterFieldCountries model with
    | Some cs => <["payer_data.country_code_a2" := FvInStrings cs]> filter
    | None => filter
    end in
  let filter :=
    match values !! OrderFilterFieldStatuses model with
    | Some ss =>
        let ssi := statusCodes ss in
        if (0 <? length ssi)%nat then <["status" := FvInInts ssi]> filter
        else filter
    | None => filter
    end in
  filter ←
    match values !! OrderFilterFieldAccount model with
    | Some a =>
        first ← deref (head a);
        let ar := (".*" +:+ first +:+ ".*", "i") in
        Ok (<["$or" := FvRegExFields
                (<["project_account" := ar]> (<["pm_account" := ar]>
                 (<["payer_data.phone" := ar]> (<["payer_data.email" := ar]> ∅))))]>
              filter)
    | None => Ok filter
    end;
  pmDates ← dateBound values (OrderFilterFieldPMDateFrom model) "$gte" ∅;
  pmDates ← dateBound values (OrderFilterFieldPMDateTo model) "$lte" pmDates;
  let filter := setDates "pm_order_close_date" pmDates filter in
  prjDates ← dateBound values (OrderFilterFieldProjectDateFrom model) "$gte" ∅;
  prjDates ← dateBound values (OrderFilterFieldProjectDateTo model) "$lte" prjDates;
  Ok (setDates "pm_order_close_date" prjDates filter).

End Filters.

(** ** Revenue dynamics *)

Record RevenueDynamicPointDate := {
  Year : Z;
  Month : Z;
  Week : Z;
  Day : Z;
  Hour : Z
}.

Record RevenueDynamicPoint {A : Type} := {
  Date : RevenueDynamicPointDate;
  PointAmount : A
}.
Arguments RevenueDynamicPoint A : clear implicits.

Record RevenueDynamicMainData {A : Type} := {
  Count : Z;
  Total : A;
  Avg : A
}.
Arguments RevenueDynamicMainData A : clear implicits.

Record RevenueDynamicResult {A : Type} := {
  Points : list (RevenueDynamicPoint A);
  Revenue : RevenueDynamicMainData A;
  Refund : RevenueDynamicMainData A
}.
Arguments RevenueDynamicResult A : clear implicits.

(** One bucket of the aggregation: its period fields ([_id]) and its total. *)
Record FacetPoint {A : Type} := {
  FacetId : gmap string Z;
  FacetTotal : A
}.
Arguments FacetPoint A : clear implicits.

(** The document the aggregation returns: the four facets. *)
Record RevenueDynamicFacet {A : Type} := {
  FacetPointsRefund : list (FacetPoint A);
  FacetPointsRevenue : list (FacetPoint A);
  FacetRevenue : list (RevenueDynamicMainData A);
  FacetRefund : list (RevenueDynamicMainData A)
}.
Arguments RevenueDynamicFacet A : clear implicits.

(** The names of the period fields (constants of package [model]). *)
Record RevenueDynamicRequestPeriods := {
  RevenueDynamicRequestPeriodYear : string;
  RevenueDynamicRequestPeriodMonth : string;
  RevenueDynamicRequestPeriodWeek : string;
  RevenueDynamicRequestPeriodDay : string;
  RevenueDynamicRequestPeriodHour : string
}.

Section Revenue.
Context {A : Type} `{Amount A}.
Variable model : RevenueDynamicRequestPeriods.
(** The shared formatting rule and [RevenueDynamicPointDate.String]. *)
Variable FormatAmount : A -> A.
Variable PointDateString : RevenueDynamicPointDate -> string.

(** The year is asserted to be there; a missing other field keeps its zero
    value. *)
Definition getRevenueDynamicPointsKey (pointId : gmap string Z)
  : Outcome RevenueDynamicPointDate :=
  year ← deref (pointId !! RevenueDynamicRequestPeriodYear model);
  Ok {| Year := year;
        Month := default 0 (pointId !! RevenueDynamicRequestPeriodMonth model);
        Week := default 0 (pointId !! RevenueDynamicRequestPeriodWeek model);
        Day := default 0 (pointId !! RevenueDynamicRequestPeriodDay model);
        Hour := default 0 (pointId !! RevenueDynamicRequestPeriodHour model) |}.

(** First loop: the refund total of each bucket, by the string of its key. *)
Fixpoint refundPoints (pRefund : list (FacetPoint A)) (refPoints : gmap string A)
  : Outcome (gmap string A) :=
  match pRefund with
  | [] => Ok refPoints
  | vm :: rest =>
      key ← getRevenueDynamicPointsKey (FacetId vm);
      refundPoints rest
        (<[PointDateString key := FormatAmount (FacetTotal vm)]> refPoints)
  end.

(** The point of one revenue bucket. *)
Definition revenuePoint (refPoints : gmap string A) (vm : FacetPoint A)
  : Outcome (RevenueDynamicPoint A) :=
  revPointDate ← getRevenueDynamicPointsKey (FacetId vm);
  match refPoints !! PointDateString revPointDate with
  | Some refVal =>
      Ok {| Date := revPointDate;
            PointAmount := FormatAmount (asub (FacetTotal vm) refVal) |}
  | None =>
      Ok {| Date := revPointDate; PointAmount := FormatAmount (FacetTotal vm) |}
  end.

(** Second loop: one point is appended per revenue bucket. *)
Fixpoint revenuePoints (refPoints : gmap string A) (pRevenue : list (FacetPoint A))
    (revPoints : list (RevenueDynamicPoint A))
  : Outcome (list (RevenueDynamicPoint A)) :=
  match pRevenue with
  | [] => Ok revPoints
  | vm :: rest =>
      revPoint ← revenuePoint refPoints vm;
      revenuePoints refPoints rest (revPoints ++ [revPoint])
  end.

Definition mainData (d : RevenueDynamicMainData A) : RevenueDynamicMainData A :=
  {| Count := Count d;
     Total := FormatAmount (Total d);
     Avg := FormatAmount (Avg d) |}.

(** [res] and [err] are what the repository returned for the request. *)
Definition GetRevenueDynamic (res : list (RevenueDynamicFacet A))
    (err : option error) : Outcome (RevenueDynamicResult A) :=
  match err with
  | Some e => Err e
  | None =>
      facet ← deref (head res);
      refPoints ← refundPoints (FacetPointsRefund facet) ∅;
      revPoints ← revenuePoints refPoints (FacetPointsRevenue facet) [];
      rev ← deref (head (FacetRevenue facet));
      ref ← deref (head (FacetRefund facet));
      Ok {| Points := revPoints; Revenue := mainData rev; Refund := mainData ref |}
  end.

End Revenue.

(** ** Listing: [FindAll] *)

(** The struct [FindAll]: the filter values of the request, the projects the
    caller may see, the merchant, and the page. *)
Record FindAllParams := {
  FaValues : gmap string (list string);
  FaProjects : gmap ObjectId string;
  FaMerchant : Merchant;
  FaLimit : Z;
  FaOffset : Z
}.

Record OrderPaginate {Item : Type} := {
  PgCount : Z;
  PgItems : list Item
}.
Arguments OrderPaginate Item : clear implicits.

Section Listing.
Context {A Item : Type}.
Variable model : OrderFilterFields.
(** The two queries of the order table; [None] is the [nil] condition. *)
Variable GetOrdersCountByConditions : option (gmap string FilterValue) -> Z * option error.
Variable FindAllOrders :
  option (gmap string FilterValue) -> Z -> Z -> list (Order A) * option error.
(** [transformOrders] reads fields of the stored documents that the order
    record above does not carry; [FindAll] only hands its result on, so the
    projection is left open here. *)
Variable transformOrders : list (Order A) -> FindAllParams -> Outcome (list Item).

(** [for k := range params.Projects { pFilter = append(pFilter, k) }]. *)
Definition projectIds (params : FindAllParams) : list ObjectId :=
  fold_left (fun pFilter k => pFilter ++ [k]) (map_to_list (FaProjects params)).*1 [].

(** The condition both queries receive: [f] is assigned only when the
    request has filter values. *)
Definition findAllCondition (params : FindAllParams)
  : Outcome (option (gmap string FilterValue)) :=
  let filter := <["project.id" := FvInObjectIds (projectIds params)]> ∅ in
  if (0 <? size (FaValues params))%nat
  then f ← ProcessFilters model (FaValues params) filter; Ok (Some f)
  else Ok None.

(** Errors of the two queries are logged and otherwise dropped. *)
Definition FindAll (params : FindAllParams) : Outcome (OrderPaginate Item) :=
  f ← findAllCondition params;
  let co := (GetOrdersCountByConditions f).1 in
  let o := (FindAllOrders f (FaLimit params) (FaOffset params)).1 in
  ot ← (if (0 <? length o)%nat then transformOrders o params else Ok []);
  Ok {| PgCount := co; PgItems := ot |}.

End Listing.

(** ** Request binders (package [common])

    A binder receives what [echo.DefaultBinder] made of the request (the
    structure and the error of the default binding) together with the
    parameters of the request, and completes or rejects the structure. *)

(** The names of the request parameters and the error values the binders
    return (constants and variables of package [common]). *)
Record RequestParameters := {
  RequestParameterIsSigned : string;
  RequestParameterLimit : string;
  RequestParameterOffset : string;
  RequestParameterName : string;
  RequestParameterSku : string;
  RequestParameterProjectId : string;
  ErrorRequestParamsIncorrect : error;
  ErrorIncorrectMerchantId : error;
  ErrorIncorrectPaymentMethodId : error
}.

(** [strconv.ParseInt(s, 10, 32)]: as with 64 bits, within [int32]. *)
Definition ParseInt32 (s : string) : option Z :=
  v ← ParseInt s;
  if (- 2 ^ 31 <=? v) && (v <=? 2 ^ 31 - 1) then Some v else None.

(** *** [OrderFormBinder] *)

(** The two maps the binder fills from the form, over the entries of the
    form in the order they are met: every parameter goes to the raw
    parameters, those that are no reserved word also to the additional ones;
    each with its first value. *)
Fixpoint orderFormParams (reserved : gset string)
    (params : list (string * list string)) (addParams rawParams : gmap string string)
  : Outcome (gmap string string * gmap string string) :=
  match params with
  | [] => Ok (addParams, rawParams)
  | (key, value) :: rest =>
      first ← deref (head value);
      let addParams :=
        if decide (key ∈ reserved) then addParams else <[key := first]> addParams in
      orderFormParams reserved rest addParams (<[key := first]> rawParams)
  end.

(** The fields of [billing.OrderCreateRequest] the binder writes, beside
    whatever the default binding filled ([OcrBound]). *)
Record OrderCreateRequest {T : Type} := {
  OcrBound : T;
  OcrOther : gmap string string;
  OcrRawParams : gmap string string
}.
Arguments OrderCreateRequest T : clear implicits.

Definition OrderFormBinder_Bind {T : Type} (OrderReservedWords : gset string)
    (o : OrderCreateRequest T) (bindErr : option error)
    (formParams : gmap string (list string) * option error)
  : Outcome (OrderCreateRequest T) :=
  match bindErr with
  | Some e => Err e
  | None =>
      params ← checked formParams;
      '(addParams, rawParams) ← orderFormParams OrderReservedWords (map_to_list params) ∅ ∅;
      Ok {| OcrBound := OcrBound o; OcrOther := addParams; OcrRawParams := rawParams |}
  end.

(** *** [OnboardingMerchantListingBinder] *)

Record MerchantListingRequest := {
  MlLimit : Z;
  MlIsSigned : Z
}.

Definition OnboardingMerchantListingBinder_Bind (names : RequestParameters)
    (LimitDefault : Z) (structure : MerchantListingRequest) (bindErr : option error)
    (params : gmap string (list string)) : Outcome MerchantListingRequest :=
  match bindErr with
  | Some e => Err e
  | None =>
      let structure :=
        if MlLimit structure <=? 0
        then {| MlLimit := LimitDefault; MlIsSigned := MlIsSigned structure |}
        else structure in
      match params !! RequestParameterIsSigned names with
      | Some v =>
          first ← deref (head v);
          if String.eqb first "0" || String.eqb first "false"
          then Ok {| MlLimit := MlLimit structure; MlIsSigned := 2 |}
          else if String.eqb first "1" || String.eqb first "true"
          then Ok {| MlLimit := MlLimit structure; MlIsSigned := 2 |}
          else Err (ErrorRequestParamsIncorrect names)
      | None => Ok structure
      end
  end.

(** *** [ProductsGetProductsListBinder] *)

Record ListProductsRequest := {
  LpLimit : Z;
  LpOffset : Z;
  LpName : string;
  LpSku : string;
  LpProjectId : string
}.

(** A number parameter: absent, it is the default; present, its first value
    has to parse within 32 bits ([numError] is the error of [strconv]). *)
Definition numberParam (numError : string -> error) (params : gmap string (list string))
    (name : string) (default : Z) : Outcome Z :=
  match params !! name with
  | Some v =>
      first ← deref (head v);
      match ParseInt32 first with
      | Some i => Ok i
      | None => Err (numError first)
      end
  | None => Ok default
  end.

(** A text parameter overrides the field only with a first value that is
    not empty. *)
Definition textParam (params : gmap string (list string)) (name : string)
    (current : string) : Outcome string :=
  match params !! name with
  | Some v =>
      first ← deref (head v);
      if negb (String.eqb first "") then Ok first else Ok current
  | None => Ok current
  end.

Definition ProductsGetProductsListBinder_Bind (names : RequestParameters)
    (numError : string -> error) (LimitDefault OffsetDefault : Z)
    (structure : ListProductsRequest) (params : gmap string (list string))
  : Outcome ListProductsRequest :=
  limit ← numberParam numError params (RequestParameterLimit names) LimitDefault;
  offset ← numberParam numError params (RequestParameterOffset names) OffsetDefault;
  name ← textParam params (RequestParameterName names) (LpName structure);
  sku ← textParam params (RequestParameterSku names) (LpSku structure);
  projectId ← textParam params (RequestParameterProjectId names) (LpProjectId structure);
  Ok {| LpLimit := limit; LpOffset := offset; LpName := name; LpSku := sku;
        LpProjectId := projectId |}.

(** *** [OnboardingChangePaymentMethodBinder] *)

(** [PaymentMethod] is a pointer of the request; only its id is read. *)
Record MerchantPaymentMethodRequest := {
  MpmMerchantId : string;
  MpmPaymentMethodId : option string
}.

Definition OnboardingChangePaymentMethodBinder_Bind (names : RequestParameters)
    (structure : MerchantPaymentMethodRequest) (bindErr : option error)
    (merchantId methodId : string) : Outcome MerchantPaymentMethodRequest :=
  match bindErr with
  | Some e => Err e
  | None =>
      if String.eqb merchantId "" || negb (IsObjectIdHex merchantId)
      then Err (ErrorIncorrectMerchantId names)
      else if String.eqb methodId "" || negb (IsObjectIdHex methodId)
      then Err (ErrorIncorrectPaymentMethodId names)
      else
        id ← deref (MpmPaymentMethodId structure);
        if negb (String.eqb id methodId)
        then Err (ErrorIncorrectPaymentMethodId names)
        else Ok {| MpmMerchantId := merchantId;
                   MpmPaymentMethodId := MpmPaymentMethodId structure |}
  end.

(** ** Reference definitions

    Definitions the statements below compare the code with. *)

(** The string that is hashed, for the sorted list of keys. *)
Definition signedText (params : gmap string string) (secret : string)
    (keys : list string) : string :=
  String.concat "|" ((fun k => k +:+ "=" +:+ default "" (params !! k)) <$> keys)
  +:+ "|" +:+ secret.

(** A package matches a request: same price, same currency code. *)
Definition packageMatches {A : Type} `{Amount A} (order : OrderScalar A) (cur : string)
    (fp : FixedPackage A) : Prop :=
  aeqb (FpPrice fp) (Amount_ order) = true /\ CodeA3 (FpCurrency fp) = cur.

(** The fee fields of an order are not negative. *)
Definition feesNonneg {A : Type} `{Amount A} (o : Order A) : Prop :=
  nonneg (ProjectFeeAmount o)
  /\ nonneg (PaymentMethodFeeAmount o)
  /\ nonneg (PspFeeAmount o)
  /\ nonneg (ToPayerFeeAmount o)
  /\ nonneg (VatAmount o).

(** What the fee computation relies on, and the code does not check: the
    arithmetic and the collaborators keep amounts that are not negative so,
    and the part of the commission passed to the payer is not more than the
    commission it is taken from. *)
Record SaneAmounts {A : Type} `{Amount A} {Store : Type}
    (om : OrderManager A Store) : Prop := {
  zero_nonneg : nonneg a0;
  sub_nonneg : forall x y : A, altb x y = false -> nonneg (asub x y);
  format_nonneg : forall x, nonneg x -> nonneg (FormatAmount om x);
  convert_nonneg : forall from to x, nonneg x -> nonneg (convert om from to x).1;
  vat_nonneg : forall country subdivision x,
    nonneg (CalculateVat om country subdivision x).1;
  commission_nonneg : forall projectId pmId x cm,
    (CalculateCommission om projectId pmId x).1 = Some cm ->
    nonneg (PMCommission cm)
    /\ nonneg (aadd (PspCommission cm) (PMCommission cm))
    /\ nonneg (ToUserCommission cm)
    /\ altb (FormatAmount om (aadd (PspCommission cm) (PMCommission cm)))
            (FormatAmount om (ToUserCommission cm)) = false
}.

(** The period of a bucket, every missing field read as zero, and the
    string under which the bucket is known. *)
Definition pointDate (model : RevenueDynamicRequestPeriods) (pointId : gmap string Z)
  : RevenueDynamicPointDate :=
  {| Year := default 0 (pointId !! RevenueDynamicRequestPeriodYear model);
     Month := default 0 (pointId !! RevenueDynamicRequestPeriodMonth model);
     Week := default 0 (pointId !! RevenueDynamicRequestPeriodWeek model);
     Day := default 0 (pointId !! RevenueDynamicRequestPeriodDay model);
     Hour := default 0 (pointId !! RevenueDynamicRequestPeriodHour model) |}.

Definition bucketKey {A : Type} (model : RevenueDynamicRequestPeriods)
    (PointDateString : RevenueDynamicPointDate -> string) (b : FacetPoint A) : string :=
  PointDateString (pointDate model (FacetId b)).

(** The bucket carries the year, which the code asserts. *)
Definition hasYear {A : Type} (model : RevenueDynamicRequestPeriods)
    (b : FacetPoint A) : Prop :=
  is_Some (FacetId b !! RevenueDynamicRequestPeriodYear model).

(** ** A small installation, to run the model

    One merchant accounting in USD, two projects with limits [10, 1000] in
    USD (one selling free amounts, one selling fixed packages), one card
    payment method, integer amounts, an order table kept as a list. *)

Module Demo.

Definition usd : Currency := {| CodeInt := 840; CodeA3 := "USD" |}.
Definition eur : Currency := {| CodeInt := 978; CodeA3 := "EUR" |}.

Definition merchant : Merchant :=
  {| IsCommissionToUserEnabled := true; IsVatEnabled := true;
     MerchantCurrency := usd |}.

Definition cardSystem : PaymentSystem :=
  {| PsIsActive := true; AccountingCurrency := usd |}.

Definition cardId : ObjectId := "5be2c3022b9bb6000765d1aa".
Definition oldCardId : ObjectId := "5be2c3022b9bb6000765d1ab".

Definition card : PaymentMethod Z :=
  {| PmId := cardId; PmName := "Bank card"; PmParams := ∅;
     PmPaymentSystem := Some cardSystem; PmGroupAlias := "bank_card";
     PmCurrency := usd; PmMinPaymentAmount := 1; PmMaxPaymentAmount := 5000;
     PmIsActive := true |}.

Definition packages : list (FixedPackage Z) :=
  [ {| FpName := "Gold"; FpCurrencyInt := 840; FpPrice := 500; FpCurrency := usd |};
    {| FpName := "Silver"; FpCurrencyInt := 840; FpPrice := 50; FpCurrency := usd |};
    {| FpName := "Gold (promo)"; FpCurrencyInt := 840; FpPrice := 500;
       FpCurrency := usd |} ].

Definition openProjectId : ObjectId := "5be2c3022b9bb6000765d132".
Definition fixedProjectId : ObjectId := "5be2c3022b9bb6000765d133".

Definition project (id : ObjectId) (fixed : bool) : Project Z :=
  {| PId := id; PName := "Shop"; PIsActive := true; PMerchant := merchant;
     CallbackCurrency := usd; LimitsCurrency := usd;
     MinPaymentAmount := 10; MaxPaymentAmount := 1000;
     OnlyFixedAmounts := fixed; SecretKey := "secret";
     PPaymentMethods :=
       {[ "card" := [ {| PpmId := oldCardId; AddedAt := 100 |};
                      {| PpmId := cardId; AddedAt := 200 |} ] ]};
     PFixedPackage := {[ "US" := packages ]};
     IsAllowDynamicNotifyUrls := false;
     IsAllowDynamicRedirectUrls := false |}.

Definition california : geoip2.City :=
  {| geoip2.CityCountry :=
       {| geoip2.IsoCode := "US";
          geoip2.Names := {[ "en" := "United States" ]} |};
     geoip2.CityNames := {[ "en" := "Mountain View" ]};
     geoip2.Subdivisions := [ {| geoip2.SubIsoCode := "CA" |} ];
     geoip2.TimeZone := "America/Los_Angeles" |}.

(** A record without subdivisions, as the GeoIP database has them. *)
Definition nowhere : geoip2.City :=
  {| geoip2.CityCountry := {| geoip2.IsoCode := "US"; geoip2.Names := ∅ |};
     geoip2.CityNames := ∅;
     geoip2.Subdivisions := [];
     geoip2.TimeZone := "" |}.

(** The verdict of the handler is read from the notification. *)
Definition handler : PaymentHandler Z :=
  {| ProcessPayment := fun o opn =>
       match OpnRequest opn !! "status" with
       | Some "paid" => (o, None)
       | _ => (o, Some (collaboratorError "payment declined"))
       end |}.

(** The manager of the installation.  Amounts are formatted as they are,
    one rate is known (EUR to USD, 2), the hash is a stand-in that keeps its
    input readable, and the table appends and replaces without failing. *)
Definition om (commission : CommissionOrder Z) : OrderManager Z (list (Order Z)) :=
  {| FindProjectById := fun id =>
       if String.eqb id openProjectId then Some (project openProjectId false)
       else if String.eqb id fixedProjectId then Some (project fixedProjectId true)
       else None;
     PmFindById := fun id => if String.eqb id cardId then Some card else None;
     FindByCodeA3 := fun code =>
       if String.eqb code "USD" then Some usd
       else if String.eqb code "EUR" then Some eur
       else None;
     convert := fun from to amount =>
       if from =? to then (amount, None)
       else if (from =? 978) && (to =? 840) then (2 * amount, None)
       else (0, Some (collaboratorError "rate not found"));
     CalculateCommission := fun _ _ _ => (Some commission, None);
     CalculateVat := fun _ _ _ => (7, None);
     geoDbReader_City := fun ip =>
       if String.eqb ip "8.8.8.8" then Some california
       else if String.eqb ip "10.0.0.1" then Some nowhere
       else None;
     pspAccountingCurrency := Some usd;
     GetPaymentHandler := fun _ _ => inl handler;
     FormatAmount := fun a => a;
     sha256 := fun s => "sha256:" +:+ s;
     NewObjectId := "5be2c3022b9bb6000765d1ff";
     Now := 1546300800;
     FindOrderById := fun st id =>
       List.find (fun o => String.eqb (Id o) id) st;
     FindOrderByProjectOrderId := fun st oid =>
       List.find (fun o => bool_decide (ProjectOrderId o = Some oid)) st;
     InsertOrder := fun st o => (None, st ++ [o]);
     UpdateOrder := fun st o =>
       (None, List.map (fun x => if String.eqb (Id x) (Id o) then o else x) st) |}.

Definition fairCommission : CommissionOrder Z :=
  {| PMCommission := 2; PspCommission := 3; ToUserCommission := 1 |}.

(** The request of a plain order: amount, currency and payer address. *)
Definition request (projectId : ObjectId) (amount : Z) (currency ip : string)
    (paymentMethod : option string) : OrderScalar Z :=
  {| ProjectId := projectId; Amount_ := amount; OsCurrency := Some currency;
     Region := None; CreateOrderIp := ip; RawRequestParams := ∅;
     Signature := None; OsPaymentMethod := paymentMethod; OrderId := None;
     Account := "player"; OsDescription := None; UrlVerify := None;
     UrlNotify := None; UrlSuccess := None; UrlFail := None;
     PayerPhone := None; PayerEmail := None; Other := ∅;
     OsIsJsonRequest := false |}.

(** A commission setting that passes more to the payer than it charges. *)
Definition greedyCommission : CommissionOrder Z :=
  {| PMCommission := 1; PspCommission := 1; ToUserCommission := 5 |}.

(** The Gold package from California, paid by card. *)
Definition cardRequest : OrderScalar Z :=
  request fixedProjectId 500 "USD" "8.8.8.8" (Some "card").

(** An order waiting for the notification of the payment system: the
    payment system reported 508 USD for it. *)
Definition storedOrder : Order Z :=
  {| Id := "5be2c3022b9bb6000765d1ff";
     OProject := {| PoId := fixedProjectId; PoName := "Shop"; PoMerchant := merchant |};
     Description := "Payment by order # 5be2c3022b9bb6000765d1ff";
     ProjectOrderId := None;
     ProjectAccount := "player";
     ProjectIncomeAmount := 500;
     ProjectIncomeCurrency := Some usd;
     ProjectOutcomeAmount := 500;
     ProjectOutcomeCurrency := usd;
     ProjectParams := ∅;
     OPayerData :=
       {| Ip := "8.8.8.8"; CountryCodeA2 := "US";
          CountryName := {| EN := "United States"; RU := "" |};
          PdCity := {| EN := "Mountain View"; RU := "" |};
          Subdivision := "CA"; Timezone := "America/Los_Angeles";
          Phone := None; Email := None |};
     OPaymentMethod :=
       Some {| OpmId := cardId; OpmName := "Bank card"; OpmParams := ∅;
               OpmPaymentSystem := Some cardSystem; OpmGroupAlias := "bank_card" |};
     PaymentMethodOutcomeAmount := 508;
     PaymentMethodOutcomeCurrency := Some usd;
     PaymentMethodIncomeAmount := 508;
     PaymentMethodIncomeCurrencyA3 := "USD";
     PaymentMethodIncomeCurrency := None;
     Status := OrderStatusPaymentSystemCreate;
     CreatedAt := 1546300000;
     UpdatedAt := 0;
     IsJsonRequest := false;
     OFixedPackage := None;
     AmountInMerchantAccountingCurrency := 500;
     AmountOutMerchantAccountingCurrency := 0;
     AmountInPSPAccountingCurrency := 0;
     AmountInPaymentSystemAccountingCurrency := 0;
     ProjectFeeAmount := 4;
     PaymentMethodFeeAmount := 2;
     PspFeeAmount := 2;
     ToPayerFeeAmount := 1;
     VatAmount := 7 |}.

(** A signed request: two raw parameters and the signature over them. *)
Definition signedRequest : OrderScalar Z :=
  {| ProjectId := fixedProjectId; Amount_ := 500; OsCurrency := Some "USD";
     Region := None; CreateOrderIp := "8.8.8.8";
     RawRequestParams := {[ "currency" := "USD"; "amount" := "500" ]};
     Signature := Some "sha256:amount=500|currency=USD|secret";
     OsPaymentMethod := Some "card"; OrderId := None;
     Account := "player"; OsDescription := None; UrlVerify := None;
     UrlNotify := None; UrlSuccess := None; UrlFail := None;
     PayerPhone := None; PayerEmail := None; Other := ∅;
     OsIsJsonRequest := false |}.

(** The bundle [Process] builds for [signedRequest]. *)
Definition signedCheck : check Z :=
  newCheck signedRequest (project fixedProjectId true) (Some usd) None.

(** The names of the filter parameters. *)
Definition filterFields : OrderFilterFields :=
  {| OrderFilterFieldId := "id";
     OrderFilterFieldPaymentMethods := "payment_method[]";
     OrderFilterFieldCountries := "country[]";
     OrderFilterFieldStatuses := "status[]";
     OrderFilterFieldAccount := "account";
     OrderFilterFieldPMDateFrom := "pm_date_from";
     OrderFilterFieldPMDateTo := "pm_date_to";
     OrderFilterFieldProjectDateFrom := "project_date_from";
     OrderFilterFieldProjectDateTo := "project_date_to" |}.

(** Both date ranges of a listing request, and the project range alone. *)
Definition bothRanges : gmap string (list string) :=
  {[ "pm_date_from" := ["100"]; "pm_date_to" := ["200"];
     "project_date_from" := ["300"]; "project_date_to" := ["400"] ]}.

Definition projectRangeOnly : gmap string (list string) :=
  {[ "project_date_from" := ["300"]; "project_date_to" := ["400"] ]}.

(** The names of the period fields and the string of a period. *)
Definition periods : RevenueDynamicRequestPeriods :=
  {| RevenueDynamicRequestPeriodYear := "year";
     RevenueDynamicRequestPeriodMonth := "month";
     RevenueDynamicRequestPeriodWeek := "week";
     RevenueDynamicRequestPeriodDay := "day";
     RevenueDynamicRequestPeriodHour := "hour" |}.

Definition periodString (d : RevenueDynamicPointDate) : string :=
  pretty (Year d) +:+ "-" +:+ pretty (Month d) +:+ "-" +:+ pretty (Week d)
  +:+ "-" +:+ pretty (Day d) +:+ "-" +:+ pretty (Hour d).

(** Two months of revenue, a refund in the first. *)
Definition january : gmap string Z := {[ "year" := 2019; "month" := 1 ]}.
Definition february : gmap string Z := {[ "year" := 2019; "month" := 2 ]}.

Definition facet : RevenueDynamicFacet Z :=
  {| FacetPointsRefund := [ {| FacetId := january; FacetTotal := 30 |} ];
     FacetPointsRevenue := [ {| FacetId := january; FacetTotal := 100 |};
                             {| FacetId := february; FacetTotal := 100 |} ];
     FacetRevenue := [ {| Count := 2; Total := 200; Avg := 100 |} ];
     FacetRefund := [ {| Count := 1; Total := 30; Avg := 30 |} ] |}.

(** The payment system declines the payment of [storedOrder]. *)
Definition declined : OrderPaymentNotification :=
  {| OpnId := "5be2c3022b9bb6000765d1ff"; OpnRequest := {[ "status" := "declined" ]} |}.

(** A request that names no currency. *)
Definition noCurrencyRequest : OrderScalar Z :=
  {| ProjectId := openProjectId; Amount_ := 500; OsCurrency := None;
     Region := None; CreateOrderIp := "8.8.8.8"; RawRequestParams := ∅;
     Signature := None; OsPaymentMethod := None; OrderId := None;
     Account := "player"; OsDescription := None; UrlVerify := None;
     UrlNotify := None; UrlSuccess := None; UrlFail := None;
     PayerPhone := None; PayerEmail := None; Other := ∅;
     OsIsJsonRequest := false |}.

(** A request for a package, carrying the number the shop gave the order. *)
Definition numberedRequest (amount : Z) (oid : string) : OrderScalar Z :=
  {| ProjectId := fixedProjectId; Amount_ := amount; OsCurrency := Some "USD";
     Region := None; CreateOrderIp := "8.8.8.8"; RawRequestParams := ∅;
     Signature := None; OsPaymentMethod := None; OrderId := Some oid;
     Account := "player"; OsDescription := None; UrlVerify := None;
     UrlNotify := None; UrlSuccess := None; UrlFail := None;
     PayerPhone := None; PayerEmail := None; Other := ∅;
     OsIsJsonRequest := false |}.

(** The parameters of [signedRequest] run together into one value, under
    the signature of [signedRequest]. *)
Definition mergedRequest : OrderScalar Z :=
  {| ProjectId := fixedProjectId; Amount_ := 500; OsCurrency := Some "USD";
     Region := None; CreateOrderIp := "8.8.8.8";
     RawRequestParams := {[ "amount" := "500|currency=USD" ]};
     Signature := Some "sha256:amount=500|currency=USD|secret";
     OsPaymentMethod := Some "card"; OrderId := None;
     Account := "player"; OsDescription := None; UrlVerify := None;
     UrlNotify := None; UrlSuccess := None; UrlFail := None;
     PayerPhone := None; PayerEmail := None; Other := ∅;
     OsIsJsonRequest := false |}.

Definition mergedCheck : check Z :=
  newCheck mergedRequest (project fixedProjectId true) (Some usd) None.

(** A second payment method, for the payer who changes on the form. *)
Definition walletId : ObjectId := "5be2c3022b9bb6000765d1ac".

Definition wallet : PaymentMethod Z :=
  {| PmId := walletId; PmName := "Wallet"; PmParams := ∅;
     PmPaymentSystem := Some cardSystem; PmGroupAlias := "wallet";
     PmCurrency := usd; PmMinPaymentAmount := 1; PmMaxPaymentAmount := 5000;
     PmIsActive := true |}.

(** The installation with another commission service and another update of
    the order table. *)
Definition withCalls
    (calculate : ObjectId -> ObjectId -> Z -> option (CommissionOrder Z) * option error)
    (update : list (Order Z) -> Order Z -> option error * list (Order Z))
  : OrderManager Z (list (Order Z)) :=
  let base := om fairCommission in
  {| FindProjectById := FindProjectById base;
     PmFindById := PmFindById base;
     FindByCodeA3 := FindByCodeA3 base;
     convert := convert base;
     CalculateCommission := calculate;
     CalculateVat := CalculateVat base;
     geoDbReader_City := geoDbReader_City base;
     pspAccountingCurrency := pspAccountingCurrency base;
     GetPaymentHandler := GetPaymentHandler base;
     FormatAmount := FormatAmount base;
     sha256 := sha256 base;
     NewObjectId := NewObjectId base;
     Now := Now base;
     FindOrderById := FindOrderById base;
     FindOrderByProjectOrderId := FindOrderByProjectOrderId base;
     InsertOrder := InsertOrder base;
     UpdateOrder := update |}.

(** An update that fails on an order the table does not hold. *)
Definition strictUpdate (st : list (Order Z)) (o : Order Z)
  : option error * list (Order Z) :=
  if existsb (fun x => String.eqb (Id x) (Id o)) st
  then (None, List.map (fun x => if String.eqb (Id x) (Id o) then o else x) st)
  else (Some (collaboratorError "not found"), st).

Definition strictOm : OrderManager Z (list (Order Z)) :=
  withCalls (CalculateCommission (om fairCommission)) strictUpdate.

(** A commission service that knows no commission for the pair. *)
Definition noCommissionOm : OrderManager Z (list (Order Z)) :=
  withCalls (fun _ _ _ => (None, Some (collaboratorError "commission not found")))
    (UpdateOrder (om fairCommission)).

(** A listing over both projects, two statuses asked for; the table counts
    one order under a condition and none without, and returns no page. *)
Definition listing : FindAllParams :=
  {| FaValues := {[ "status[]" := ["1"; "paid"; "3"] ]};
     FaProjects := {[ openProjectId := "Shop"; fixedProjectId := "Shop" ]};
     FaMerchant := merchant; FaLimit := 10; FaOffset := 0 |}.

Definition countOrders (f : option (gmap string FilterValue)) : Z * option error :=
  match f with
  | Some _ => (1, None)
  | None => (0, None)
  end.

Definition findOrders (f : option (gmap string FilterValue)) (limit offset : Z)
  : list (Order Z) * option error := ([], None).

Definition noItems (o : list (Order Z)) (params : FindAllParams) : Outcome (list unit) :=
  Ok [].

(** A facet with a bucket of revenue that carries no year. *)
Definition brokenFacet : RevenueDynamicFacet Z :=
  {| FacetPointsRefund := [];
     FacetPointsRevenue := [ {| FacetId := january; FacetTotal := 100 |};
                             {| FacetId := {[ "month" := 2 ]}; FacetTotal := 100 |} ];
     FacetRevenue := [ {| Count := 2; Total := 200; Avg := 100 |} ];
     FacetRefund := [] |}.

(** The names of the request parameters and the errors of the binders. *)
Definition parameters : RequestParameters :=
  {| RequestParameterIsSigned := "is_signed";
     RequestParameterLimit := "limit";
     RequestParameterOffset := "offset";
     RequestParameterName := "name";
     RequestParameterSku := "sku";
     RequestParameterProjectId := "project_id";
     ErrorRequestParamsIncorrect := collaboratorError "incorrect request parameters";
     ErrorIncorrectMerchantId := collaboratorError "incorrect merchant identifier";
     ErrorIncorrectPaymentMethodId :=
       collaboratorError "incorrect payment method identifier" |}.

Definition numError (s : string) : error :=
  collaboratorError ("strconv.ParseInt: parsing " +:+ s).

(** A later notification for the order of [declined], now reporting the
    payment as made. *)
Definition paidLater : OrderPaymentNotification :=
  {| OpnId := "5be2c3022b9bb6000765d1ff";
     OpnRequest := {[ "status" := "paid"; "attempt" := "2" ]} |}.

(** A notification whose order id is not an object id. *)
Definition malformed : OrderPaymentNotification :=
  {| OpnId := "42"; OpnRequest := {[ "status" := "paid" ]} |}.

(** The Gold package asked for in the region "US" from an address the
    GeoIP database does not know. *)
Definition regionRequest : OrderScalar Z :=
  {| ProjectId := fixedProjectId; Amount_ := 500; OsCurrency := Some "USD";
     Region := Some "US"; CreateOrderIp := "192.0.2.1"; RawRequestParams := ∅;
     Signature := None; OsPaymentMethod := None; OrderId := None;
     Account := "player"; OsDescription := None; UrlVerify := None;
     UrlNotify := None; UrlSuccess := None; UrlFail := None;
     PayerPhone := None; PayerEmail := None; Other := ∅;
     OsIsJsonRequest := false |}.

(** A facet whose revenue bucket is keyed by the month alone, and a facet
    whose revenue has no summary. *)
Definition monthlyFacet : RevenueDynamicFacet Z :=
  {| FacetPointsRefund := [];
     FacetPointsRevenue := [ {| FacetId := {[ "month" := 2 ]}; FacetTotal := 100 |} ];
     FacetRevenue := [ {| Count := 1; Total := 100; Avg := 100 |} ];
     FacetRefund := [ {| Count := 0; Total := 0; Avg := 0 |} ] |}.

Definition bareFacet : RevenueDynamicFacet Z :=
  {| FacetPointsRefund := [];
     FacetPointsRevenue := [ {| FacetId := january; FacetTotal := 100 |} ];
     FacetRevenue := [];
     FacetRefund := [ {| Count := 0; Total := 0; Avg := 0 |} ] |}.

End Demo.

(** * Properties *)

(** ** Signature of a request *)

Section SignatureProperties.
Context {A : Type} `{Amount A} {Store : Type}.
Variable om : OrderManager A Store.

Lemma collectKeys_eq (iter : list string) : collectKeys iter = iter.
Proof.
  unfold collectKeys.
  enough (Hgen : forall acc, fold_left (fun keys k => keys ++ [k]) iter acc = acc ++ iter)
    by apply (Hgen []).
  induction iter as [|k iter IH]; intros acc; simpl.
  - by rewrite app_nil_r.
  - rewrite IH, <- app_assoc. done.
Qed.

Lemma signatureElements_eq (params : gmap string string) (keys : list string) :
  signatureElements params keys
  = (fun k => k +:+ "=" +:+ default "" (params !! k)) <$> keys.
Proof.
  unfold signatureElements.
  set (f := fun k => k +:+ "=" +:+ default "" (params !! k)).
  enough (Hgen : forall acc,
            fold_left (fun gs k => gs ++ [f k]) keys acc = acc ++ (f <$> keys))
    by apply (Hgen []).
  induction keys as [|k keys IH]; intros acc; simpl.
  - by rewrite app_nil_r.
  - rewrite IH, <- app_assoc. done.
Qed.

(** Two traversals of the same keys sort to the same list. *)
Lemma sortStrings_perm (l1 l2 : list string) :
  l1 ≡ₚ l2 -> sortStrings l1 = sortStrings l2.
Proof.
  intros Hp. unfold sortStrings.
  apply (StronglySorted_unique String.le).
  - apply StronglySorted_merge_sort; apply _.
  - apply StronglySorted_merge_sort; apply _.
  - by rewrite !merge_sort_Permutation.
Qed.

(** C3: with a signature supplied, [checkSignature] hashes (SHA-256) the
    [key=value] strings of the raw parameters, keys in ascending order,
    joined with "|" and followed by "|" and the secret key of the project;
    it fails with [orderErrorSignatureInvalid] exactly when the hash differs
    from the supplied signature, and the computed signature does not depend
    on the order in which the parameter map is traversed. *)
Theorem checkSignature_spec (c : check A) (supplied : string) :
  Signature (c_order c) = Some supplied ->
  let params := RawRequestParams (c_order c) in
  let secret := SecretKey (c_project c) in
  exists keys : list string,
    NoDup keys
    /\ (forall k, k ∈ keys <-> is_Some (params !! k))
    /\ StronglySorted String.le keys
    /\ (checkSignature om c = Err orderErrorSignatureInvalid
        <-> sha256 om (signedText params secret keys) <> supplied)
    /\ (checkSignature om c = Ok tt
        <-> sha256 om (signedText params secret keys) = supplied)
    /\ (forall iter1 iter2 : list string,
          iter1 ≡ₚ (map_to_list params).*1 ->
          iter2 ≡ₚ (map_to_list params).*1 ->
          requestSignature om params secret iter1
          = requestSignature om params secret iter2
          /\ requestSignature om params secret iter1
             = sha256 om (signedText params secret keys)).
Proof.
  intros Hsig params secret.
  set (base := (map_to_list params).*1).
  exists (sortStrings base).
  assert (Hperm : sortStrings base ≡ₚ base) by apply merge_sort_Permutation.
  assert (Hreq : forall iter, iter ≡ₚ base ->
            requestSignature om params secret iter
            = sha256 om (signedText params secret (sortStrings base))).
  { intros iter Hiter. unfold requestSignature, signedText.
    rewrite collectKeys_eq, signatureElements_eq.
    by rewrite (sortStrings_perm iter base Hiter). }
  assert (Hcheck : checkSignature om c
            = if negb (String.eqb (sha256 om (signedText params secret (sortStrings base)))
                         supplied)
              then Err orderErrorSignatureInvalid else Ok tt).
  { unfold checkSignature. fold params. fold secret. fold base.
    rewrite Hsig. simpl. by rewrite (Hreq base). }
  split; [|split; [|split; [|split; [|split]]]].
  - rewrite Hperm. apply NoDup_fst_map_to_list.
  - intros k. rewrite Hperm. unfold base. rewrite list_elem_of_fmap. split.
    + intros [[k' v] [-> Hin]]. apply elem_of_map_to_list in Hin. by exists v.
    + intros [v Hv]. exists (k, v). split; [done|]. by apply elem_of_map_to_list.
  - apply StronglySorted_merge_sort; apply _.
  - rewrite Hcheck.
    destruct (String.eqb_spec (sha256 om (signedText params secret (sortStrings base)))
                supplied) as [Heq|Hne]; simpl; split; try done.
  - rewrite Hcheck.
    destruct (String.eqb_spec (sha256 om (signedText params secret (sortStrings base)))
                supplied) as [Heq|Hne]; simpl; split; try done.
  - intros iter1 iter2 H1 H2. by rewrite !Hreq.
Qed.

End SignatureProperties.

(** ** Payment method of a request *)

Section PaymentMethodProperties.
Context {A : Type} `{Amount A} {Store : Type}.
Variable om : OrderManager A Store.

(** The loop keeps a configuration of the list (or the one it started with)
    that none of the others was added after. *)
Lemma fold_laterAdded (cpms : list ProjectPaymentModes) (acc : option ProjectPaymentModes) :
  (cpms <> [] \/ is_Some acc) ->
  exists opm,
    fold_left laterAdded cpms acc = Some opm
    /\ (opm ∈ cpms \/ acc = Some opm)
    /\ (forall ppm, ppm ∈ cpms -> AddedAt ppm <= AddedAt opm)
    /\ (forall a, acc = Some a -> AddedAt a <= AddedAt opm).
Proof.
  revert acc. induction cpms as [|x cpms IH]; intros acc Hne.
  - destruct Hne as [Hne|[a ->]]; [done|].
    exists a. simpl. repeat split; auto.
    + intros ppm Hin. by apply elem_of_nil in Hin.
    + intros a' [= <-]. lia.
  - simpl.
    destruct (IH (laterAdded acc x)) as (opm & Hfold & Hin & Hmax & Hacc).
    { right. destruct acc as [a|]; simpl; [destruct (AddedAt a <? AddedAt x)|]; eauto. }
    exists opm. split; [done|].
    assert (Hx : AddedAt x <= AddedAt opm).
    { destruct acc as [a|]; simpl in *.
      - destruct (Z.ltb_spec (AddedAt a) (AddedAt x)).
        + apply (Hacc x eq_refl).
        + specialize (Hacc a eq_refl). lia.
      - apply (Hacc x eq_refl). }
    split; [|split].
    + destruct Hin as [Hin|Hin]; [left; by apply elem_of_cons; right|].
      destruct acc as [a|]; simpl in Hin.
      * destruct (AddedAt a <? AddedAt x); injection Hin as <-.
        -- left. apply elem_of_cons. by left.
        -- by right.
      * injection Hin as <-. left. apply elem_of_cons. by left.
    + intros ppm Hppm. apply elem_of_cons in Hppm as [->|Hppm]; auto.
    + intros a ->. simpl in Hacc.
      destruct (Z.ltb_spec (AddedAt a) (AddedAt x)).
      * specialize (Hacc x eq_refl). lia.
      * apply (Hacc a eq_refl).
Qed.

(** C6: for a request naming a payment method, the configuration chosen
    among those registered under that name is one with the latest [AddedAt]
    (the request fails with [orderErrorPaymentMethodNotAllowed] when the
    list is missing or empty); the payment method and its payment system
    are then resolved, each absent or inactive one failing with its own
    error. *)
Theorem checkPaymentMethod_spec (c : check A) (name : string) :
  OsPaymentMethod (c_order c) = Some name ->
  let pms := PPaymentMethods (c_project c) in
  ((pms !! name = None \/ pms !! name = Some []) ->
     checkPaymentMethod om c = Err orderErrorPaymentMethodNotAllowed)
  /\ (forall cpms, pms !! name = Some cpms -> cpms <> [] ->
        exists opm,
          getPaymentMethod (c_order c) pms = Ok (Some opm)
          /\ opm ∈ cpms
          /\ (forall ppm, ppm ∈ cpms -> AddedAt ppm <= AddedAt opm)
          /\ (PmFindById om (PpmId opm) = None ->
                checkPaymentMethod om c = Err orderErrorPaymentMethodNotFound)
          /\ (forall pm, PmFindById om (PpmId opm) = Some pm ->
                (PmIsActive pm = false ->
                   checkPaymentMethod om c = Err orderErrorPaymentMethodInactive)
                /\ (PmIsActive pm = true -> PmPaymentSystem pm = None ->
                      checkPaymentMethod om c = Err orderErrorPaymentSystemNotFound)
                /\ (forall ps, PmIsActive pm = true -> PmPaymentSystem pm = Some ps ->
                      (PsIsActive ps = false ->
                         checkPaymentMethod om c = Err orderErrorPaymentSystemInactive)
                      /\ (PsIsActive ps = true -> checkPaymentMethod om c = Ok pm)))).
Proof.
  intros Hname pms. split.
  - intros Hmiss. unfold checkPaymentMethod, getPaymentMethod. fold pms.
    rewrite Hname. simpl. by destruct Hmiss as [-> | ->].
  - intros cpms Hcpms Hne.
    destruct (fold_laterAdded cpms None (or_introl Hne)) as (opm & Hfold & Hin & Hmax & _).
    assert (Hget : getPaymentMethod (c_order c) pms = Ok (Some opm)).
    { unfold getPaymentMethod. rewrite Hname. simpl. rewrite Hcpms.
      destruct cpms; [done|]. simpl in *. by rewrite Hfold. }
    exists opm. split; [done|]. split; [by destruct Hin|]. split; [done|].
    unfold checkPaymentMethod. fold pms. rewrite Hget. simpl. split.
    + by intros ->.
    + intros pm ->. split; [by intros ->|]. split.
      * by intros -> ->.
      * intros ps -> ->. simpl. split; by intros ->.
Qed.

End PaymentMethodProperties.

(** ** Fixed packages *)

Section FixedPackageProperties.
Context {A : Type} `{Amount A} {Store : Type}.
Variable om : OrderManager A Store.

Lemma fixedPackageLoop_step (order : OrderScalar A) (cur : string)
    (fp : FixedPackage A) (rest : list (FixedPackage A)) (i : nat)
    (ofp : option (FixedPackage A * nat)) :
  OsCurrency order = Some cur ->
  (packageMatches order cur fp ->
     fixedPackageLoop order (fp :: rest) i ofp
     = fixedPackageLoop order rest (S i) (Some (fp, i)))
  /\ (~ packageMatches order cur fp ->
        fixedPackageLoop order (fp :: rest) i ofp
        = fixedPackageLoop order rest (S i) ofp).
Proof.
  intros Hcur. unfold packageMatches. simpl. rewrite Hcur. simpl.
  unfold aneqb. split.
  - intros [-> <-]. simpl. by rewrite String.eqb_refl.
  - intros Hno. destruct (aeqb (FpPrice fp) (Amount_ order)); simpl; [|done].
    destruct (String.eqb_spec (CodeA3 (FpCurrency fp)) cur) as [Heq|Hne]; simpl; [|done].
    destruct Hno. done.
Qed.

Lemma fixedPackageLoop_none (order : OrderScalar A) (cur : string)
    (fps : list (FixedPackage A)) (i : nat) (ofp : option (FixedPackage A * nat)) :
  OsCurrency order = Some cur ->
  (forall fp, fp ∈ fps -> ~ packageMatches order cur fp) ->
  fixedPackageLoop order fps i ofp = Ok ofp.
Proof.
  intros Hcur. revert i. induction fps as [|fp fps IH]; intros i Hno; [done|].
  rewrite (proj2 (fixedPackageLoop_step order cur fp fps i ofp Hcur)).
  - apply IH. intros fp' Hin. apply Hno. apply elem_of_cons. by right.
  - apply Hno. apply elem_of_cons. by left.
Qed.

Lemma fixedPackageLoop_last (order : OrderScalar A) (cur : string)
    (fps : list (FixedPackage A)) (i k : nat) (fp : FixedPackage A)
    (ofp : option (FixedPackage A * nat)) :
  OsCurrency order = Some cur ->
  fps !! k = Some fp ->
  packageMatches order cur fp ->
  (forall j fp', (k < j)%nat -> fps !! j = Some fp' -> ~ packageMatches order cur fp') ->
  fixedPackageLoop order fps i ofp = Ok (Some (fp, (i + k)%nat)).
Proof.
  intros Hcur. revert i k ofp.
  induction fps as [|x fps IH]; intros i k ofp Hk Hm Hlast; [done|].
  destruct k as [|k]; simpl in Hk.
  - injection Hk as ->.
    rewrite (proj1 (fixedPackageLoop_step order cur fp fps i ofp Hcur) Hm).
    rewrite Nat.add_0_r. apply (fixedPackageLoop_none order cur); [done|].
    intros fp' Hin. apply list_elem_of_lookup in Hin as [j Hj].
    apply (Hlast (S j)); [lia|done].
  - assert (Hrest : fixedPackageLoop order (x :: fps) i ofp
                    = Ok (Some (fp, (S i + k)%nat))).
    { destruct (fixedPackageLoop_step order cur x fps i ofp Hcur) as [Hyes Hno].
      assert (Htail : forall o, fixedPackageLoop order fps (S i) o
                                = Ok (Some (fp, (S i + k)%nat))).
      { intros o. apply IH; [done|done|].
        intros j fp' Hj. apply (Hlast (S j)). lia. }
      destruct (aeqb (FpPrice x) (Amount_ order)) eqn:Hp.
      - destruct (String.eqb_spec (CodeA3 (FpCurrency x)) cur) as [Hc|Hc].
        + rewrite Hyes; [apply Htail|done].
        + rewrite Hno; [apply Htail|]. by intros [_ ?].
      - rewrite Hno; [apply Htail|]. intros [Hp' _]. congruence. }
    rewrite Hrest. do 3 f_equal. lia.
Qed.

(** C4: for a request that names a currency and whose address the GeoIP
    database resolves, the region is the one of the request when it names a
    (non-empty) region and the country code of the GeoIP record otherwise; a region
    without packages fails with [orderErrorFixedPackageForRegionNotFound];
    a package is kept only if both its price and its currency code equal
    those of the request; without such a package the request fails with
    [orderErrorFixedPackageNotFound]; with several, the last one of the list
    is kept, with its index. *)
Theorem getOrderFixedPackage_spec (c : check A) (g : geoip2.City) (cur : string) :
  geoDbReader_City om (CreateOrderIp (c_order c)) = Some g ->
  OsCurrency (c_order c) = Some cur ->
  let region :=
    match Region (c_order c) with
    | Some r => if decide (r = "") then geoip2.IsoCode (geoip2.CityCountry g) else r
    | None => geoip2.IsoCode (geoip2.CityCountry g)
    end in
  let packages := PFixedPackage (c_project c) !! region in
  ((packages = None \/ packages = Some []) ->
     getOrderFixedPackage om c = Err orderErrorFixedPackageForRegionNotFound)
  /\ (forall fps, packages = Some fps -> fps <> [] ->
        ((forall fp, fp ∈ fps -> ~ packageMatches (c_order c) cur fp) ->
           getOrderFixedPackage om c = Err orderErrorFixedPackageNotFound)
        /\ (forall k fp,
              fps !! k = Some fp ->
              packageMatches (c_order c) cur fp ->
              (forall j fp', (k < j)%nat -> fps !! j = Some fp' ->
                             ~ packageMatches (c_order c) cur fp') ->
              getOrderFixedPackage om c
              = Ok (g, {| OfpId := k; OfpRegion := region; OfpName := FpName fp;
                          OfpCurrencyInt := FpCurrencyInt fp;
                          OfpPrice := FpPrice fp |}))).
Proof.
  intros Hgeo Hcur region packages.
  assert (Hregion : payerRegion (c_order c) g = region).
  { unfold payerRegion, region. destruct (Region (c_order c)) as [r|]; [|done].
    destruct (String.eqb_spec r ""); by case_decide. }
  unfold getOrderFixedPackage. rewrite Hgeo. simpl. rewrite Hregion.
  fold packages. split.
  - by intros [-> | ->].
  - intros fps -> Hne. destruct fps as [|fp0 fps0] eqn:Hfps; [done|].
    rewrite <- Hfps in *.
    replace (length fps <=? 0)%nat with false by (by rewrite Hfps).
    split.
    + intros Hno. by rewrite (fixedPackageLoop_none _ cur fps 0 None Hcur Hno).
    + intros k fp Hk Hm Hlast.
      by rewrite (fixedPackageLoop_last _ cur fps 0 k fp None Hcur Hk Hm Hlast).
Qed.

End FixedPackageProperties.

(** ** Project limits *)

Section LimitProperties.
Context {A : Type} `{Amount A} {Store : Type}.
Variable om : OrderManager A Store.

(** The amount compared with the limits does not depend on the payment
    method of the bundle. *)
Lemma limitAmount_newCheck (order : OrderScalar A) (p : Project A)
    (oCurrency : option Currency) (pm : option (PaymentMethod A)) (limits : Currency) :
  limitAmount om (newCheck order p oCurrency pm) limits
  = limitAmount om (newCheck order p oCurrency None) limits.
Proof. reflexivity. Qed.

Lemma checkProjectLimits_lower (c : check A) (amount : A) :
  limitAmount om c (LimitsCurrency (c_project c)) = Ok amount ->
  altb amount (MinPaymentAmount (c_project c)) = true ->
  checkProjectLimits om c = Err orderErrorAmountLowerThanMinAllowed.
Proof.
  intros Hamount Hlow. unfold checkProjectLimits. rewrite Hamount. simpl.
  by rewrite Hlow.
Qed.

(** C5: when the amount of the request, converted into the currency of the
    project limits if the order currency differs from it, is below the
    minimum of the project, [Process] creates no order and leaves the order
    table as it was; when the request passes the checks that come before
    the limits (active project, signature, payment method, fixed package),
    the error is [orderErrorAmountLowerThanMinAllowed], whatever the order
    currency. *)
Theorem Process_amount_lower_than_min (order : OrderScalar A) (st : Store)
    (p : Project A) (oCurrency : option Currency) (amount : A) :
  FindProjectById om (ProjectId order) = Some p ->
  orderCurrency om order = Ok oCurrency ->
  limitAmount om (newCheck order p oCurrency None) (LimitsCurrency p) = Ok amount ->
  altb amount (MinPaymentAmount p) = true ->
  (exists r, Process om order st = (r, st) /\ forall o, r <> Ok o)
  /\ (PIsActive p = true ->
      (Signature order = None
       \/ checkSignature om (newCheck order p oCurrency None) = Ok tt) ->
      forall pm,
      ((OsPaymentMethod order = None /\ pm = None)
       \/ exists pmv, checkPaymentMethod om (newCheck order p oCurrency None) = Ok pmv
                      /\ pm = Some pmv) ->
      (OnlyFixedAmounts p = false
       \/ exists g fp, getOrderFixedPackage om (newCheck order p oCurrency pm)
                       = Ok (g, fp)) ->
      Process om order st = (Err orderErrorAmountLowerThanMinAllowed, st)).
Proof.
  intros Hp Hcur Hamount Hlow.
  assert (Hlimits : forall pm,
            checkProjectLimits om (newCheck order p oCurrency pm)
            = Err orderErrorAmountLowerThanMinAllowed).
  { intros pm. apply (checkProjectLimits_lower _ amount); [|done].
    by rewrite limitAmount_newCheck. }
  split.
  - unfold Process, mbind, M_bind, lift. rewrite Hp.
    destruct (PIsActive p); simpl; [|by eexists].
    rewrite Hcur.
    destruct (match Signature order with
              | Some _ => checkSignature om (newCheck order p oCurrency None)
              | None => Ok tt
              end) as [[]|e|]; [|by eexists..].
    destruct (match OsPaymentMethod order with
              | Some _ => _
              | None => Ok None
              end) as [pm|e|]; [|by eexists..].
    destruct (orderFixedPackage om p (newCheck order p oCurrency pm))
      as [[gRecord ofp]|e|]; [|by eexists..].
    rewrite Hlimits. by eexists.
  - intros Hact Hsig pm Hpm Hfixed.
    assert (Hsig' : match Signature order with
                    | Some _ => checkSignature om (newCheck order p oCurrency None)
                    | None => Ok tt
                    end = Ok tt).
    { destruct Hsig as [-> | Hsig]; [done|]. by destruct (Signature order). }
    assert (Hname : pm = None -> OsPaymentMethod order = None).
    { intros ->. by destruct Hpm as [[? _]|(? & _ & ?)]. }
    assert (Hpm' : forall pmv, pm = Some pmv ->
              is_Some (OsPaymentMethod order)
              /\ checkPaymentMethod om (newCheck order p oCurrency None) = Ok pmv).
    { intros pmv ->. destruct Hpm as [[_ ?]|(pmv' & Hpmv & [= <-])]; [done|].
      split; [|done]. destruct (OsPaymentMethod order) eqn:Hn; [by eexists|].
      unfold checkPaymentMethod, getPaymentMethod in Hpmv. simpl in Hpmv.
      by rewrite Hn in Hpmv. }
    assert (Hofp : exists gRecord ofp,
              orderFixedPackage om p (newCheck order p oCurrency pm)
              = Ok (gRecord, ofp)).
    { unfold orderFixedPackage.
      destruct Hfixed as [-> |(g & fp & ->)]; [by eexists _, _|].
      destruct (OnlyFixedAmounts p); by eexists _, _. }
    destruct Hofp as (gRecord & ofp & Hofp).
    unfold Process, mbind, M_bind, lift. rewrite Hp, Hact. simpl.
    rewrite Hcur, Hsig'.
    destruct pm as [pmv|].
    + destruct (Hpm' pmv eq_refl) as [[name ->] ->]. simpl.
      by rewrite Hofp, Hlimits.
    + rewrite (Hname eq_refl). by rewrite Hofp, Hlimits.
Qed.

End LimitProperties.

(** ** Order assembly *)

Section ProcessProperties.
Context {A : Type} `{Amount A} {Store : Type}.
Variable om : OrderManager A Store.

Lemma checkProjectOrderIdUnique_store (order : OrderScalar A) (st st' : Store)
    (r : Outcome unit) :
  checkProjectOrderIdUnique om order st = (r, st') -> st' = st.
Proof.
  unfold checkProjectOrderIdUnique.
  destruct (OrderId order) as [oid|]; [|congruence].
  destruct (FindOrderByProjectOrderId om st oid); congruence.
Qed.

(** What a created order tells about the run that created it. *)
Lemma Process_Ok_inv (order : OrderScalar A) (st st' : Store) (o : Order A) :
  Process om order st = (Ok o, st') ->
  exists p oc pm g sub ofp pmOutcome commissions vatAmount,
    FindProjectById om (ProjectId order) = Some p
    /\ PIsActive p = true
    /\ orderCurrency om order = Ok (Some oc)
    /\ orderFixedPackage om p (newCheck order p (Some oc) pm) = Ok (Some g, ofp)
    /\ head (geoip2.Subdivisions g) = Some sub
    /\ paymentMethodAmounts om order p (newCheck order p (Some oc) pm) pm (Some g)
       = Ok (pmOutcome, commissions, vatAmount)
    /\ orderPaymentMethod om order p pm pmOutcome commissions
         (orderDescription order (newOrder om order p (Some oc) oc g sub ofp vatAmount))
       = Ok o
    /\ InsertOrder om st o = (None, st').
Proof.
  unfold Process, mbind, M_bind, lift. intros HP.
  destruct (FindProjectById om (ProjectId order)) as [p|] eqn:Hp; [|done].
  destruct (PIsActive p) eqn:Hact; simpl in HP; [|done].
  destruct (orderCurrency om order) as [oCurrency|e|] eqn:Hcur; [|done..].
  destruct (match Signature order with
            | Some _ => checkSignature om (newCheck order p oCurrency None)
            | None => Ok tt
            end) as [[]|e|]; [|done..].
  destruct (match OsPaymentMethod order with
            | Some _ => _
            | None => Ok None
            end) as [pm|e|]; [|done..].
  destruct (orderFixedPackage om p (newCheck order p oCurrency pm))
    as [[gRecord ofp]|e|] eqn:Hofp; [|done..].
  destruct (checkProjectLimits om (newCheck order p oCurrency pm)) as [[]|e|]; [|done..].
  destruct (paymentMethodAmounts om order p (newCheck order p oCurrency pm) pm gRecord)
    as [[[pmOutcome commissions] vatAmount]|e|] eqn:Hamounts; [|done..].
  destruct (match OrderId order with
            | Some _ => checkProjectOrderIdUnique om order
            | None => mret tt
            end st) as [r st1] eqn:Hunique.
  assert (st1 = st) as ->.
  { destruct (OrderId order); [by eapply checkProjectOrderIdUnique_store|].
    by injection Hunique. }
  destruct r as [[]|e|]; [|done..].
  destruct (checkDynamicUrls order p) as [[]|e|]; [|done..].
  destruct oCurrency as [oc|]; simpl in HP; [|done].
  destruct gRecord as [g|]; simpl in HP; [|done].
  destruct (head (geoip2.Subdivisions g)) as [sub|] eqn:Hsub; simpl in HP; [|done].
  destruct (orderPaymentMethod om order p pm pmOutcome commissions
              (orderDescription order (newOrder om order p (Some oc) oc g sub ofp vatAmount)))
    as [nOrder|e|] eqn:Hpm; [|done..].
  unfold insertNewOrder in HP.
  destruct (InsertOrder om st nOrder) as [[e|] st2] eqn:Hins; [done|].
  injection HP as <- <-.
  by exists p, oc, pm, g, sub, ofp, pmOutcome, commissions, vatAmount.
Qed.

(** The geo record is set only by the fixed package lookup. *)
Lemma orderFixedPackage_Some (p : Project A) (c : check A) (g : geoip2.City)
    (ofp : option (OrderFixedPackage A)) :
  orderFixedPackage om p c = Ok (Some g, ofp) ->
  OnlyFixedAmounts p = true
  /\ geoDbReader_City om (CreateOrderIp (c_order c)) = Some g.
Proof.
  unfold orderFixedPackage. destruct (OnlyFixedAmounts p); [|done].
  intros Hfp. split; [done|].
  unfold getOrderFixedPackage in Hfp.
  destruct (geoDbReader_City om (CreateOrderIp (c_order c))) as [g'|]; [|done].
  simpl in Hfp.
  destruct (PFixedPackage (c_project c) !! payerRegion (c_order c) g'); [|done].
  destruct (length l <=? 0)%nat; [done|].
  destruct (fixedPackageLoop (c_order c) l 0 None) as [[[fp k]|]|e|]; simpl in Hfp;
    try done.
  by injection Hfp as ->.
Qed.

(** The steps of [Process] up to the limits of the project, for a request
    that passes them: what is left is the payment method block and the
    steps after it. *)
Lemma Process_after_limits (order : OrderScalar A) (st : Store) (p : Project A)
    (oc : Currency) (pm : option (PaymentMethod A)) (gRecord : option geoip2.City)
    (ofp : option (OrderFixedPackage A)) :
  FindProjectById om (ProjectId order) = Some p ->
  PIsActive p = true ->
  orderCurrency om order = Ok (Some oc) ->
  (is_Some (Signature order) ->
   checkSignature om (newCheck order p (Some oc) None) = Ok tt) ->
  match OsPaymentMethod order with
  | Some _ => exists pmv,
      pm = Some pmv /\ checkPaymentMethod om (newCheck order p (Some oc) None) = Ok pmv
  | None => pm = None
  end ->
  orderFixedPackage om p (newCheck order p (Some oc) pm) = Ok (gRecord, ofp) ->
  checkProjectLimits om (newCheck order p (Some oc) pm) = Ok tt ->
  Process om order st
  = match paymentMethodAmounts om order p (newCheck order p (Some oc) pm) pm gRecord with
    | Ok (pmOutcome, commissions, vatAmount) =>
        match (match OrderId order with
               | Some _ => checkProjectOrderIdUnique om order
               | None => mret tt
               end) st with
        | (Ok _, st1) =>
            match checkDynamicUrls order p with
            | Ok _ =>
                match gRecord with
                | Some g =>
                    match head (geoip2.Subdivisions g) with
                    | Some sub =>
                        match orderPaymentMethod om order p pm pmOutcome commissions
                                (orderDescription order
                                   (newOrder om order p (Some oc) oc g sub ofp vatAmount))
                        with
                        | Ok nOrder => insertNewOrder om nOrder st1
                        | Err e => (Err e, st1)
                        | Panic => (Panic, st1)
                        end
                    | None => (Panic, st1)
                    end
                | None => (Panic, st1)
                end
            | Err e => (Err e, st1)
            | Panic => (Panic, st1)
            end
        | (Err e, st1) => (Err e, st1)
        | (Panic, st1) => (Panic, st1)
        end
    | Err e => (Err e, st)
    | Panic => (Panic, st)
    end.
Proof.
  intros Hp Hact Hcur Hsig Hpm Hofp Hlimits.
  unfold Process, mbind, M_bind, lift. rewrite Hp, Hact. simpl. rewrite Hcur.
  assert (Hs : match Signature order with
               | Some _ => checkSignature om (newCheck order p (Some oc) None)
               | None => Ok tt
               end = Ok tt).
  { destruct (Signature order); [apply Hsig; by eexists|done]. }
  rewrite Hs.
  match goal with
  | |- context [match OsPaymentMethod order with Some _ => ?x | None => ?y end] =>
      assert (Hm : match OsPaymentMethod order with Some _ => x | None => y end = Ok pm)
  end.
  { destruct (OsPaymentMethod order); [|by subst pm].
    destruct Hpm as (pmv & -> & Hcheck). by rewrite Hcheck. }
  rewrite Hm, Hofp. simpl. rewrite Hlimits.
  destruct (paymentMethodAmounts om order p (newCheck order p (Some oc) pm) pm gRecord)
    as [[[pmOutcome commissions] vatAmount]|e|]; [|done..].
  destruct (match OrderId order with
            | Some _ => checkProjectOrderIdUnique om order
            | None => mret tt
            end st) as [[[]|e|] st1]; [|done..].
  destruct (checkDynamicUrls order p) as [[]|e|]; [|done..]. simpl.
  destruct gRecord as [g|]; [|done]. simpl.
  destruct (head (geoip2.Subdivisions g)) as [sub|]; [|done]. simpl.
  by destruct (orderPaymentMethod om order p pm pmOutcome commissions _).
Qed.

(** C10: the geo record is fetched only for a project that sells fixed
    amounts, and both the VAT branch and order assembly read it, and its
    first subdivision, unconditionally.  So an order is created only for
    such a project and a record with a subdivision.  Every request that gets
    as far as one of the two reads without them panics there, on the [nil]
    record or the empty slice, whatever it carries (signature, payment
    method, order id, URLs): in the VAT branch when it names a payment
    method and the merchant charges VAT, in order assembly otherwise.  The
    table is not written.  (A request stopped by an earlier check returns
    the error of that check and reads nothing.) *)
Theorem Process_geo_record_precondition (order : OrderScalar A) (st : Store) :
  (forall o st', Process om order st = (Ok o, st') ->
     exists p g,
       FindProjectById om (ProjectId order) = Some p
       /\ OnlyFixedAmounts p = true
       /\ geoDbReader_City om (CreateOrderIp order) = Some g
       /\ geoip2.Subdivisions g <> [])
  /\ (forall p oc pm gRecord ofp,
        FindProjectById om (ProjectId order) = Some p ->
        PIsActive p = true ->
        orderCurrency om order = Ok (Some oc) ->
        (is_Some (Signature order) ->
         checkSignature om (newCheck order p (Some oc) None) = Ok tt) ->
        match OsPaymentMethod order with
        | Some _ => exists pmv,
            pm = Some pmv
            /\ checkPaymentMethod om (newCheck order p (Some oc) None) = Ok pmv
        | None => pm = None
        end ->
        orderFixedPackage om p (newCheck order p (Some oc) pm) = Ok (gRecord, ofp) ->
        checkProjectLimits om (newCheck order p (Some oc) pm) = Ok tt ->
        (OnlyFixedAmounts p = false
         \/ exists g, gRecord = Some g /\ geoip2.Subdivisions g = []) ->
        (gRecord = None \/ exists g, gRecord = Some g /\ geoip2.Subdivisions g = [])
        /\ (forall pmv base commissions,
              is_Some (OsPaymentMethod order) ->
              pm = Some pmv ->
              checkPaymentMethodLimits om (newCheck order p (Some oc) pm) = Ok base ->
              CalculateCommission om (PId p) (PmId pmv) (pmo_amount base)
              = (commissions, None) ->
              (IsCommissionToUserEnabled (PMerchant p) = true -> is_Some commissions) ->
              IsVatEnabled (PMerchant p) = true ->
              paymentMethodAmounts om order p (newCheck order p (Some oc) pm) pm gRecord
              = Panic
              /\ Process om order st = (Panic, st))
        /\ (forall amounts,
              paymentMethodAmounts om order p (newCheck order p (Some oc) pm) pm gRecord
              = Ok amounts ->
              (forall oid, OrderId order = Some oid ->
                           FindOrderByProjectOrderId om st oid = None) ->
              checkDynamicUrls order p = Ok tt ->
              Process om order st = (Panic, st)))
  /\ (forall p c pm gRecord name,
        OsPaymentMethod order = Some name ->
        IsVatEnabled (PMerchant p) = true ->
        (gRecord = None
         \/ exists g, gRecord = Some g /\ geoip2.Subdivisions g = []) ->
        forall r, paymentMethodAmounts om order p c pm gRecord <> Ok r).
Proof.
  split; [|split].
  - intros o st' HP.
    destruct (Process_Ok_inv order st st' o HP)
      as (p & oc & pm & g & sub & ofp & pmOutcome & commissions & vatAmount
          & Hp & _ & _ & Hofp & Hsub & _).
    apply orderFixedPackage_Some in Hofp as [Hfixed Hgeo].
    exists p, g. repeat split; try done.
    intros Hnil. by rewrite Hnil in Hsub.
  - intros p oc pm gRecord ofp Hp Hact Hcur Hsig Hpm Hofp Hlimits Hgeo.
    assert (Hrecord : gRecord = None
                      \/ exists g, gRecord = Some g /\ geoip2.Subdivisions g = []).
    { destruct Hgeo as [Hfree|Hnil]; [|by right].
      unfold orderFixedPackage in Hofp. rewrite Hfree in Hofp.
      injection Hofp as <- _. by left. }
    pose proof (Process_after_limits order st p oc pm gRecord ofp
                  Hp Hact Hcur Hsig Hpm Hofp Hlimits) as Hrun.
    split; [exact Hrecord|]. split.
    + intros pmv base commissions [name Hname] -> Hbase Hcommission Hpayer Hvat.
      assert (Hamounts : paymentMethodAmounts om order p
                           (newCheck order p (Some oc) (Some pmv)) (Some pmv) gRecord
                         = Panic).
      { unfold paymentMethodAmounts. rewrite Hname, Hbase. simpl.
        rewrite Hcommission. simpl. rewrite Hvat.
        destruct (IsCommissionToUserEnabled (PMerchant p)).
        - destruct (Hpayer eq_refl) as [cm ->]. simpl.
          destruct Hrecord as [-> |(g & -> & Hnil)]; [done|]. simpl. by rewrite Hnil.
        - simpl. destruct Hrecord as [-> |(g & -> & Hnil)]; [done|]. simpl.
          by rewrite Hnil. }
      split; [exact Hamounts|]. by rewrite Hrun, Hamounts.
    + intros [[pmOutcome commissions] vatAmount] Hamounts Hunique Hurls.
      rewrite Hrun, Hamounts, Hurls.
      assert (Hid : (match OrderId order with
                     | Some _ => checkProjectOrderIdUnique om order
                     | None => mret tt
                     end) st = (Ok tt, st)).
      { unfold checkProjectOrderIdUnique.
        destruct (OrderId order) as [oid|] eqn:Hoid; [|done].
        by rewrite (Hunique oid eq_refl). }
      rewrite Hid.
      destruct Hrecord as [-> |(g & -> & Hnil)]; [done|]. by rewrite Hnil.
  - intros p c pm gRecord name Hname Hvat Hgeo r.
    unfold paymentMethodAmounts. rewrite Hname, Hvat.
    destruct (checkPaymentMethodLimits om c) as [pmOutcome|e|]; [|done..]. simpl.
    destruct pm as [pmv|]; [|done]. simpl.
    destruct (checked (CalculateCommission om (PId p) (PmId pmv) (pmo_amount pmOutcome)))
      as [commissions|e|]; [|done..]. simpl.
    destruct (if IsCommissionToUserEnabled (PMerchant p) then _ else _)
      as [pmOutAmount|e|]; [|done..]. simpl.
    destruct Hgeo as [-> |(g & -> & Hnil)]; [done|]. simpl. by rewrite Hnil.
Qed.

End ProcessProperties.

(** ** Fees *)

Section FeeProperties.
Context {A : Type} `{Amount A} {Store : Type}.
Variable om : OrderManager A Store.
Hypothesis sane : SaneAmounts om.

Lemma checked_fst {T} (r : T * option error) (v : T) : checked r = Ok v -> r.1 = v.
Proof. destruct r as [v' [e|]]; simpl; congruence. Qed.

(** The VAT and the commissions of the payment method block are those the
    collaborators returned. *)
Lemma paymentMethodAmounts_inv (order : OrderScalar A) (p : Project A) (c : check A)
    (pm : option (PaymentMethod A)) (gRecord : option geoip2.City)
    (pmOutcome : option (pmOutcomeData A)) (commissions : option (CommissionOrder A))
    (vatAmount : A) :
  paymentMethodAmounts om order p c pm gRecord = Ok (pmOutcome, commissions, vatAmount) ->
  nonneg vatAmount
  /\ (forall cm, commissions = Some cm ->
        exists projectId pmId x, (CalculateCommission om projectId pmId x).1 = Some cm).
Proof.
  unfold paymentMethodAmounts.
  destruct (OsPaymentMethod order) as [name|].
  2:{ intros [= <- <- <-]. split; [apply (zero_nonneg om sane)|done]. }
  destruct (checkPaymentMethodLimits om c) as [pmOut|e|]; [|done..]. simpl.
  destruct pm as [pmv|]; [|done]. simpl.
  destruct (checked (CalculateCommission om (PId p) (PmId pmv) (pmo_amount pmOut)))
    as [cms|e|] eqn:Hcm; [|done..]. simpl.
  destruct (if IsCommissionToUserEnabled (PMerchant p) then _ else _)
    as [pmOutAmount|e|]; [|done..]. simpl.
  destruct (IsVatEnabled (PMerchant p)).
  - destruct gRecord as [g|]; [|done]. simpl.
    destruct (head (geoip2.Subdivisions g)) as [sub|]; [|done]. simpl.
    destruct (checked (CalculateVat om _ _ _)) as [vat|e|] eqn:Hvat; [|done..]. simpl.
    intros [= <- <- <-]. split.
    + apply checked_fst in Hvat as <-. apply (vat_nonneg om sane).
    + intros cm ->. apply checked_fst in Hcm. eauto.
  - simpl. intros [= <- <- <-]. split; [apply (zero_nonneg om sane)|].
    intros cm ->. apply checked_fst in Hcm. eauto.
Qed.

Lemma orderCommissions_fees (p : Project A) (pmv : PaymentMethod A)
    (commissions : option (CommissionOrder A)) (nOrder o : Order A) :
  (forall cm, commissions = Some cm ->
     exists projectId pmId x, (CalculateCommission om projectId pmId x).1 = Some cm) ->
  feesNonneg nOrder ->
  orderCommissions om p pmv commissions nOrder = Ok o ->
  feesNonneg o.
Proof.
  intros Hcm Hfees. unfold orderCommissions.
  destruct commissions as [cm|]; [|by intros [= <-]].
  destruct (Hcm cm eq_refl) as (projectId & pmId & x & Hcall).
  destruct (commission_nonneg om sane _ _ _ _ Hcall) as (Hpm & Htotal & Huser & Hpart).
  destruct Hfees as (_ & _ & _ & Hpayer & Hvat).
  destruct (checked (convert om _ _ (PMCommission cm))) as [psp|e|] eqn:Hpsp; [|done..].
  simpl.
  apply checked_fst in Hpsp.
  destruct (IsCommissionToUserEnabled (PMerchant p)); simpl.
  - destruct (checked (convert om _ _ _)) as [prj|e|] eqn:Hprj; [|done..]. simpl.
    apply checked_fst in Hprj. intros [= <-].
    unfold feesNonneg; simpl. repeat split.
    + apply (format_nonneg om sane). rewrite <- Hprj.
      apply (convert_nonneg om sane), (format_nonneg om sane), (sub_nonneg om sane), Hpart.
    + by apply (format_nonneg om sane).
    + apply (format_nonneg om sane). rewrite <- Hpsp. by apply (convert_nonneg om sane).
    + by apply (format_nonneg om sane).
    + done.
  - destruct (checked (convert om _ _ _)) as [prj|e|] eqn:Hprj; [|done..]. simpl.
    apply checked_fst in Hprj. intros [= <-].
    unfold feesNonneg; simpl. repeat split.
    + apply (format_nonneg om sane). rewrite <- Hprj.
      by apply (convert_nonneg om sane), (format_nonneg om sane).
    + by apply (format_nonneg om sane).
    + apply (format_nonneg om sane). rewrite <- Hpsp. by apply (convert_nonneg om sane).
    + done.
    + done.
Qed.

Lemma Process_fees (order : OrderScalar A) (st st' : Store) (o : Order A) :
  Process om order st = (Ok o, st') -> feesNonneg o.
Proof.
  intros HP.
  destruct (Process_Ok_inv om order st st' o HP)
    as (p & oc & pm & g & sub & ofp & pmOutcome & commissions & vatAmount
        & _ & _ & _ & _ & _ & Hamounts & Hpm & _).
  apply paymentMethodAmounts_inv in Hamounts as [Hvat Hcm].
  assert (Hnew : feesNonneg
            (orderDescription order (newOrder om order p (Some oc) oc g sub ofp vatAmount))).
  { unfold orderDescription. destruct (OsDescription order); unfold feesNonneg; simpl;
      repeat split; try apply (zero_nonneg om sane); by apply (format_nonneg om sane). }
  unfold orderPaymentMethod in Hpm.
  destruct (OsPaymentMethod order); [|by injection Hpm as <-].
  destruct pm as [pmv|]; [|done]. simpl in Hpm.
  destruct pmOutcome as [pmOut|]; [|done]. simpl in Hpm.
  eapply orderCommissions_fees; [exact Hcm| |exact Hpm].
  exact Hnew.
Qed.

Lemma modifyOrderAfterOrderFormSubmit_fees (o o' : Order A) (pm : PaymentMethod A) :
  feesNonneg o ->
  modifyOrderAfterOrderFormSubmit om o pm = Ok o' ->
  feesNonneg o'.
Proof.
  intros Hfees. unfold modifyOrderAfterOrderFormSubmit.
  destruct (samePaymentMethod o pm); [by intros [= <-]|].
  destruct (FindProjectById om (PoId (OProject o))) as [p|]; [|done].
  destruct (checkPaymentMethodLimits om _) as [pmOut|e|]; [|done..]. simpl.
  destruct (CalculateCommission om (PoId (OProject o)) (PmId pm) (pmo_amount pmOut))
    as [[cm|] err] eqn:Hcall; [|done]. simpl.
  assert (Hcm : (CalculateCommission om (PoId (OProject o)) (PmId pm)
                   (pmo_amount pmOut)).1 = Some cm) by (by rewrite Hcall).
  destruct (commission_nonneg om sane _ _ _ _ Hcm) as (Hpm & Htotal & Huser & Hpart).
  destruct Hfees as (_ & _ & _ & Hpayer & Hvat).
  destruct (checked (convert om _ _ (PMCommission cm))) as [psp|e|] eqn:Hpsp; [|done..].
  simpl. apply checked_fst in Hpsp.
  destruct (IsCommissionToUserEnabled (PoMerchant (OProject o))); simpl.
  - destruct (checked (convert om _ _ _)) as [prj|e|] eqn:Hprj; [|done..]. simpl.
    apply checked_fst in Hprj.
    destruct (IsVatEnabled (PoMerchant (OProject o))); simpl.
    + destruct (checked (CalculateVat om _ _ _)) as [vat|e|] eqn:Hv; [|done..]. simpl.
      apply checked_fst in Hv. intros [= <-]. unfold feesNonneg; simpl. repeat split.
      * apply (format_nonneg om sane). rewrite <- Hprj.
        apply (convert_nonneg om sane), (format_nonneg om sane), (sub_nonneg om sane), Hpart.
      * by apply (format_nonneg om sane).
      * apply (format_nonneg om sane). rewrite <- Hpsp. by apply (convert_nonneg om sane).
      * by apply (format_nonneg om sane).
      * apply (format_nonneg om sane). rewrite <- Hv. apply (vat_nonneg om sane).
    + intros [= <-]. unfold feesNonneg; simpl. repeat split.
      * apply (format_nonneg om sane). rewrite <- Hprj.
        apply (convert_nonneg om sane), (format_nonneg om sane), (sub_nonneg om sane), Hpart.
      * by apply (format_nonneg om sane).
      * apply (format_nonneg om sane). rewrite <- Hpsp. by apply (convert_nonneg om sane).
      * by apply (format_nonneg om sane).
      * done.
  - destruct (checked (convert om _ _ _)) as [prj|e|] eqn:Hprj; [|done..]. simpl.
    apply checked_fst in Hprj.
    destruct (IsVatEnabled (PoMerchant (OProject o))); simpl.
    + destruct (checked (CalculateVat om _ _ _)) as [vat|e|] eqn:Hv; [|done..]. simpl.
      apply checked_fst in Hv. intros [= <-]. unfold feesNonneg; simpl. repeat split.
      * apply (format_nonneg om sane). rewrite <- Hprj.
        by apply (convert_nonneg om sane), (format_nonneg om sane).
      * by apply (format_nonneg om sane).
      * apply (format_nonneg om sane). rewrite <- Hpsp. by apply (convert_nonneg om sane).
      * done.
      * apply (format_nonneg om sane). rewrite <- Hv. apply (vat_nonneg om sane).
    + intros [= <-]. unfold feesNonneg; simpl. repeat split.
      * apply (format_nonneg om sane). rewrite <- Hprj.
        by apply (convert_nonneg om sane), (format_nonneg om sane).
      * by apply (format_nonneg om sane).
      * apply (format_nonneg om sane). rewrite <- Hpsp. by apply (convert_nonneg om sane).
      * done.
      * done.
Qed.

(** C8 (amended): when the arithmetic and the collaborators keep amounts
    that are not negative so, and the commission manager passes to the payer
    no more than the commission it charges, the fee fields of every order
    that [Process] creates are not negative, and
    [modifyOrderAfterOrderFormSubmit] keeps them so. *)
Theorem fees_nonneg_under_sane_amounts :
  (forall order st st' o, Process om order st = (Ok o, st') -> feesNonneg o)
  /\ (forall o o' pm,
        feesNonneg o -> modifyOrderAfterOrderFormSubmit om o pm = Ok o' ->
        feesNonneg o').
Proof.
  split.
  - intros order st st' o. apply Process_fees.
  - intros o o' pm. apply modifyOrderAfterOrderFormSubmit_fees.
Qed.

End FeeProperties.

(** ** Payment notification *)

Section NotifyProperties.
Context {A : Type} `{Amount A} {Store : Type}.
Variable om : OrderManager A Store.

(** Case analysis on the first step of a sequence that ended well. *)
Ltac case_first_step :=
  lazymatch goal with
  | |- mbind _ ?x = Ok _ -> _ => destruct x; simpl; [|done..]
  end.

Lemma processNotifyPaymentAmounts_Status (o o' : Order A) :
  processNotifyPaymentAmounts om o = Ok o' -> Status o' = Status o.
Proof.
  unfold processNotifyPaymentAmounts. simpl.
  destruct (FindByCodeA3 om (PaymentMethodIncomeCurrencyA3 o)) as [income|]; [|done].
  case_first_step.
  destruct (pspAccountingCurrency om) as [psp|]; [|done].
  do 5 case_first_step.
  by intros [= <-].
Qed.

Lemma processNotifyPaymentAmounts_unknown_currency (o : Order A) :
  FindByCodeA3 om (PaymentMethodIncomeCurrencyA3 o) = None ->
  processNotifyPaymentAmounts om o
  = Err orderErrorOrderPaymentMethodIncomeCurrencyNotFound.
Proof. intros Hnone. unfold processNotifyPaymentAmounts. simpl. by rewrite Hnone. Qed.

Lemma processNotifyPaymentAmounts_no_psp_currency (o : Order A) :
  pspAccountingCurrency om = None ->
  exists e, processNotifyPaymentAmounts om o = Err e.
Proof.
  intros Hnone. unfold processNotifyPaymentAmounts. simpl.
  destruct (FindByCodeA3 om (PaymentMethodIncomeCurrencyA3 o)) as [income|]; [|by eexists].
  destruct (checked (convert om (CodeInt income)
                        (CodeInt (ProjectOutcomeCurrency o)) (PaymentMethodIncomeAmount o)))
    as [a1|e|] eqn:Hfirst; simpl.
  - rewrite Hnone. by eexists.
  - by eexists.
  - by destruct (convert om _ _ _) as [? [?|]].
Qed.

(** C2: for a notification with a well-formed order id, nothing is written
    and an error is returned when the order is not found, when its status is
    not [OrderStatusPaymentSystemCreate] (the error carries the status),
    when the income currency reported by the handler is unknown, and when
    the PSP accounting currency is not configured.  Otherwise, once the
    amounts are recomputed, the order goes to [UpdateOrder] whatever the
    verdict of the handler, with status [OrderStatusPaymentSystemReject]
    after a failure of the handler and [OrderStatusPaymentSystemComplete]
    after a success; the verdict is returned with the order. *)
Theorem ProcessNotifyPayment_spec (opn : OrderPaymentNotification)
    (psSettings : gmap string string) (st : Store) :
  IsObjectIdHex (OpnId opn) = true ->
  let found := FindOrderById om st (OpnId opn) in
  let result := ProcessNotifyPayment om opn psSettings st in
  (found = None -> result = (Err orderErrorNotFound, st))
  /\ (forall o, found = Some o -> Status o <> OrderStatusPaymentSystemCreate ->
        result = (Err (orderErrorOrderAlreadyHasEndedStatus (Status o)), st))
  /\ (pspAccountingCurrency om = None -> exists e, result = (Err e, st))
  /\ (forall o handler o1 hErr,
        found = Some o ->
        Status o = OrderStatusPaymentSystemCreate ->
        GetPaymentHandler om o psSettings = inl handler ->
        ProcessPayment handler o opn = (o1, hErr) ->
        (FindByCodeA3 om (PaymentMethodIncomeCurrencyA3 o1) = None ->
           result = (Err orderErrorOrderPaymentMethodIncomeCurrencyNotFound, st))
        /\ (forall o2,
              processNotifyPaymentAmounts om (set_Status (notifiedStatus hErr) o1) = Ok o2 ->
              let o3 := set_UpdatedAt (Now om) o2 in
              Status o3 = match hErr with
                          | Some _ => OrderStatusPaymentSystemReject
                          | None => OrderStatusPaymentSystemComplete
                          end
              /\ forall dbErr st',
                   UpdateOrder om st o3 = (dbErr, st') ->
                   result = (match dbErr with
                             | Some e => Err e
                             | None => Ok (o3, hErr)
                             end, st'))).
Proof.
  intros Hhex found result.
  assert (Hresult : result
            = match found with
              | None => (Err orderErrorNotFound, st)
              | Some o =>
                  match Status o with
                  | OrderStatusPaymentSystemCreate =>
                      match GetPaymentHandler om o psSettings with
                      | inr e => (Err e, st)
                      | inl handler =>
                          let '(o1, hErr) := ProcessPayment handler o opn in
                          match processNotifyPaymentAmounts om
                                  (set_Status (notifiedStatus hErr) o1) with
                          | Ok o2 => updateOrder om (set_UpdatedAt (Now om) o2) hErr st
                          | Err e => (Err e, st)
                          | Panic => (Panic, st)
                          end
                      end
                  | status => (Err (orderErrorOrderAlreadyHasEndedStatus status), st)
                  end
              end).
  { unfold result, ProcessNotifyPayment, FindById, ObjectIdHex, mbind, M_bind, lift.
    rewrite Hhex. simpl. fold found.
    destruct found as [o|]; [|done].
    destruct (Status o); try done.
    destruct (GetPaymentHandler om o psSettings) as [handler|e]; [|done].
    destruct (ProcessPayment handler o opn) as [o1 hErr].
    by destruct (processNotifyPaymentAmounts om (set_Status (notifiedStatus hErr) o1)). }
  split; [|split; [|split]].
  - intros Hnone. by rewrite Hresult, Hnone.
  - intros o Hsome Hstatus. rewrite Hresult, Hsome. by destruct (Status o).
  - intros Hpsp. rewrite Hresult.
    destruct found as [o|]; [|by eexists].
    destruct (Status o); try by eexists.
    destruct (GetPaymentHandler om o psSettings) as [handler|e]; [|by eexists].
    destruct (ProcessPayment handler o opn) as [o1 hErr].
    destruct (processNotifyPaymentAmounts_no_psp_currency
                (set_Status (notifiedStatus hErr) o1) Hpsp) as [e ->].
    by eexists.
  - intros o handler o1 hErr Hsome Hstatus Hhandler Hprocess.
    rewrite Hresult, Hsome, Hstatus, Hhandler, Hprocess. split.
    + intros Hnone. by rewrite processNotifyPaymentAmounts_unknown_currency.
    + intros o2 Hamounts. rewrite Hamounts. split.
      * simpl. rewrite (processNotifyPaymentAmounts_Status _ _ Hamounts). simpl.
        by destruct hErr.
      * intros dbErr st' Hupdate. unfold updateOrder. rewrite Hupdate.
        by destruct dbErr.
Qed.

End NotifyProperties.

(** ** Revenue dynamics *)

Section RevenueProperties.
Context {A : Type} `{Amount A}.
Variable model : RevenueDynamicRequestPeriods.
Variable FormatAmount : A -> A.
Variable PointDateString : RevenueDynamicPointDate -> string.

Abbreviation key := (bucketKey model PointDateString).

Lemma getRevenueDynamicPointsKey_ok (b : FacetPoint A) :
  hasYear model b ->
  getRevenueDynamicPointsKey model (FacetId b) = Ok (pointDate model (FacetId b)).
Proof.
  intros [year Hyear]. unfold getRevenueDynamicPointsKey, pointDate.
  by rewrite Hyear.
Qed.

(** The map of refunds after the first loop: for each key, the total of the
    last refund bucket of that key. *)
Lemma refundPoints_lookup (pRefund : list (FacetPoint A)) (acc : gmap string A) :
  (forall b, b ∈ pRefund -> hasYear model b) ->
  exists refPoints,
    refundPoints model FormatAmount PointDateString pRefund acc = Ok refPoints
    /\ (forall k, (forall r, r ∈ pRefund -> key r <> k) -> refPoints !! k = acc !! k)
    /\ (forall j r,
          pRefund !! j = Some r ->
          (forall j' r', (j < j')%nat -> pRefund !! j' = Some r' -> key r' <> key r) ->
          refPoints !! key r = Some (FormatAmount (FacetTotal r))).
Proof.
  revert acc. induction pRefund as [|b rest IH]; intros acc Hyear.
  - exists acc. split; [done|]. split; [done|]. intros j r Hj. by destruct j.
  - simpl. rewrite getRevenueDynamicPointsKey_ok
      by (apply Hyear, elem_of_cons; by left).
    simpl.
    destruct (IH (<[key b := FormatAmount (FacetTotal b)]> acc))
      as (m & Hm & Hother & Hlast).
    { intros b' Hb'. apply Hyear, elem_of_cons. by right. }
    exists m. split; [exact Hm|]. split.
    + intros k Hk. rewrite Hother.
      * apply lookup_insert_ne. apply Hk, elem_of_cons. by left.
      * intros r Hr. apply Hk, elem_of_cons. by right.
    + intros [|j] r Hj Hafter; simpl in Hj.
      * injection Hj as ->. rewrite Hother.
        -- apply lookup_insert_eq.
        -- intros r' Hr'. apply list_elem_of_lookup in Hr' as [j' Hj'].
           apply (Hafter (S j') r'); [lia|done].
      * apply (Hlast j r Hj). intros j' r' Hlt Hj'.
        apply (Hafter (S j') r'); [lia|done].
Qed.

Lemma revenuePoints_eq (refPoints : gmap string A) (pRevenue : list (FacetPoint A))
    (acc : list (RevenueDynamicPoint A)) :
  (forall b, b ∈ pRevenue -> hasYear model b) ->
  revenuePoints model FormatAmount PointDateString refPoints pRevenue acc
  = Ok (acc ++ ((fun b =>
                   {| Date := pointDate model (FacetId b);
                      PointAmount :=
                        match refPoints !! key b with
                        | Some refVal => FormatAmount (asub (FacetTotal b) refVal)
                        | None => FormatAmount (FacetTotal b)
                        end |}) <$> pRevenue)).
Proof.
  revert acc. induction pRevenue as [|b rest IH]; intros acc Hyear; simpl.
  - by rewrite app_nil_r.
  - unfold revenuePoint.
    rewrite getRevenueDynamicPointsKey_ok by (apply Hyear, elem_of_cons; by left).
    simpl. fold (key b).
    assert (Hrest : forall b', b' ∈ rest -> hasYear model b')
      by (intros b' Hb'; apply Hyear, elem_of_cons; by right).
    destruct (refPoints !! key b); simpl; rewrite IH by done;
      by rewrite <- app_assoc.
Qed.

(** C7: for an aggregation result whose first facet has a year in every
    bucket and a revenue and a refund summary, the series has one
    point per revenue bucket, in order; the amount of a point is the
    (formatted) revenue total when no refund bucket has the same key, and
    the revenue total minus the (formatted) total of the refund bucket of
    the same key when there is one (the last of them, should several share
    the key); the key of a bucket is the string of its period fields.  The
    revenue and refund summaries carry the count and the formatted total and
    average of their facets. *)
Theorem GetRevenueDynamic_spec (res : list (RevenueDynamicFacet A))
    (facet : RevenueDynamicFacet A) (rev ref : RevenueDynamicMainData A) :
  head res = Some facet ->
  (forall b, b ∈ FacetPointsRefund facet \/ b ∈ FacetPointsRevenue facet ->
             hasYear model b) ->
  head (FacetRevenue facet) = Some rev ->
  head (FacetRefund facet) = Some ref ->
  exists rd,
    GetRevenueDynamic model FormatAmount PointDateString res None = Ok rd
    /\ length (Points rd) = length (FacetPointsRevenue facet)
    /\ (forall i b,
          FacetPointsRevenue facet !! i = Some b ->
          exists pt,
            Points rd !! i = Some pt
            /\ Date pt = pointDate model (FacetId b)
            /\ ((forall r, r ∈ FacetPointsRefund facet -> key r <> key b) ->
                PointAmount pt = FormatAmount (FacetTotal b))
            /\ (forall j r,
                  FacetPointsRefund facet !! j = Some r ->
                  key r = key b ->
                  (forall j' r', (j < j')%nat ->
                                 FacetPointsRefund facet !! j' = Some r' ->
                                 key r' <> key b) ->
                  PointAmount pt
                  = FormatAmount (asub (FacetTotal b) (FormatAmount (FacetTotal r)))))
    /\ Revenue rd = {| Count := Count rev; Total := FormatAmount (Total rev);
                       Avg := FormatAmount (Avg rev) |}
    /\ Refund rd = {| Count := Count ref; Total := FormatAmount (Total ref);
                      Avg := FormatAmount (Avg ref) |}.
Proof.
  intros Hres Hyear Hrev Href.
  destruct (refundPoints_lookup (FacetPointsRefund facet) ∅)
    as (refPoints & HrefPoints & Hother & Hlast).
  { intros b Hb. apply Hyear. by left. }
  unfold GetRevenueDynamic. rewrite Hres. simpl. rewrite HrefPoints. simpl.
  rewrite revenuePoints_eq by (intros b Hb; apply Hyear; by right).
  simpl. rewrite Hrev, Href. simpl.
  eexists. split; [reflexivity|]. simpl.
  split; [by rewrite length_fmap|]. split; [|done].
  intros i b Hb. rewrite list_lookup_fmap, Hb. simpl.
  eexists. split; [reflexivity|]. simpl. split; [done|]. split.
  - intros Hno. by rewrite (Hother (key b) Hno), lookup_empty.
  - intros j r Hj Hkey Hafter. rewrite <- Hkey, (Hlast j r Hj); [done|].
    intros j' r' Hlt Hj'. rewrite Hkey. by apply (Hafter j' r').
Qed.

End RevenueProperties.

(** ** The model at work *)

(** C1: the example of a plain order (limits [10, 1000] USD, 500 USD, no
    payment method, no fixed packages) does not get through [Process]: the
    geo record was never fetched and order assembly panics on it; nothing
    is inserted. *)
Example Process_plain_order_panics :
  Process (Demo.om Demo.fairCommission)
    (Demo.request Demo.openProjectId 500 "USD" "8.8.8.8" None) []
  = (Panic, []).
Proof. vm_compute. reflexivity. Qed.

(** C9: with both date ranges supplied only the project range is left in the
    filter, under the key of the payment method close date: the payment
    method range is overwritten; supplied alone, the project range
    constrains the payment method close date. *)
Example ProcessFilters_date_ranges_collide :
  ProcessFilters Demo.filterFields Demo.bothRanges ∅
  = Ok {[ "pm_order_close_date" := FvDates {[ "$gte" := 300; "$lte" := 400 ]} ]}
  /\ ProcessFilters Demo.filterFields Demo.projectRangeOnly ∅
     = Ok {[ "pm_order_close_date" := FvDates {[ "$gte" := 300; "$lte" := 400 ]} ]}.
Proof. split; vm_compute; reflexivity. Qed.

(** Writing a second, non-empty range under a key erases the first. *)
Lemma setDates_overwrites (key : string) (first second : gmap string Time)
    (filter : gmap string FilterValue) :
  (0 < size second)%nat ->
  setDates key second (setDates key first filter) = setDates key second filter.
Proof.
  intros Hsize. unfold setDates.
  replace (0 <? size second)%nat with true by (symmetry; by apply Nat.ltb_lt).
  destruct (0 <? size first)%nat; [|done]. apply insert_insert_eq.
Qed.

(** A value that is no date range does not bring one into the filter. *)
Lemma lookup_insert_dates (filter : gmap string FilterValue) (k0 k : string)
    (v : FilterValue) (range : gmap string Time) :
  (forall r, v <> FvDates r) ->
  <[k0 := v]> filter !! k = Some (FvDates range) ->
  filter !! k = Some (FvDates range).
Proof.
  intros Hv. destruct (decide (k0 = k)) as [->|Hne].
  - rewrite lookup_insert_eq. intros [= ->]. by destruct (Hv range).
  - by rewrite lookup_insert_ne.
Qed.

Lemma lookup_setDates (filter : gmap string FilterValue) (key k : string)
    (dates range : gmap string Time) :
  setDates key dates filter !! k = Some (FvDates range) ->
  k = key \/ filter !! k = Some (FvDates range).
Proof.
  unfold setDates. destruct (0 <? size dates)%nat; [|by right].
  destruct (decide (key = k)) as [->|Hne]; [by left|].
  rewrite lookup_insert_ne by done. by right.
Qed.

(** Whatever the parameters are called and whatever is supplied, the only
    key under which [ProcessFilters] stores a date range is the one of the
    payment method close date: the project range has no key of its own. *)
Lemma ProcessFilters_one_date_key (model : OrderFilterFields)
    (values : gmap string (list string)) (filter f : gmap string FilterValue)
    (k : string) (range : gmap string Time) :
  ProcessFilters model values filter = Ok f ->
  f !! k = Some (FvDates range) ->
  k = "pm_order_close_date" \/ filter !! k = Some (FvDates range).
Proof.
  unfold ProcessFilters. intros Hrun Hk.
  destruct (match values !! OrderFilterFieldId model with
            | Some id => _
            | None => Ok filter
            end) as [f1| |] eqn:H1; [|done..].
  assert (Hf1 : f1 !! k = Some (FvDates range) -> filter !! k = Some (FvDates range)).
  { destruct (values !! OrderFilterFieldId model) as [id|]; [|by injection H1 as ->].
    destruct (head id) as [first|]; [|done]. simpl in H1.
    destruct (ObjectIdHex first) as [oid| |]; [|done..]. simpl in H1.
    injection H1 as <-. by apply lookup_insert_dates. }
  simpl in Hrun.
  destruct (match values !! OrderFilterFieldPaymentMethods model with
            | Some pms => _
            | None => Ok f1
            end) as [f2| |] eqn:H2; [|done..].
  assert (Hf2 : f2 !! k = Some (FvDates range) -> f1 !! k = Some (FvDates range)).
  { destruct (values !! OrderFilterFieldPaymentMethods model) as [pms|];
      [|by injection H2 as ->].
    destruct (objectIdsHex pms []) as [fPms| |]; [|done..]. simpl in H2.
    injection H2 as <-. by apply lookup_insert_dates. }
  simpl in Hrun.
  set (f3 := match values !! OrderFilterFieldCountries model with
             | Some cs => <["payer_data.country_code_a2" := FvInStrings cs]> f2
             | None => f2
             end) in Hrun.
  assert (Hf3 : f3 !! k = Some (FvDates range) -> f2 !! k = Some (FvDates range)).
  { unfold f3. destruct (values !! OrderFilterFieldCountries model); [|done].
    by apply lookup_insert_dates. }
  set (f4 := match values !! OrderFilterFieldStatuses model with
             | Some ss => _
             | None => f3
             end) in Hrun.
  assert (Hf4 : f4 !! k = Some (FvDates range) -> f3 !! k = Some (FvDates range)).
  { unfold f4. destruct (values !! OrderFilterFieldStatuses model) as [ss|]; [|done].
    destruct (0 <? length (statusCodes ss))%nat; [|done].
    by apply lookup_insert_dates. }
  destruct (match values !! OrderFilterFieldAccount model with
            | Some a => _
            | None => Ok f4
            end) as [f5| |] eqn:H5; [|done..].
  assert (Hf5 : f5 !! k = Some (FvDates range) -> f4 !! k = Some (FvDates range)).
  { destruct (values !! OrderFilterFieldAccount model) as [a|]; [|by injection H5 as ->].
    destruct (head a) as [first|]; [|done]. simpl in H5.
    injection H5 as <-. by apply lookup_insert_dates. }
  simpl in Hrun.
  destruct (dateBound values (OrderFilterFieldPMDateFrom model) "$gte" ∅)
    as [d1| |]; [|done..]. simpl in Hrun.
  destruct (dateBound values (OrderFilterFieldPMDateTo model) "$lte" d1)
    as [pmDates| |]; [|done..]. simpl in Hrun.
  destruct (dateBound values (OrderFilterFieldProjectDateFrom model) "$gte" ∅)
    as [d2| |]; [|done..]. simpl in Hrun.
  destruct (dateBound values (OrderFilterFieldProjectDateTo model) "$lte" d2)
    as [prjDates| |]; [|done..]. simpl in Hrun.
  injection Hrun as <-.
  apply lookup_setDates in Hk as [->|Hk]; [by left|].
  apply lookup_setDates in Hk as [->|Hk]; [by left|].
  right. apply Hf1, Hf2, Hf3, Hf4, Hf5, Hk.
Qed.

(** C8, as stated, fails: with a commission setting that passes 5 to the
    payer out of a commission of 2, the created order has a project fee
    of -3. *)
Lemma fees_can_be_negative :
  exists o st',
    Process (Demo.om Demo.greedyCommission) Demo.cardRequest [] = (Ok o, st')
    /\ ProjectFeeAmount o = -3
    /\ ~ feesNonneg o.
Proof.
  eexists _, _. split; [vm_compute; reflexivity|]. simpl. split; [reflexivity|].
  intros [Hfee _]. vm_compute in Hfee. discriminate Hfee.
Qed.

(** The demo installation with the fair commission is sane. *)
Lemma demo_sane : SaneAmounts (Demo.om Demo.fairCommission).
Proof.
  split; unfold nonneg; simpl.
  - reflexivity.
  - intros x y Hxy. apply Z.ltb_ge in Hxy. apply Z.ltb_ge. lia.
  - done.
  - intros from to x Hx. apply Z.ltb_ge in Hx.
    destruct (from =? to); simpl; [by apply Z.ltb_ge|].
    destruct ((from =? 978) && (to =? 840)); simpl; apply Z.ltb_ge; lia.
  - reflexivity.
  - intros _ _ _ cm [= <-]. simpl. repeat split.
Defined.

Lemma fees_nonneg_witness :
  SaneAmounts (Demo.om Demo.fairCommission)
  /\ exists o st',
       Process (Demo.om Demo.fairCommission) Demo.cardRequest [] = (Ok o, st')
       /\ feesNonneg o.
Proof.
  split; [exact demo_sane|].
  destruct (Process (Demo.om Demo.fairCommission) Demo.cardRequest [])
    as [[o| |] st'] eqn:Hrun; [|vm_compute in Hrun; discriminate Hrun..].
  exists o, st'. split; [reflexivity|].
  exact (proj1 (fees_nonneg_under_sane_amounts (Demo.om Demo.fairCommission) demo_sane)
           Demo.cardRequest [] st' o Hrun).
Defined.

Lemma checkSignature_witness :
  Signature (c_order Demo.signedCheck) = Some "sha256:amount=500|currency=USD|secret"
  /\ exists keys,
       StronglySorted String.le keys
       /\ (checkSignature (Demo.om Demo.fairCommission) Demo.signedCheck = Ok tt
           <-> sha256 (Demo.om Demo.fairCommission)
                 (signedText (RawRequestParams (c_order Demo.signedCheck))
                    (SecretKey (c_project Demo.signedCheck)) keys)
               = "sha256:amount=500|currency=USD|secret").
Proof.
  split; [reflexivity|].
  destruct (checkSignature_spec (Demo.om Demo.fairCommission) Demo.signedCheck
              "sha256:amount=500|currency=USD|secret" eq_refl)
    as (keys & _ & _ & Hsorted & _ & Hok & _).
  exists keys. split; assumption.
Defined.

Lemma checkPaymentMethod_witness :
  OsPaymentMethod (c_order Demo.signedCheck) = Some "card"
  /\ exists opm,
       getPaymentMethod (c_order Demo.signedCheck)
         (PPaymentMethods (c_project Demo.signedCheck)) = Ok (Some opm)
       /\ forall ppm,
            ppm ∈ [ {| PpmId := Demo.oldCardId; AddedAt := 100 |};
                    {| PpmId := Demo.cardId; AddedAt := 200 |} ] ->
            AddedAt ppm <= AddedAt opm.
Proof.
  split; [reflexivity|].
  destruct (proj2 (checkPaymentMethod_spec (Demo.om Demo.fairCommission)
                     Demo.signedCheck "card" eq_refl)
              [ {| PpmId := Demo.oldCardId; AddedAt := 100 |};
                {| PpmId := Demo.cardId; AddedAt := 200 |} ])
    as (opm & Hget & _ & Hmax & _).
  - vm_compute. reflexivity.
  - discriminate.
  - exists opm. split; assumption.
Defined.

Lemma getOrderFixedPackage_witness :
  geoDbReader_City (Demo.om Demo.fairCommission)
    (CreateOrderIp (c_order Demo.signedCheck)) = Some Demo.california
  /\ OsCurrency (c_order Demo.signedCheck) = Some "USD"
  /\ getOrderFixedPackage (Demo.om Demo.fairCommission) Demo.signedCheck
     = Ok (Demo.california,
           {| OfpId := 2; OfpRegion := "US"; OfpName := "Gold (promo)";
              OfpCurrencyInt := 840; OfpPrice := 500 |}).
Proof.
  split; [reflexivity|]. split; [reflexivity|].
  destruct (getOrderFixedPackage_spec (Demo.om Demo.fairCommission) Demo.signedCheck
              Demo.california "USD" eq_refl eq_refl) as [_ Hfound].
  destruct (Hfound Demo.packages) as [_ Hlast].
  - vm_compute. reflexivity.
  - discriminate.
  - apply (Hlast 2%nat
             {| FpName := "Gold (promo)"; FpCurrencyInt := 840; FpPrice := 500;
                FpCurrency := Demo.usd |}).
    + reflexivity.
    + split; reflexivity.
    + intros j fp' Hlt Hj. destruct j as [|[|[|j]]]; try lia. discriminate Hj.
Defined.

Lemma Process_amount_lower_than_min_witness :
  FindProjectById (Demo.om Demo.fairCommission) Demo.openProjectId
  = Some (Demo.project Demo.openProjectId false)
  /\ altb (6 : Z) 10 = true
  /\ Process (Demo.om Demo.fairCommission)
       (Demo.request Demo.openProjectId 3 "EUR" "8.8.8.8" None) []
     = (Err orderErrorAmountLowerThanMinAllowed, []).
Proof.
  split; [reflexivity|]. split; [reflexivity|].
  destruct (Process_amount_lower_than_min (Demo.om Demo.fairCommission)
              (Demo.request Demo.openProjectId 3 "EUR" "8.8.8.8" None) []
              (Demo.project Demo.openProjectId false) (Some Demo.eur) 6)
    as [_ Hrejected]; [reflexivity..|].
  apply (Hrejected eq_refl (or_introl eq_refl) None (or_introl (conj eq_refl eq_refl))
           (or_introl eq_refl)).
Defined.

Lemma Process_geo_record_precondition_witness :
  Process (Demo.om Demo.fairCommission)
    (Demo.request Demo.fixedProjectId 500 "USD" "10.0.0.1" None) []
  = (Panic, [])
  /\ Process (Demo.om Demo.fairCommission)
       (Demo.request Demo.fixedProjectId 500 "USD" "10.0.0.1" (Some "card")) []
     = (Panic, []).
Proof.
  split.
  - destruct (proj1 (proj2 (Process_geo_record_precondition
                              (Demo.om Demo.fairCommission)
                              (Demo.request Demo.fixedProjectId 500 "USD" "10.0.0.1" None)
                              []))
                (Demo.project Demo.fixedProjectId true) Demo.usd None
                (Some Demo.nowhere)
                (Some {| OfpId := 2; OfpRegion := "US"; OfpName := "Gold (promo)";
                         OfpCurrencyInt := 840; OfpPrice := 500 |}))
      as (_ & _ & Hassembly).
    + reflexivity.
    + reflexivity.
    + reflexivity.
    + intros [s Hs]. discriminate Hs.
    + reflexivity.
    + vm_compute. reflexivity.
    + vm_compute. reflexivity.
    + right. by exists Demo.nowhere.
    + apply (Hassembly (None, None, 0)).
      * reflexivity.
      * intros oid Hoid. discriminate Hoid.
      * reflexivity.
  - destruct (proj1 (proj2 (Process_geo_record_precondition
                              (Demo.om Demo.fairCommission)
                              (Demo.request Demo.fixedProjectId 500 "USD" "10.0.0.1"
                                 (Some "card"))
                              []))
                (Demo.project Demo.fixedProjectId true) Demo.usd (Some Demo.card)
                (Some Demo.nowhere)
                (Some {| OfpId := 2; OfpRegion := "US"; OfpName := "Gold (promo)";
                         OfpCurrencyInt := 840; OfpPrice := 500 |}))
      as (_ & Hvat & _).
    + reflexivity.
    + reflexivity.
    + reflexivity.
    + intros [s Hs]. discriminate Hs.
    + exists Demo.card. split; [reflexivity|]. vm_compute. reflexivity.
    + vm_compute. reflexivity.
    + vm_compute. reflexivity.
    + right. by exists Demo.nowhere.
    + destruct (Hvat Demo.card {| pmo_amount := 500; pmo_currency := Demo.usd |}
                  (Some Demo.fairCommission)) as [_ Hpanic].
      * by exists "card".
      * reflexivity.
      * vm_compute. reflexivity.
      * reflexivity.
      * intros _. by exists Demo.fairCommission.
      * reflexivity.
      * exact Hpanic.
Defined.

Lemma ProcessNotifyPayment_witness :
  IsObjectIdHex (OpnId Demo.declined) = true
  /\ exists o e,
       ProcessNotifyPayment (Demo.om Demo.fairCommission) Demo.declined ∅
         [Demo.storedOrder] = (Ok (o, Some e), [o])
       /\ Status o = OrderStatusPaymentSystemReject.
Proof.
  split; [reflexivity|].
  destruct (ProcessNotifyPayment_spec (Demo.om Demo.fairCommission) Demo.declined ∅
              [Demo.storedOrder] eq_refl) as (_ & _ & _ & Hrun).
  destruct (Hrun Demo.storedOrder Demo.handler Demo.storedOrder
              (Some (collaboratorError "payment declined"))
              eq_refl eq_refl eq_refl eq_refl) as [_ Hdone].
  edestruct Hdone as [Hstatus Hupdate]; [vm_compute; reflexivity|].
  eexists _, _. split; [|exact Hstatus].
  apply (Hupdate None). vm_compute. reflexivity.
Defined.

Lemma GetRevenueDynamic_witness :
  head [Demo.facet] = Some Demo.facet
  /\ exists rd,
       GetRevenueDynamic Demo.periods (fun a : Z => a) Demo.periodString
         [Demo.facet] None = Ok rd
       /\ (PointAmount <$> Points rd) = [70; 100]
       /\ Revenue rd = {| Count := 2; Total := 200; Avg := 100 |}
       /\ Refund rd = {| Count := 1; Total := 30; Avg := 30 |}.
Proof.
  split; [reflexivity|].
  destruct (GetRevenueDynamic_spec Demo.periods (fun a : Z => a) Demo.periodString
              [Demo.facet] Demo.facet
              {| Count := 2; Total := 200; Avg := 100 |}
              {| Count := 1; Total := 30; Avg := 30 |} eq_refl)
    as (rd & Hrd & _ & _ & Hrev & Href); try reflexivity.
  - intros b Hb. unfold hasYear.
    assert (Hin : b ∈ FacetPointsRefund Demo.facet ++ FacetPointsRevenue Demo.facet)
      by (apply elem_of_app; exact Hb).
    simpl in Hin. repeat (apply elem_of_cons in Hin as [-> |Hin]; [by eexists|]).
    by apply elem_of_nil in Hin.
  - exists rd. split; [exact Hrd|]. split; [|split; assumption].
    vm_compute in Hrd. injection Hrd as <-. reflexivity.
Defined.

(** C2, as stated for every notification, fails: a notification whose order
    id is not an object id names no order of the table, yet it is not
    answered with an error; the lookup panics on the id. *)
Lemma ProcessNotifyPayment_malformed_id_panics :
  IsObjectIdHex (OpnId Demo.malformed) = false
  /\ FindOrderById (Demo.om Demo.fairCommission) [Demo.storedOrder]
       (OpnId Demo.malformed) = None
  /\ ProcessNotifyPayment (Demo.om Demo.fairCommission) Demo.malformed ∅
       [Demo.storedOrder] = (Panic, [Demo.storedOrder]).
Proof.
  split; [reflexivity|]. split; vm_compute; reflexivity.
Qed.

(** C4, as stated for every request, fails twice.  A request that names its
    region, for which the project has a package of the requested price and
    currency, is still refused as of unknown region when the GeoIP database
    does not know its address; and a request without a currency whose
    amount is the price of a package is not refused for want of a matching
    package: the comparison of the currencies panics. *)
Lemma getOrderFixedPackage_needs_record_and_currency :
  (Region Demo.regionRequest = Some "US"
   /\ geoDbReader_City (Demo.om Demo.fairCommission)
        (CreateOrderIp Demo.regionRequest) = None
   /\ (exists fps fp,
         PFixedPackage (Demo.project Demo.fixedProjectId true) !! "US" = Some fps
         /\ fp ∈ fps /\ packageMatches Demo.regionRequest "USD" fp)
   /\ getOrderFixedPackage (Demo.om Demo.fairCommission)
        (newCheck Demo.regionRequest (Demo.project Demo.fixedProjectId true)
           (Some Demo.usd) None)
      = Err orderErrorPayerRegionUnknown)
  /\ (OsCurrency Demo.noCurrencyRequest = None
      /\ getOrderFixedPackage (Demo.om Demo.fairCommission)
           (newCheck Demo.noCurrencyRequest (Demo.project Demo.fixedProjectId true)
              None None)
         = Panic).
Proof.
  split.
  - split; [reflexivity|]. split; [reflexivity|]. split; [|reflexivity].
    exists Demo.packages,
      {| FpName := "Gold"; FpCurrencyInt := 840; FpPrice := 500;
         FpCurrency := Demo.usd |}.
    split; [reflexivity|]. split; [apply elem_of_cons; by left|].
    split; reflexivity.
  - split; [reflexivity|]. vm_compute. reflexivity.
Qed.

(** C5, as stated, fails: 5 USD is below the minimum of 10 USD, and the
    request is rejected before anything is written, but not with the error
    of the minimum: the project sells fixed packages, none costs 5 USD, and
    that check comes first. *)
Lemma Process_low_amount_other_error :
  limitAmount (Demo.om Demo.fairCommission)
    (newCheck (Demo.request Demo.fixedProjectId 5 "USD" "8.8.8.8" None)
       (Demo.project Demo.fixedProjectId true) (Some Demo.usd) None)
    (LimitsCurrency (Demo.project Demo.fixedProjectId true)) = Ok 5
  /\ altb (5 : Z) (MinPaymentAmount (Demo.project Demo.fixedProjectId true)) = true
  /\ Process (Demo.om Demo.fairCommission)
       (Demo.request Demo.fixedProjectId 5 "USD" "8.8.8.8" None) []
     = (Err orderErrorFixedPackageNotFound, [])
  /\ Process (Demo.om Demo.fairCommission)
       (Demo.request Demo.fixedProjectId 5 "USD" "8.8.8.8" (Some "paypal")) []
     = (Err orderErrorPaymentMethodNotAllowed, []).
Proof.
  split; [reflexivity|]. split; [reflexivity|]. split; vm_compute; reflexivity.
Qed.

(** C7, as stated for every result and whichever period fields are present,
    fails: a revenue bucket keyed by the month alone gives no point but a
    panic (the year is asserted), and so does a facet without a revenue
    summary (the first summary is indexed). *)
Lemma GetRevenueDynamic_partial_result_panics :
  GetRevenueDynamic Demo.periods (fun a : Z => a) Demo.periodString
    [Demo.monthlyFacet] None = Panic
  /\ GetRevenueDynamic Demo.periods (fun a : Z => a) Demo.periodString
       [Demo.bareFacet] None = Panic.
Proof.
  split; vm_compute; reflexivity.
Qed.

(** * Further properties of the order manager *)

(** ** What [Process] checks and writes *)

Section ProcessChecks.
Context {A : Type} `{Amount A} {Store : Type}.
Variable om : OrderManager A Store.

(** Every step of [Process] before the insert leaves the table alone, and
    the insert is the only write: a failing insert is reported as
    [orderErrorCanNotCreate], whatever the table said. *)
Theorem Process_store_discipline (order : OrderScalar A) (st st' : Store)
    (r : Outcome (Order A)) :
  Process om order st = (r, st') ->
  (st' = st /\ forall o, r <> Ok o)
  \/ exists nOrder dbErr,
       InsertOrder om st nOrder = (dbErr, st')
       /\ r = match dbErr with
              | Some _ => Err orderErrorCanNotCreate
              | None => Ok nOrder
              end.
Proof.
  unfold Process, mbind, M_bind, lift. intros HP.
  destruct (FindProjectById om (ProjectId order)) as [p|];
    [|injection HP as <- <-; by left].
  destruct (PIsActive p); simpl in HP; [|injection HP as <- <-; by left].
  destruct (orderCurrency om order) as [oCurrency|e|];
    [|injection HP as <- <-; by left..].
  destruct (match Signature order with
            | Some _ => checkSignature om (newCheck order p oCurrency None)
            | None => Ok tt
            end) as [[]|e|]; [|injection HP as <- <-; by left..].
  destruct (match OsPaymentMethod order with
            | Some _ => _
            | None => Ok None
            end) as [pm|e|]; [|injection HP as <- <-; by left..].
  destruct (orderFixedPackage om p (newCheck order p oCurrency pm))
    as [[gRecord ofp]|e|]; [|injection HP as <- <-; by left..].
  destruct (checkProjectLimits om (newCheck order p oCurrency pm)) as [[]|e|];
    [|injection HP as <- <-; by left..].
  destruct (paymentMethodAmounts om order p (newCheck order p oCurrency pm) pm gRecord)
    as [[[pmOutcome commissions] vatAmount]|e|]; [|injection HP as <- <-; by left..].
  destruct (match OrderId order with
            | Some _ => checkProjectOrderIdUnique om order
            | None => mret tt
            end st) as [u st1] eqn:Hunique.
  assert (st1 = st) as ->.
  { destruct (OrderId order); [by eapply checkProjectOrderIdUnique_store|].
    by injection Hunique. }
  destruct u as [[]|e|]; [|injection HP as <- <-; by left..].
  destruct (checkDynamicUrls order p) as [[]|e|]; [|injection HP as <- <-; by left..].
  destruct oCurrency as [oc|]; simpl in HP; [|injection HP as <- <-; by left].
  destruct gRecord as [g|]; simpl in HP; [|injection HP as <- <-; by left].
  destruct (head (geoip2.Subdivisions g)) as [sub|]; simpl in HP;
    [|injection HP as <- <-; by left].
  destruct (orderPaymentMethod om order p pm pmOutcome commissions _)
    as [nOrder|e|]; [|injection HP as <- <-; by left..].
  unfold insertNewOrder in HP.
  destruct (InsertOrder om st nOrder) as [dbErr st2] eqn:Hins.
  right. exists nOrder, dbErr. split; [|by destruct dbErr; injection HP as <- <-].
  destruct dbErr; by injection HP as <- <-.
Qed.

(** The run that created an order, in the terms of the helpers. *)
Lemma Process_Ok_checks (order : OrderScalar A) (st st' : Store) (o : Order A) :
  Process om order st = (Ok o, st') ->
  exists p oc pm g sub ofp pmOutcome commissions vatAmount,
    FindProjectById om (ProjectId order) = Some p
    /\ PIsActive p = true
    /\ orderCurrency om order = Ok (Some oc)
    /\ (is_Some (Signature order) ->
        checkSignature om (newCheck order p (Some oc) None) = Ok tt)
    /\ match OsPaymentMethod order with
       | Some _ => exists pmv,
           pm = Some pmv
           /\ checkPaymentMethod om (newCheck order p (Some oc) None) = Ok pmv
       | None => pm = None
       end
    /\ orderFixedPackage om p (newCheck order p (Some oc) pm) = Ok (Some g, ofp)
    /\ checkProjectLimits om (newCheck order p (Some oc) pm) = Ok tt
    /\ paymentMethodAmounts om order p (newCheck order p (Some oc) pm) pm (Some g)
       = Ok (pmOutcome, commissions, vatAmount)
    /\ (forall oid, OrderId order = Some oid ->
                    FindOrderByProjectOrderId om st oid = None)
    /\ checkDynamicUrls order p = Ok tt
    /\ head (geoip2.Subdivisions g) = Some sub
    /\ orderPaymentMethod om order p pm pmOutcome commissions
         (orderDescription order (newOrder om order p (Some oc) oc g sub ofp vatAmount))
       = Ok o
    /\ InsertOrder om st o = (None, st').
Proof.
  unfold Process, mbind, M_bind, lift. intros HP.
  destruct (FindProjectById om (ProjectId order)) as [p|] eqn:Hp; [|done].
  destruct (PIsActive p) eqn:Hact; simpl in HP; [|done].
  destruct (orderCurrency om order) as [oCurrency|e|] eqn:Hcur; [|done..].
  destruct (match Signature order with
            | Some _ => checkSignature om (newCheck order p oCurrency None)
            | None => Ok tt
            end) as [[]|e|] eqn:Hsig; [|done..].
  destruct (match OsPaymentMethod order with
            | Some _ => _
            | None => Ok None
            end) as [pm|e|] eqn:Hpm; [|done..].
  destruct (orderFixedPackage om p (newCheck order p oCurrency pm))
    as [[gRecord ofp]|e|] eqn:Hofp; [|done..].
  destruct (checkProjectLimits om (newCheck order p oCurrency pm))
    as [[]|e|] eqn:Hlimits; [|done..].
  destruct (paymentMethodAmounts om order p (newCheck order p oCurrency pm) pm gRecord)
    as [[[pmOutcome commissions] vatAmount]|e|] eqn:Hamounts; [|done..].
  destruct (match OrderId order with
            | Some _ => checkProjectOrderIdUnique om order
            | None => mret tt
            end st) as [u st1] eqn:Hunique.
  assert (st1 = st) as ->.
  { destruct (OrderId order); [by eapply checkProjectOrderIdUnique_store|].
    by injection Hunique. }
  destruct u as [[]|e|]; [|done..].
  destruct (checkDynamicUrls order p) as [[]|e|] eqn:Hurls; [|done..].
  destruct oCurrency as [oc|]; simpl in HP; [|done].
  destruct gRecord as [g|]; simpl in HP; [|done].
  destruct (head (geoip2.Subdivisions g)) as [sub|] eqn:Hsub; simpl in HP; [|done].
  destruct (orderPaymentMethod om order p pm pmOutcome commissions
              (orderDescription order (newOrder om order p (Some oc) oc g sub ofp vatAmount)))
    as [nOrder|e|] eqn:Hopm; [|done..].
  unfold insertNewOrder in HP.
  destruct (InsertOrder om st nOrder) as [[e|] st2] eqn:Hins; [done|].
  injection HP as <- <-.
  exists p, oc, pm, g, sub, ofp, pmOutcome, commissions, vatAmount.
  split_and!; try done.
  - intros [s Hs]. by rewrite Hs in Hsig.
  - destruct (OsPaymentMethod order); [|by injection Hpm as <-].
    destruct (checkPaymentMethod om (newCheck order p (Some oc) None)) as [pmv|e|];
      simpl in Hpm; [|done..].
    injection Hpm as <-. by exists pmv.
  - intros oid Hoid. rewrite Hoid in Hunique.
    unfold checkProjectOrderIdUnique in Hunique. rewrite Hoid in Hunique.
    by destruct (FindOrderByProjectOrderId om st oid).
Qed.

End ProcessChecks.

(** ** Chosen payment method and fixed package, read backwards *)

Section SelectionProperties.
Context {A : Type} `{Amount A} {Store : Type}.
Variable om : OrderManager A Store.

(** The loop of [getPaymentMethod] replaces the kept configuration only by
    one added strictly later: among the configurations added last, the
    first of the list is the one returned. *)
Lemma fold_laterAdded_first (cpms : list ProjectPaymentModes)
    (acc : option ProjectPaymentModes) (opm : ProjectPaymentModes) :
  fold_left laterAdded cpms acc = Some opm ->
  (acc = Some opm /\ forall ppm, ppm ∈ cpms -> AddedAt ppm <= AddedAt opm)
  \/ exists i,
       cpms !! i = Some opm
       /\ (forall a, acc = Some a -> AddedAt a < AddedAt opm)
       /\ (forall j ppm, (j < i)%nat -> cpms !! j = Some ppm -> AddedAt ppm < AddedAt opm)
       /\ (forall ppm, ppm ∈ cpms -> AddedAt ppm <= AddedAt opm).
Proof.
  revert acc. induction cpms as [|x cpms IH]; intros acc Hfold; simpl in Hfold.
  - left. split; [done|]. intros ppm Hin. by apply elem_of_nil in Hin.
  - destruct (IH _ Hfold) as [[Hacc Hmax]|(i & Hi & Hbefore & Hfirst & Hmax)].
    + destruct acc as [a|]; simpl in Hacc.
      * destruct (Z.ltb_spec (AddedAt a) (AddedAt x)); injection Hacc as ->.
        -- right. exists 0%nat. split; [done|]. split; [by intros a' [= <-]|].
           split; [intros j ppm Hj; lia|].
           intros ppm Hin. apply elem_of_cons in Hin as [->|Hin]; [lia|auto].
        -- left. split; [done|].
           intros ppm Hin. apply elem_of_cons in Hin as [->|Hin]; [lia|auto].
      * injection Hacc as ->. right. exists 0%nat. split; [done|].
        split; [done|]. split; [intros j ppm Hj; lia|].
        intros ppm Hin. apply elem_of_cons in Hin as [->|Hin]; [lia|auto].
    + right. exists (S i). split; [done|].
      assert (Hx : AddedAt x < AddedAt opm /\
                   forall a, acc = Some a -> AddedAt a < AddedAt opm).
      { destruct acc as [a|]; simpl in Hbefore.
        - destruct (Z.ltb_spec (AddedAt a) (AddedAt x)).
          + specialize (Hbefore x eq_refl). split; [done|]. intros a' [= <-]. lia.
          + specialize (Hbefore a eq_refl). split; [lia|]. by intros a' [= <-].
        - specialize (Hbefore x eq_refl). by split. }
      destruct Hx as [Hx Hacc]. split; [done|]. split.
      * intros [|j] ppm Hlt Hj; simpl in Hj.
        -- by injection Hj as <-.
        -- apply (Hfirst j); [lia|done].
      * intros ppm Hin. apply elem_of_cons in Hin as [->|Hin]; [lia|auto].
Qed.

(** Ties on [AddedAt] go to the configuration that comes first in the list:
    the configuration [getPaymentMethod] returns sits at an index before
    which every configuration was added strictly earlier, and after which
    none was added later. *)
Theorem getPaymentMethod_first_of_latest (order : OrderScalar A)
    (pms : gmap string (list ProjectPaymentModes)) (opm : option ProjectPaymentModes) :
  getPaymentMethod order pms = Ok opm ->
  exists name cpms i ppm,
    OsPaymentMethod order = Some name
    /\ pms !! name = Some cpms
    /\ opm = Some ppm
    /\ cpms !! i = Some ppm
    /\ (forall j other, (j < i)%nat -> cpms !! j = Some other ->
                        AddedAt other < AddedAt ppm)
    /\ (forall other, other ∈ cpms -> AddedAt other <= AddedAt ppm).
Proof.
  unfold getPaymentMethod.
  destruct (OsPaymentMethod order) as [name|]; [|done]. simpl.
  destruct (pms !! name) as [cpms|] eqn:Hcpms; [|done].
  destruct (length cpms <=? 0)%nat eqn:Hlen; [done|].
  intros [= <-].
  destruct (fold_laterAdded cpms None) as (ppm & Hfold & _).
  { left. intros ->. done. }
  destruct (fold_laterAdded_first cpms None ppm Hfold)
    as [[Hacc _]|(i & Hi & _ & Hfirst & Hmax)]; [done|].
  exists name, cpms, i, ppm. by rewrite Hfold.
Qed.

(** A payment method [checkPaymentMethod] lets through is the one stored
    under the id of the chosen configuration, it is active, and so is its
    payment system. *)
Theorem checkPaymentMethod_sound (c : check A) (pm : PaymentMethod A) :
  checkPaymentMethod om c = Ok pm ->
  exists opm ps,
    getPaymentMethod (c_order c) (PPaymentMethods (c_project c)) = Ok (Some opm)
    /\ PmFindById om (PpmId opm) = Some pm
    /\ PmIsActive pm = true
    /\ PmPaymentSystem pm = Some ps
    /\ PsIsActive ps = true.
Proof.
  unfold checkPaymentMethod.
  destruct (getPaymentMethod (c_order c) (PPaymentMethods (c_project c)))
    as [[opm|]|e|]; simpl; [|done..].
  destruct (PmFindById om (PpmId opm)) as [pm'|] eqn:Hfind; [|done].
  destruct (PmIsActive pm') eqn:Hact; simpl; [|done].
  destruct (PmPaymentSystem pm') as [ps|] eqn:Hps; [|done].
  destruct (PsIsActive ps) eqn:Hpsact; simpl; [|done].
  intros [= <-]. by exists opm, ps.
Qed.

(** What the package loop returns is what it started with or a matching
    package of the list, with its index (counted from [i]). *)
Lemma fixedPackageLoop_sound (order : OrderScalar A) (fps : list (FixedPackage A))
    (i : nat) (acc found : option (FixedPackage A * nat)) :
  fixedPackageLoop order fps i acc = Ok found ->
  found = acc
  \/ exists fp k cur,
       found = Some (fp, (i + k)%nat)
       /\ fps !! k = Some fp
       /\ OsCurrency order = Some cur
       /\ packageMatches order cur fp.
Proof.
  revert i acc. induction fps as [|x fps IH]; intros i acc; simpl.
  - intros [= <-]. by left.
  - unfold aneqb. destruct (aeqb (FpPrice x) (Amount_ order)) eqn:Hprice; simpl.
    + destruct (OsCurrency order) as [cur|] eqn:Hcur; [|done]. simpl.
      destruct (String.eqb_spec (CodeA3 (FpCurrency x)) cur) as [Hc|Hc]; simpl.
      * intros Hrest. destruct (IH _ _ Hrest) as [->|(fp & k & cur' & -> & Hk & Hcur' & Hm)].
        -- right. exists x, 0%nat, cur. rewrite Nat.add_0_r. by split_and!.
        -- right. exists fp, (S k), cur'. split_and!; try done.
           by rewrite Nat.add_succ_r.
      * intros Hrest. destruct (IH _ _ Hrest) as [->|(fp & k & cur' & -> & Hk & Hcur' & Hm)].
        -- by left.
        -- right. exists fp, (S k), cur'. split_and!; try done.
           by rewrite Nat.add_succ_r.
    + intros Hrest. destruct (IH _ _ Hrest) as [->|(fp & k & cur' & -> & Hk & Hcur' & Hm)].
      * by left.
      * right. exists fp, (S k), cur'. split_and!; try done.
           by rewrite Nat.add_succ_r.
Qed.

(** The fixed package recorded for an order is a package of the project:
    it sits, at the recorded index, in the list of the recorded region, its
    price and currency code are those of the request, and the region is the
    one of the request or, without one, the country of the GeoIP record. *)
Theorem getOrderFixedPackage_sound (c : check A) (g : geoip2.City)
    (ofp : OrderFixedPackage A) :
  getOrderFixedPackage om c = Ok (g, ofp) ->
  exists fps fp cur,
    geoDbReader_City om (CreateOrderIp (c_order c)) = Some g
    /\ OfpRegion ofp = payerRegion (c_order c) g
    /\ PFixedPackage (c_project c) !! OfpRegion ofp = Some fps
    /\ fps !! OfpId ofp = Some fp
    /\ OsCurrency (c_order c) = Some cur
    /\ packageMatches (c_order c) cur fp
    /\ OfpName ofp = FpName fp
    /\ OfpCurrencyInt ofp = FpCurrencyInt fp
    /\ OfpPrice ofp = FpPrice fp.
Proof.
  unfold getOrderFixedPackage.
  destruct (geoDbReader_City om (CreateOrderIp (c_order c))) as [g'|]; [|done].
  destruct (PFixedPackage (c_project c) !! payerRegion (c_order c) g')
    as [fps|] eqn:Hfps; [|done].
  destruct (length fps <=? 0)%nat; [done|].
  destruct (fixedPackageLoop (c_order c) fps 0 None) as [found|e|] eqn:Hloop; [|done..].
  simpl. destruct found as [[fp k]|]; [|done]. intros [= <- <-]. simpl.
  destruct (fixedPackageLoop_sound _ _ _ _ _ Hloop)
    as [Hnone|(fp' & k' & cur & [= <- <-] & Hk & Hcur & Hm)]; [done|].
  by exists fps, fp, cur.
Qed.

End SelectionProperties.

(** ** The order [Process] creates *)

Section CreatedOrder.
Context {A : Type} `{Amount A} {Store : Type}.
Variable om : OrderManager A Store.

Lemma checkSignature_Ok (c : check A) :
  checkSignature om c = Ok tt ->
  exists s,
    Signature (c_order c) = Some s
    /\ requestSignature om (RawRequestParams (c_order c)) (SecretKey (c_project c))
         (map_to_list (RawRequestParams (c_order c))).*1 = s.
Proof.
  unfold checkSignature. destruct (Signature (c_order c)) as [s|]; [|done]. simpl.
  destruct (String.eqb_spec
              (requestSignature om (RawRequestParams (c_order c))
                 (SecretKey (c_project c)) (map_to_list (RawRequestParams (c_order c))).*1)
              s) as [Heq|Hne]; simpl; [|done].
  intros _. by exists s.
Qed.

Lemma checkProjectLimits_Ok (c : check A) :
  checkProjectLimits om c = Ok tt ->
  exists amount,
    limitAmount om c (LimitsCurrency (c_project c)) = Ok amount
    /\ altb amount (MinPaymentAmount (c_project c)) = false
    /\ agtb amount (MaxPaymentAmount (c_project c)) = false.
Proof.
  unfold checkProjectLimits.
  destruct (limitAmount om c (LimitsCurrency (c_project c)))
    as [amount|e|] eqn:Hamount; [|done..].
  simpl. destruct (altb amount (MinPaymentAmount (c_project c))) eqn:Hmin; [done|].
  destruct (agtb amount (MaxPaymentAmount (c_project c))) eqn:Hmax; [done|].
  intros _. by exists amount.
Qed.

(** The amount [checkPaymentMethodLimits] hands on is the amount of the
    order in the currency of the payment method, and it is neither below
    the minimum nor above the maximum of the method. *)
Theorem checkPaymentMethodLimits_Ok (c : check A) (pmOut : pmOutcomeData A) :
  checkPaymentMethodLimits om c = Ok pmOut ->
  exists pm,
    c_paymentMethod c = Some pm
    /\ limitAmount om c (PmCurrency pm) = Ok (pmo_amount pmOut)
    /\ pmo_currency pmOut = PmCurrency pm
    /\ altb (pmo_amount pmOut) (PmMinPaymentAmount pm) = false
    /\ agtb (pmo_amount pmOut) (PmMaxPaymentAmount pm) = false.
Proof.
  unfold checkPaymentMethodLimits.
  destruct (c_paymentMethod c) as [pm|]; [|done]. simpl.
  destruct (limitAmount om c (PmCurrency pm)) as [amount|e|] eqn:Hamount; [|done..].
  simpl.
  destruct (altb amount (PmMinPaymentAmount pm)) eqn:Hmin; [done|].
  destruct (agtb amount (PmMaxPaymentAmount pm)) eqn:Hmax; [done|].
  intros [= <-]. by exists pm.
Qed.

Lemma checkDynamicUrls_Ok (order : OrderScalar A) (p : Project A) :
  checkDynamicUrls order p = Ok tt ->
  ((is_Some (UrlVerify order) \/ is_Some (UrlNotify order)) ->
     IsAllowDynamicNotifyUrls p = true)
  /\ ((is_Some (UrlSuccess order) \/ is_Some (UrlFail order)) ->
        IsAllowDynamicRedirectUrls p = true).
Proof.
  unfold checkDynamicUrls. intros Hok. split.
  - intros Hsome. destruct (IsAllowDynamicNotifyUrls p); [done|]. exfalso.
    assert (Hset : bool_decide (is_Some (UrlVerify order))
                   || bool_decide (is_Some (UrlNotify order)) = true).
    { apply orb_true_iff. destruct Hsome; [left|right]; by apply bool_decide_eq_true_2. }
    by rewrite Hset in Hok.
  - intros Hsome.
    destruct ((bool_decide (is_Some (UrlVerify order))
               || bool_decide (is_Some (UrlNotify order)))
              && negb (IsAllowDynamicNotifyUrls p)); [done|].
    destruct (IsAllowDynamicRedirectUrls p); [done|]. exfalso.
    assert (Hset : bool_decide (is_Some (UrlSuccess order))
                   || bool_decide (is_Some (UrlFail order)) = true).
    { apply orb_true_iff. destruct Hsome; [left|right]; by apply bool_decide_eq_true_2. }
    by rewrite Hset in Hok.
Qed.

(** The amounts of an order with a payment method, read off a successful run. *)
Lemma paymentMethodAmounts_Ok (order : OrderScalar A) (p : Project A)
    (c : check A) (pm : option (PaymentMethod A)) (gRecord : option geoip2.City)
    (pmOutcome : option (pmOutcomeData A)) (commissions : option (CommissionOrder A))
    (vatAmount : A) :
  is_Some (OsPaymentMethod order) ->
  paymentMethodAmounts om order p c pm gRecord = Ok (pmOutcome, commissions, vatAmount) ->
  exists base pmv pmOut,
    checkPaymentMethodLimits om c = Ok base
    /\ pm = Some pmv
    /\ CalculateCommission om (PId p) (PmId pmv) (pmo_amount base) = (commissions, None)
    /\ pmOutcome = Some pmOut
    /\ pmo_currency pmOut = pmo_currency base
    /\ (IsVatEnabled (PMerchant p) = false -> vatAmount = a0)
    /\ (IsVatEnabled (PMerchant p) = true ->
        exists g sub,
          gRecord = Some g /\ head (geoip2.Subdivisions g) = Some sub
          /\ CalculateVat om (geoip2.IsoCode (geoip2.CityCountry g))
               (geoip2.SubIsoCode sub) (pmo_amount base) = (vatAmount, None))
    /\ exists withCommission,
         (IsCommissionToUserEnabled (PMerchant p) = false ->
            withCommission = pmo_amount base)
         /\ (IsCommissionToUserEnabled (PMerchant p) = true ->
             exists cm, commissions = Some cm
                        /\ withCommission = aadd (pmo_amount base) (ToUserCommission cm))
         /\ pmo_amount pmOut
            = if IsVatEnabled (PMerchant p) then aadd withCommission vatAmount
              else withCommission.
Proof.
  intros [name Hname]. unfold paymentMethodAmounts. rewrite Hname.
  destruct (checkPaymentMethodLimits om c) as [base|e|]; [|done..]. simpl.
  destruct pm as [pmv|]; [|done]. simpl.
  destruct (CalculateCommission om (PId p) (PmId pmv) (pmo_amount base))
    as [cms [e|]] eqn:Hcall; [done|]. simpl.
  destruct (IsCommissionToUserEnabled (PMerchant p)) eqn:Huser.
  - destruct cms as [cm|]; [|done]. simpl.
    destruct (IsVatEnabled (PMerchant p)) eqn:Hvat.
    + destruct gRecord as [g|]; [|done]. simpl.
      destruct (head (geoip2.Subdivisions g)) as [sub|] eqn:Hsub; [|done]. simpl.
      destruct (CalculateVat om _ _ _) as [vat [e|]] eqn:Hv; [done|]. simpl.
      intros [= <- <- <-]. eexists base, pmv, _. split_and!; try done.
      * by exists g, sub.
      * exists (aadd (pmo_amount base) (ToUserCommission cm)). split_and!; try done.
        intros _. by exists cm.
    + simpl. intros [= <- <- <-]. eexists base, pmv, _. split_and!; try done.
      exists (aadd (pmo_amount base) (ToUserCommission cm)). split_and!; try done.
      intros _. by exists cm.
  - simpl. destruct (IsVatEnabled (PMerchant p)) eqn:Hvat.
    + destruct gRecord as [g|]; [|done]. simpl.
      destruct (head (geoip2.Subdivisions g)) as [sub|] eqn:Hsub; [|done]. simpl.
      destruct (CalculateVat om _ _ _) as [vat [e|]] eqn:Hv; [done|]. simpl.
      intros [= <- <- <-]. eexists base, pmv, _. split_and!; try done.
      * by exists g, sub.
      * exists (pmo_amount base). by split_and!.
    + simpl. intros [= <- <- <-]. eexists base, pmv, _. split_and!; try done.
      exists (pmo_amount base). by split_and!.
Qed.

(** The amount sent to the payment method: the amount of the order in the
    currency of the method, plus the commission passed to the payer when the
    merchant passes it on, plus the VAT when the merchant charges it.  The
    commission and the VAT are both computed on the amount of the order, not
    on each other. *)
Theorem paymentMethodAmounts_total (order : OrderScalar A) (p : Project A)
    (c : check A) (pm : option (PaymentMethod A)) (gRecord : option geoip2.City)
    (pmOutcome : option (pmOutcomeData A)) (commissions : option (CommissionOrder A))
    (vatAmount : A) :
  is_Some (OsPaymentMethod order) ->
  paymentMethodAmounts om order p c pm gRecord = Ok (pmOutcome, commissions, vatAmount) ->
  exists base pmv pmOut,
    checkPaymentMethodLimits om c = Ok base
    /\ pm = Some pmv
    /\ CalculateCommission om (PId p) (PmId pmv) (pmo_amount base) = (commissions, None)
    /\ pmOutcome = Some pmOut
    /\ pmo_currency pmOut = pmo_currency base
    /\ (IsVatEnabled (PMerchant p) = false -> vatAmount = a0)
    /\ (IsVatEnabled (PMerchant p) = true ->
        exists g sub,
          gRecord = Some g /\ head (geoip2.Subdivisions g) = Some sub
          /\ CalculateVat om (geoip2.IsoCode (geoip2.CityCountry g))
               (geoip2.SubIsoCode sub) (pmo_amount base) = (vatAmount, None))
    /\ exists withCommission,
         (IsCommissionToUserEnabled (PMerchant p) = false ->
            withCommission = pmo_amount base)
         /\ (IsCommissionToUserEnabled (PMerchant p) = true ->
             exists cm, commissions = Some cm
                        /\ withCommission = aadd (pmo_amount base) (ToUserCommission cm))
         /\ pmo_amount pmOut
            = if IsVatEnabled (PMerchant p) then aadd withCommission vatAmount
              else withCommission.
Proof.
  exact (paymentMethodAmounts_Ok order p c pm gRecord pmOutcome commissions vatAmount).
Qed.

(** The commission block touches the fee fields only. *)
Lemma orderCommissions_keeps (p : Project A) (pmv : PaymentMethod A)
    (commissions : option (CommissionOrder A)) (n o : Order A) :
  orderCommissions om p pmv commissions n = Ok o ->
  Id o = Id n /\ OProject o = OProject n /\ Description o = Description n
  /\ ProjectOrderId o = ProjectOrderId n
  /\ ProjectIncomeAmount o = ProjectIncomeAmount n
  /\ ProjectIncomeCurrency o = ProjectIncomeCurrency n
  /\ ProjectOutcomeAmount o = ProjectOutcomeAmount n
  /\ ProjectOutcomeCurrency o = ProjectOutcomeCurrency n
  /\ OPayerData o = OPayerData n /\ OPaymentMethod o = OPaymentMethod n
  /\ PaymentMethodOutcomeAmount o = PaymentMethodOutcomeAmount n
  /\ PaymentMethodOutcomeCurrency o = PaymentMethodOutcomeCurrency n
  /\ Status o = Status n /\ CreatedAt o = CreatedAt n
  /\ OFixedPackage o = OFixedPackage n
  /\ AmountInMerchantAccountingCurrency o = AmountInMerchantAccountingCurrency n
  /\ VatAmount o = VatAmount n.
Proof.
  unfold orderCommissions. destruct commissions as [cm|]; [|by intros [= <-]].
  destruct (checked (convert om _ _ (PMCommission cm))) as [psp|e|]; [|done..]. simpl.
  destruct (IsCommissionToUserEnabled (PMerchant p)); simpl;
    (destruct (checked (convert om _ _ _)) as [prj|e|]; [|done..]); simpl;
    by intros [= <-].
Qed.

(** The order a successful [Process] returns, field by field. *)
Lemma Process_Ok_order (order : OrderScalar A) (st st' : Store) (o : Order A) :
  Process om order st = (Ok o, st') ->
  exists p code oc,
    FindProjectById om (ProjectId order) = Some p
    /\ OsCurrency order = Some code
    /\ FindByCodeA3 om code = Some oc
    /\ Status o = OrderStatusNew
    /\ Id o = NewObjectId om
    /\ CreatedAt o = Now om
    /\ OProject o = {| PoId := PId p; PoName := PName p; PoMerchant := PMerchant p |}
    /\ ProjectOrderId o = OrderId order
    /\ Description o = default (orderDefaultDescription (NewObjectId om))
                         (OsDescription order)
    /\ ProjectIncomeAmount o = FormatAmount om (Amount_ order)
    /\ ProjectIncomeCurrency o = Some oc
    /\ ProjectOutcomeCurrency o = CallbackCurrency p
    /\ ProjectOutcomeAmount o
       = FormatAmount om
           (convert om (CodeInt oc) (CodeInt (CallbackCurrency p)) (Amount_ order)).1
    /\ AmountInMerchantAccountingCurrency o
       = FormatAmount om
           (convert om (CodeInt oc) (CodeInt (MerchantCurrency (PMerchant p)))
              (Amount_ order)).1
    /\ InsertOrder om st o = (None, st').
Proof.
  intros HP.
  destruct (Process_Ok_inv om order st st' o HP)
    as (p & oc & pm & g & sub & ofp & pmOutcome & commissions & vatAmount
        & Hp & _ & Hcur & _ & _ & _ & Hpm & Hins).
  unfold orderCurrency in Hcur.
  destruct (OsCurrency order) as [code|] eqn:Hcode; [|done].
  destruct (FindByCodeA3 om code) as [oc'|] eqn:Hfind; [|done].
  injection Hcur as ->.
  exists p, code, oc. split; [done|]. split; [done|]. split; [done|].
  assert (Hfields : forall n : Order A,
            orderPaymentMethod om order p pm pmOutcome commissions n = Ok o ->
            Status o = Status n /\ Id o = Id n /\ CreatedAt o = CreatedAt n
            /\ OProject o = OProject n /\ ProjectOrderId o = ProjectOrderId n
            /\ Description o = Description n
            /\ ProjectIncomeAmount o = ProjectIncomeAmount n
            /\ ProjectIncomeCurrency o = ProjectIncomeCurrency n
            /\ ProjectOutcomeCurrency o = ProjectOutcomeCurrency n
            /\ ProjectOutcomeAmount o = ProjectOutcomeAmount n
            /\ AmountInMerchantAccountingCurrency o
               = AmountInMerchantAccountingCurrency n).
  { intros n. unfold orderPaymentMethod.
    destruct (OsPaymentMethod order); [|by intros [= <-]].
    destruct pm as [pmv|]; [|done]. simpl.
    destruct pmOutcome as [pmOut|]; [|done]. simpl.
    intros Hcm. apply orderCommissions_keeps in Hcm. simpl in Hcm.
    destruct Hcm as (? & ? & ? & ? & ? & ? & ? & ? & ? & ? & ? & ? & ? & ? & ? & ? & ?).
    by split_and!. }
  destruct (Hfields _ Hpm) as (-> & -> & -> & -> & -> & -> & -> & -> & -> & -> & ->).
  unfold orderDescription. by destruct (OsDescription order).
Qed.

(** An order [Process] returns is new, carries the fresh id and the time of
    the clock, belongs to the project of the request, and records as income
    of the project the formatted amount of the request in the currency of
    the request: commission and VAT do not enter it.  The outcome and the
    merchant accounting amounts are the conversions of the same amount. *)
Theorem Process_created_order (order : OrderScalar A) (st st' : Store) (o : Order A) :
  Process om order st = (Ok o, st') ->
  exists p code oc,
    FindProjectById om (ProjectId order) = Some p
    /\ OsCurrency order = Some code
    /\ FindByCodeA3 om code = Some oc
    /\ Status o = OrderStatusNew
    /\ Id o = NewObjectId om
    /\ CreatedAt o = Now om
    /\ OProject o = {| PoId := PId p; PoName := PName p; PoMerchant := PMerchant p |}
    /\ ProjectOrderId o = OrderId order
    /\ Description o = default (orderDefaultDescription (NewObjectId om))
                         (OsDescription order)
    /\ ProjectIncomeAmount o = FormatAmount om (Amount_ order)
    /\ ProjectIncomeCurrency o = Some oc
    /\ ProjectOutcomeCurrency o = CallbackCurrency p
    /\ ProjectOutcomeAmount o
       = FormatAmount om
           (convert om (CodeInt oc) (CodeInt (CallbackCurrency p)) (Amount_ order)).1
    /\ AmountInMerchantAccountingCurrency o
       = FormatAmount om
           (convert om (CodeInt oc) (CodeInt (MerchantCurrency (PMerchant p)))
              (Amount_ order)).1
    /\ InsertOrder om st o = (None, st').
Proof.
  exact (Process_Ok_order order st st' o).
Qed.

(** A request without a currency never becomes an order: the currency is a
    pointer of the request, but order assembly reads the currency it
    resolved to. *)
Theorem Process_needs_currency (order : OrderScalar A) (st : Store) :
  OsCurrency order = None ->
  exists r, Process om order st = (r, st) /\ forall o, r <> Ok o.
Proof.
  intros Hnone. unfold Process, mbind, M_bind, lift, orderCurrency. rewrite Hnone.
  destruct (FindProjectById om (ProjectId order)) as [p|]; [|by eexists].
  destruct (PIsActive p); simpl; [|by eexists].
  destruct (match Signature order with
            | Some _ => checkSignature om (newCheck order p None None)
            | None => Ok tt
            end) as [[]|e|]; [|by eexists..].
  destruct (match OsPaymentMethod order with
            | Some _ => _
            | None => Ok None
            end) as [pm|e|]; [|by eexists..].
  destruct (orderFixedPackage om p (newCheck order p None pm))
    as [[gRecord ofp]|e|]; [|by eexists..].
  destruct (checkProjectLimits om (newCheck order p None pm)) as [[]|e|];
    [|by eexists..].
  destruct (paymentMethodAmounts om order p (newCheck order p None pm) pm gRecord)
    as [[[pmOutcome commissions] vatAmount]|e|]; [|by eexists..].
  destruct (match OrderId order with
            | Some _ => checkProjectOrderIdUnique om order
            | None => mret tt
            end st) as [u st1] eqn:Hunique.
  assert (st1 = st) as ->.
  { destruct (OrderId order); [by eapply checkProjectOrderIdUnique_store|].
    by injection Hunique. }
  destruct u as [[]|e|]; [|by eexists..].
  destruct (checkDynamicUrls order p) as [[]|e|]; by eexists.
Qed.

End CreatedOrder.

Section ProcessSoundness.
Context {A : Type} `{Amount A} {Store : Type}.
Variable om : OrderManager A Store.

(** No order is created past a failed check: behind every order [Process]
    returns there is an active project; a signature, when supplied, that
    equals the computed one; an amount within the limits of the project
    (in their currency); no earlier order with the same project order id;
    and dynamic URLs only where the project allows them. *)
Theorem Process_passed_checks (order : OrderScalar A) (st st' : Store) (o : Order A) :
  Process om order st = (Ok o, st') ->
  exists p oc,
    FindProjectById om (ProjectId order) = Some p
    /\ PIsActive p = true
    /\ (forall s, Signature order = Some s ->
          requestSignature om (RawRequestParams order) (SecretKey p)
            (map_to_list (RawRequestParams order)).*1 = s)
    /\ (exists amount,
          limitAmount om (newCheck order p (Some oc) None) (LimitsCurrency p) = Ok amount
          /\ altb amount (MinPaymentAmount p) = false
          /\ agtb amount (MaxPaymentAmount p) = false)
    /\ (forall oid, OrderId order = Some oid ->
                    FindOrderByProjectOrderId om st oid = None)
    /\ ((is_Some (UrlVerify order) \/ is_Some (UrlNotify order)) ->
        IsAllowDynamicNotifyUrls p = true)
    /\ ((is_Some (UrlSuccess order) \/ is_Some (UrlFail order)) ->
        IsAllowDynamicRedirectUrls p = true).
Proof.
  intros HP.
  destruct (Process_Ok_checks om order st st' o HP)
    as (p & oc & pm & g & sub & ofp & pmOutcome & commissions & vatAmount
        & Hp & Hact & Hcur & Hsig & Hpm & Hofp & Hlimits & Hamounts & Hunique
        & Hurls & _).
  exists p, oc. split; [done|]. split; [done|].
  apply checkDynamicUrls_Ok in Hurls as [Hnotify Hredirect].
  apply checkProjectLimits_Ok in Hlimits as (amount & Hamount & Hmin & Hmax).
  split_and!; try done.
  - intros s Hs. destruct (checkSignature_Ok om _ (Hsig (ex_intro _ s Hs)))
      as (s' & Hs' & Hreq). simpl in Hs', Hreq. congruence.
  - by exists amount.
Qed.

(** The payment method of a created order: without one in the request the
    order has none, no amount sent to a method and no fee besides the
    formatted zero VAT; with one, the order carries the active method that
    [checkPaymentMethod] resolved, its currency, and as amount sent to the
    method the formatted total of [paymentMethodAmounts], which lies within
    the limits of the method before commission and VAT are added. *)
Theorem Process_payment_method_of_order (order : OrderScalar A) (st st' : Store)
    (o : Order A) :
  Process om order st = (Ok o, st') ->
  (OsPaymentMethod order = None ->
     OPaymentMethod o = None
     /\ PaymentMethodOutcomeCurrency o = None
     /\ PaymentMethodOutcomeAmount o = a0
     /\ ProjectFeeAmount o = a0 /\ PaymentMethodFeeAmount o = a0
     /\ PspFeeAmount o = a0 /\ ToPayerFeeAmount o = a0
     /\ VatAmount o = FormatAmount om a0)
  /\ (is_Some (OsPaymentMethod order) ->
      exists p oc pmv base pmOut,
        FindProjectById om (ProjectId order) = Some p
        /\ checkPaymentMethod om (newCheck order p (Some oc) None) = Ok pmv
        /\ checkPaymentMethodLimits om (newCheck order p (Some oc) (Some pmv)) = Ok base
        /\ OPaymentMethod o
           = Some {| OpmId := PmId pmv; OpmName := PmName pmv;
                     OpmParams := PmParams pmv;
                     OpmPaymentSystem := PmPaymentSystem pmv;
                     OpmGroupAlias := PmGroupAlias pmv |}
        /\ PaymentMethodOutcomeCurrency o = Some (PmCurrency pmv)
        /\ PaymentMethodOutcomeAmount o = FormatAmount om (pmo_amount pmOut)
        /\ exists gRecord commissions vatAmount,
             paymentMethodAmounts om order p (newCheck order p (Some oc) (Some pmv))
               (Some pmv) gRecord = Ok (Some pmOut, commissions, vatAmount)
             /\ VatAmount o = FormatAmount om vatAmount).
Proof.
  intros HP.
  destruct (Process_Ok_checks om order st st' o HP)
    as (p & oc & pm & g & sub & ofp & pmOutcome & commissions & vatAmount
        & Hp & Hact & Hcur & Hsig & Hpm & Hofp & Hlimits & Hamounts & Hunique
        & Hurls & Hsub & Hopm & Hins).
  split.
  - intros Hnone. rewrite Hnone in Hpm. subst pm.
    unfold paymentMethodAmounts in Hamounts. rewrite Hnone in Hamounts.
    injection Hamounts as <- <- <-.
    unfold orderPaymentMethod in Hopm. rewrite Hnone in Hopm. injection Hopm as <-.
    unfold orderDescription. by destruct (OsDescription order).
  - intros [name Hname]. rewrite Hname in Hpm. destruct Hpm as (pmv & -> & Hcheck).
    destruct (paymentMethodAmounts_Ok om order p _ _ _ _ _ _
                (ex_intro _ name Hname) Hamounts)
      as (base & pmv' & pmOut & Hbase & [= <-] & _ & -> & Hcurrency & _).
    apply checkPaymentMethodLimits_Ok in Hbase as Hrange.
    destruct Hrange as (pm' & [= <-] & _ & Hcur' & _).
    unfold orderPaymentMethod in Hopm. rewrite Hname in Hopm. simpl in Hopm.
    apply orderCommissions_keeps in Hopm. simpl in Hopm.
    destruct Hopm as (_ & _ & _ & _ & _ & _ & _ & _ & _ & Hm & Hout & Hoc & _ & _ & _ & _ & Hvat).
    exists p, oc, pmv, base, pmOut. split_and!; try done.
    + by rewrite Hoc, Hcurrency, Hcur'.
    + exists (Some g), commissions, vatAmount. split; [done|].
      rewrite Hvat. unfold orderDescription. by destruct (OsDescription order).
Qed.

(** The project order id is unique by a lookup made before the insert.  On a
    table that finds what was inserted, a second request with the id of a
    created order creates nothing and leaves the table as the first request
    left it. *)
Theorem Process_twice_same_order_id (first second : OrderScalar A)
    (st st1 : Store) (o : Order A) (oid : string) :
  (forall s nOrder s', InsertOrder om s nOrder = (None, s') ->
     ProjectOrderId nOrder = Some oid ->
     is_Some (FindOrderByProjectOrderId om s' oid)) ->
  OrderId first = Some oid ->
  OrderId second = Some oid ->
  Process om first st = (Ok o, st1) ->
  exists r, Process om second st1 = (r, st1) /\ forall o', r <> Ok o'.
Proof.
  intros Hstore Hfirst Hsecond HP.
  destruct (Process_Ok_order om first st st1 o HP)
    as (p & code & oc & _ & _ & _ & _ & _ & _ & _ & Hid & _ & _ & _ & _ & _ & _ & Hins).
  rewrite Hfirst in Hid.
  destruct (Hstore st o st1 Hins Hid) as [existing Hfound].
  unfold Process, mbind, M_bind, lift.
  destruct (FindProjectById om (ProjectId second)) as [p2|]; [|by eexists].
  destruct (PIsActive p2); simpl; [|by eexists].
  destruct (orderCurrency om second) as [oCurrency|e|]; [|by eexists..].
  destruct (match Signature second with
            | Some _ => checkSignature om (newCheck second p2 oCurrency None)
            | None => Ok tt
            end) as [[]|e|]; [|by eexists..].
  destruct (match OsPaymentMethod second with
            | Some _ => _
            | None => Ok None
            end) as [pm|e|]; [|by eexists..].
  destruct (orderFixedPackage om p2 (newCheck second p2 oCurrency pm))
    as [[gRecord ofp]|e|]; [|by eexists..].
  destruct (checkProjectLimits om (newCheck second p2 oCurrency pm)) as [[]|e|];
    [|by eexists..].
  destruct (paymentMethodAmounts om second p2 (newCheck second p2 oCurrency pm) pm gRecord)
    as [[[pmOutcome commissions] vatAmount]|e|]; [|by eexists..].
  rewrite Hsecond. unfold checkProjectOrderIdUnique. rewrite Hsecond, Hfound.
  by eexists.
Qed.

End ProcessSoundness.

(** ** Amounts and writes of a payment notification *)

Section NotifyAmounts.
Context {A : Type} `{Amount A} {Store : Type}.
Variable om : OrderManager A Store.

(** What a successful [processNotifyPaymentAmounts] wrote and what it kept. *)
Lemma processNotifyPaymentAmounts_inv (o o' : Order A) :
  processNotifyPaymentAmounts om o = Ok o' ->
  exists income psp opm ps,
    FindByCodeA3 om (PaymentMethodIncomeCurrencyA3 o) = Some income
    /\ pspAccountingCurrency om = Some psp
    /\ OPaymentMethod o = Some opm
    /\ OpmPaymentSystem opm = Some ps
    /\ PaymentMethodIncomeCurrency o' = Some income
    /\ convert om (CodeInt income) (CodeInt (ProjectOutcomeCurrency o))
         (PaymentMethodIncomeAmount o) = (ProjectOutcomeAmount o', None)
    /\ convert om (CodeInt income) (CodeInt psp) (PaymentMethodIncomeAmount o)
       = (AmountInPSPAccountingCurrency o', None)
    /\ convert om (CodeInt income) (CodeInt (MerchantCurrency (PoMerchant (OProject o))))
         (PaymentMethodIncomeAmount o) = (AmountOutMerchantAccountingCurrency o', None)
    /\ convert om (CodeInt income) (CodeInt (AccountingCurrency ps))
         (PaymentMethodIncomeAmount o) = (AmountInPaymentSystemAccountingCurrency o', None)
    /\ Id o' = Id o /\ Status o' = Status o /\ OProject o' = OProject o
    /\ OPaymentMethod o' = OPaymentMethod o
    /\ ProjectIncomeAmount o' = ProjectIncomeAmount o
    /\ PaymentMethodIncomeAmount o' = PaymentMethodIncomeAmount o
    /\ PaymentMethodOutcomeAmount o' = PaymentMethodOutcomeAmount o
    /\ ProjectFeeAmount o' = ProjectFeeAmount o
    /\ PaymentMethodFeeAmount o' = PaymentMethodFeeAmount o
    /\ PspFeeAmount o' = PspFeeAmount o
    /\ ToPayerFeeAmount o' = ToPayerFeeAmount o
    /\ VatAmount o' = VatAmount o.
Proof.
  unfold processNotifyPaymentAmounts. simpl.
  destruct (FindByCodeA3 om (PaymentMethodIncomeCurrencyA3 o)) as [income|] eqn:Hincome;
    [|done].
  destruct (convert om (CodeInt income) (CodeInt (ProjectOutcomeCurrency o))
              (PaymentMethodIncomeAmount o)) as [a1 [e|]] eqn:H1; [done|]. simpl.
  destruct (pspAccountingCurrency om) as [psp|] eqn:Hpsp; [|done].
  destruct (convert om (CodeInt income) (CodeInt psp) (PaymentMethodIncomeAmount o))
    as [a2 [e|]] eqn:H2; [done|]. simpl.
  destruct (convert om (CodeInt income)
              (CodeInt (MerchantCurrency (PoMerchant (OProject o))))
              (PaymentMethodIncomeAmount o)) as [a3 [e|]] eqn:H3; [done|]. simpl.
  destruct (OPaymentMethod o) as [opm|] eqn:Hopm; [|done]. simpl.
  destruct (OpmPaymentSystem opm) as [ps|] eqn:Hps; [|done]. simpl.
  destruct (convert om (CodeInt income) (CodeInt (AccountingCurrency ps))
              (PaymentMethodIncomeAmount o)) as [a4 [e|]] eqn:H4; [done|]. simpl.
  intros [= <-]. exists income, psp, opm, ps. simpl. by split_and!.
Qed.

(** The recomputation of a notified order: the reported income currency is
    resolved and recorded, and the amount reported by the payment system is
    converted from it into the outcome currency of the project, the PSP
    accounting currency, the currency of the merchant and the accounting
    currency of the payment system.  The four amounts are stored as the
    rate manager returned them; identity, status, income and fees of the
    order stay as they were. *)
Theorem processNotifyPaymentAmounts_Ok (o o' : Order A) :
  processNotifyPaymentAmounts om o = Ok o' ->
  exists income psp opm ps,
    FindByCodeA3 om (PaymentMethodIncomeCurrencyA3 o) = Some income
    /\ pspAccountingCurrency om = Some psp
    /\ OPaymentMethod o = Some opm
    /\ OpmPaymentSystem opm = Some ps
    /\ PaymentMethodIncomeCurrency o' = Some income
    /\ convert om (CodeInt income) (CodeInt (ProjectOutcomeCurrency o))
         (PaymentMethodIncomeAmount o) = (ProjectOutcomeAmount o', None)
    /\ convert om (CodeInt income) (CodeInt psp) (PaymentMethodIncomeAmount o)
       = (AmountInPSPAccountingCurrency o', None)
    /\ convert om (CodeInt income) (CodeInt (MerchantCurrency (PoMerchant (OProject o))))
         (PaymentMethodIncomeAmount o) = (AmountOutMerchantAccountingCurrency o', None)
    /\ convert om (CodeInt income) (CodeInt (AccountingCurrency ps))
         (PaymentMethodIncomeAmount o) = (AmountInPaymentSystemAccountingCurrency o', None)
    /\ Id o' = Id o /\ Status o' = Status o /\ OProject o' = OProject o
    /\ OPaymentMethod o' = OPaymentMethod o
    /\ ProjectIncomeAmount o' = ProjectIncomeAmount o
    /\ PaymentMethodIncomeAmount o' = PaymentMethodIncomeAmount o
    /\ PaymentMethodOutcomeAmount o' = PaymentMethodOutcomeAmount o
    /\ ProjectFeeAmount o' = ProjectFeeAmount o
    /\ PaymentMethodFeeAmount o' = PaymentMethodFeeAmount o
    /\ PspFeeAmount o' = PspFeeAmount o
    /\ ToPayerFeeAmount o' = ToPayerFeeAmount o
    /\ VatAmount o' = VatAmount o.
Proof.
  exact (processNotifyPaymentAmounts_inv o o').
Qed.

(** The runs of [ProcessNotifyPayment]: none but the update writes. *)
Lemma ProcessNotifyPayment_inv (opn : OrderPaymentNotification)
    (psSettings : gmap string string) (st st' : Store)
    (r : Outcome (Order A * option error)) :
  ProcessNotifyPayment om opn psSettings st = (r, st') ->
  (st' = st /\ forall res, r <> Ok res)
  \/ exists o o1 o2 handler hErr dbErr,
       FindOrderById om st (OpnId opn) = Some o
       /\ Status o = OrderStatusPaymentSystemCreate
       /\ GetPaymentHandler om o psSettings = inl handler
       /\ ProcessPayment handler o opn = (o1, hErr)
       /\ processNotifyPaymentAmounts om (set_Status (notifiedStatus hErr) o1) = Ok o2
       /\ UpdateOrder om st (set_UpdatedAt (Now om) o2) = (dbErr, st')
       /\ r = match dbErr with
              | Some e => Err e
              | None => Ok (set_UpdatedAt (Now om) o2, hErr)
              end.
Proof.
  unfold ProcessNotifyPayment, FindById, ObjectIdHex, mbind, M_bind, lift.
  destruct (IsObjectIdHex (OpnId opn)); simpl; [|intros [= <- <-]; by left].
  destruct (FindOrderById om st (OpnId opn)) as [o|] eqn:Hfound;
    [|intros [= <- <-]; by left].
  destruct (Status o) eqn:Hstatus; try (intros [= <- <-]; by left).
  destruct (GetPaymentHandler om o psSettings) as [handler|e] eqn:Hhandler;
    [|intros [= <- <-]; by left].
  destruct (ProcessPayment handler o opn) as [o1 hErr] eqn:Hprocess.
  destruct (processNotifyPaymentAmounts om (set_Status (notifiedStatus hErr) o1))
    as [o2|e|] eqn:Hamounts; [|intros [= <- <-]; by left..].
  unfold updateOrder.
  destruct (UpdateOrder om st (set_UpdatedAt (Now om) o2)) as [dbErr st2] eqn:Hupdate.
  intros Hr. right. exists o, o1, o2, handler, hErr, dbErr.
  split_and!; try done; destruct dbErr; by injection Hr as <- <-.
Qed.

(** A notification writes to the table at most once, through [UpdateOrder],
    and only with an order that went through the recomputation; every
    other outcome leaves the table as it was. *)
Theorem ProcessNotifyPayment_store_discipline (opn : OrderPaymentNotification)
    (psSettings : gmap string string) (st st' : Store)
    (r : Outcome (Order A * option error)) :
  ProcessNotifyPayment om opn psSettings st = (r, st') ->
  (st' = st /\ forall res, r <> Ok res)
  \/ exists o o1 o2 handler hErr dbErr,
       FindOrderById om st (OpnId opn) = Some o
       /\ Status o = OrderStatusPaymentSystemCreate
       /\ GetPaymentHandler om o psSettings = inl handler
       /\ ProcessPayment handler o opn = (o1, hErr)
       /\ processNotifyPaymentAmounts om (set_Status (notifiedStatus hErr) o1) = Ok o2
       /\ UpdateOrder om st (set_UpdatedAt (Now om) o2) = (dbErr, st')
       /\ r = match dbErr with
              | Some e => Err e
              | None => Ok (set_UpdatedAt (Now om) o2, hErr)
              end.
Proof.
  exact (ProcessNotifyPayment_inv opn psSettings st st' r).
Qed.

(** An order is notified once.  On a table that returns the order it was
    asked for and finds what was updated, with handlers that keep the id of
    the order, a notification that went through leaves the order rejected
    or complete, and any further notification for the same order id,
    whatever else it carries and whatever the settings, fails with the
    status in the error and writes nothing. *)
Theorem ProcessNotifyPayment_once (opn opn' : OrderPaymentNotification)
    (psSettings psSettings' : gmap string string) (st st' : Store)
    (o : Order A) (hErr : option error) :
  (forall s id found, FindOrderById om s id = Some found -> Id found = id) ->
  (forall s updated s', UpdateOrder om s updated = (None, s') ->
     FindOrderById om s' (Id updated) = Some updated) ->
  (forall stored settings handler,
     GetPaymentHandler om stored settings = inl handler ->
     Id (ProcessPayment handler stored opn).1 = Id stored) ->
  OpnId opn' = OpnId opn ->
  ProcessNotifyPayment om opn psSettings st = (Ok (o, hErr), st') ->
  (Status o = OrderStatusPaymentSystemReject
   \/ Status o = OrderStatusPaymentSystemComplete)
  /\ ProcessNotifyPayment om opn' psSettings' st'
     = (Err (orderErrorOrderAlreadyHasEndedStatus (Status o)), st').
Proof.
  intros Hfind Hupdate Hhandler Hsame Hrun.
  destruct (ProcessNotifyPayment_inv _ _ _ _ _ Hrun)
    as [[_ Hno]|(o0 & o1 & o2 & handler & hErr' & dbErr & Hfound & Hstatus & Hh
                 & Hprocess & Hamounts & Hup & Hr)]; [by destruct (Hno (o, hErr))|].
  destruct dbErr as [e|]; [done|]. injection Hr as -> ->.
  assert (Hhex : IsObjectIdHex (OpnId opn) = true).
  { revert Hrun. unfold ProcessNotifyPayment, FindById, ObjectIdHex, mbind, M_bind, lift.
    by destruct (IsObjectIdHex (OpnId opn)). }
  assert (Hst : Status (set_UpdatedAt (Now om) o2) = notifiedStatus hErr').
  { simpl. by rewrite (processNotifyPaymentAmounts_Status om _ _ Hamounts). }
  assert (Hid : Id (set_UpdatedAt (Now om) o2) = OpnId opn).
  { simpl. apply processNotifyPaymentAmounts_inv in Hamounts
      as (? & ? & ? & ? & _ & _ & _ & _ & _ & _ & _ & _ & _ & -> & _).
    simpl. specialize (Hhandler o0 psSettings handler Hh). rewrite Hprocess in Hhandler.
    simpl in Hhandler. rewrite Hhandler. by apply (Hfind st). }
  split.
  - rewrite Hst. destruct hErr'; [by left|by right].
  - apply Hupdate in Hup. rewrite Hid in Hup.
    unfold ProcessNotifyPayment, FindById, ObjectIdHex, mbind, M_bind, lift.
    simpl in Hst. rewrite Hsame, Hhex. simpl. rewrite Hup. simpl. rewrite Hst.
    by destruct hErr'.
Qed.

End NotifyAmounts.

(** ** The payment method chosen on the form *)

Section FormSubmit.
Context {A : Type} `{Amount A} {Store : Type}.
Variable om : OrderManager A Store.

(** The order after another payment method was chosen on the form. *)
Lemma modifyOrderAfterOrderFormSubmit_inv (o o' : Order A) (pm : PaymentMethod A) :
  samePaymentMethod o pm = false ->
  modifyOrderAfterOrderFormSubmit om o pm = Ok o' ->
  exists p base cm,
    FindProjectById om (PoId (OProject o)) = Some p
    /\ checkPaymentMethodLimits om
         {| c_order := amountOnly (ProjectIncomeAmount o); c_project := p;
            c_oCurrency := ProjectIncomeCurrency o; c_paymentMethod := Some pm |}
       = Ok base
    /\ (CalculateCommission om (PoId (OProject o)) (PmId pm) (pmo_amount base)).1
       = Some cm
    /\ OPaymentMethod o'
       = Some {| OpmId := PmId pm; OpmName := PmName pm; OpmParams := PmParams pm;
                 OpmPaymentSystem := PmPaymentSystem pm;
                 OpmGroupAlias := PmGroupAlias pm |}
    /\ PaymentMethodOutcomeCurrency o' = Some (pmo_currency base)
    /\ PaymentMethodFeeAmount o' = FormatAmount om (PMCommission cm)
    /\ (let toPayer := IsCommissionToUserEnabled (PoMerchant (OProject o)) in
        let vatOn := IsVatEnabled (PoMerchant (OProject o)) in
        let vat := (CalculateVat om (CountryCodeA2 (OPayerData o))
                      (Subdivision (OPayerData o)) (pmo_amount base)).1 in
        let withCommission :=
          if toPayer then aadd (pmo_amount base) (ToUserCommission cm)
          else pmo_amount base in
        PaymentMethodOutcomeAmount o'
        = FormatAmount om (if vatOn then aadd withCommission vat else withCommission)
        /\ VatAmount o' = (if vatOn then FormatAmount om vat else VatAmount o)
        /\ ToPayerFeeAmount o'
           = (if toPayer then FormatAmount om (ToUserCommission cm)
              else ToPayerFeeAmount o))
    /\ Id o' = Id o /\ Status o' = Status o /\ OProject o' = OProject o
    /\ ProjectIncomeAmount o' = ProjectIncomeAmount o
    /\ ProjectIncomeCurrency o' = ProjectIncomeCurrency o
    /\ OPayerData o' = OPayerData o.
Proof.
  intros Hother. unfold modifyOrderAfterOrderFormSubmit. rewrite Hother.
  destruct (FindProjectById om (PoId (OProject o))) as [p|] eqn:Hp; [|done].
  destruct (checkPaymentMethodLimits om _) as [base|e|] eqn:Hbase; [|done..]. simpl.
  destruct (CalculateCommission om (PoId (OProject o)) (PmId pm) (pmo_amount base))
    as [[cm|] err] eqn:Hcall; [|done]. simpl.
  destruct (checked (convert om _ _ (PMCommission cm))) as [psp|e|]; [|done..]. simpl.
  destruct (IsCommissionToUserEnabled (PoMerchant (OProject o))) eqn:Huser; simpl;
    (destruct (checked (convert om _ _ _)) as [prj|e|]; [|done..]); simpl;
    destruct (IsVatEnabled (PoMerchant (OProject o))) eqn:Hvat; simpl.
  - destruct (CalculateVat om _ _ _) as [vat [e|]] eqn:Hv; [done|]. simpl.
    intros [= <-]. exists p, base, cm. simpl. rewrite Hcall, Hv. by split_and!.
  - intros [= <-]. exists p, base, cm. simpl. rewrite Hcall. by split_and!.
  - destruct (CalculateVat om _ _ _) as [vat [e|]] eqn:Hv; [done|]. simpl.
    intros [= <-]. exists p, base, cm. simpl. rewrite Hcall, Hv. by split_and!.
  - intros [= <-]. exists p, base, cm. simpl. rewrite Hcall. by split_and!.
Qed.

(** Choosing a payment method other than the one of the order: the order
    gets that method and its currency; the amount sent to the method is the
    formatted income of the order in the currency of the method, plus the
    commission passed to the payer and the VAT where the merchant of the
    order has them on, both computed on the amount before they are added.
    With VAT or the commission to the payer off, the VAT or payer fee the
    order already had stays.  Identity, status and income do not change. *)
Theorem modifyOrderAfterOrderFormSubmit_Ok (o o' : Order A) (pm : PaymentMethod A) :
  samePaymentMethod o pm = false ->
  modifyOrderAfterOrderFormSubmit om o pm = Ok o' ->
  exists p base cm,
    FindProjectById om (PoId (OProject o)) = Some p
    /\ checkPaymentMethodLimits om
         {| c_order := amountOnly (ProjectIncomeAmount o); c_project := p;
            c_oCurrency := ProjectIncomeCurrency o; c_paymentMethod := Some pm |}
       = Ok base
    /\ (CalculateCommission om (PoId (OProject o)) (PmId pm) (pmo_amount base)).1
       = Some cm
    /\ OPaymentMethod o'
       = Some {| OpmId := PmId pm; OpmName := PmName pm; OpmParams := PmParams pm;
                 OpmPaymentSystem := PmPaymentSystem pm;
                 OpmGroupAlias := PmGroupAlias pm |}
    /\ PaymentMethodOutcomeCurrency o' = Some (pmo_currency base)
    /\ PaymentMethodFeeAmount o' = FormatAmount om (PMCommission cm)
    /\ (let toPayer := IsCommissionToUserEnabled (PoMerchant (OProject o)) in
        let vatOn := IsVatEnabled (PoMerchant (OProject o)) in
        let vat := (CalculateVat om (CountryCodeA2 (OPayerData o))
                      (Subdivision (OPayerData o)) (pmo_amount base)).1 in
        let withCommission :=
          if toPayer then aadd (pmo_amount base) (ToUserCommission cm)
          else pmo_amount base in
        PaymentMethodOutcomeAmount o'
        = FormatAmount om (if vatOn then aadd withCommission vat else withCommission)
        /\ VatAmount o' = (if vatOn then FormatAmount om vat else VatAmount o)
        /\ ToPayerFeeAmount o'
           = (if toPayer then FormatAmount om (ToUserCommission cm)
              else ToPayerFeeAmount o))
    /\ Id o' = Id o /\ Status o' = Status o /\ OProject o' = OProject o
    /\ ProjectIncomeAmount o' = ProjectIncomeAmount o
    /\ ProjectIncomeCurrency o' = ProjectIncomeCurrency o
    /\ OPayerData o' = OPayerData o.
Proof.
  exact (modifyOrderAfterOrderFormSubmit_inv o o' pm).
Qed.

(** Submitting the form again with the method the order now has changes
    nothing: the second call returns the order of the first. *)
Theorem modifyOrderAfterOrderFormSubmit_twice (o o' : Order A) (pm : PaymentMethod A) :
  modifyOrderAfterOrderFormSubmit om o pm = Ok o' ->
  modifyOrderAfterOrderFormSubmit om o' pm = Ok o'.
Proof.
  intros Hfirst.
  destruct (samePaymentMethod o pm) eqn:Hsame.
  - unfold modifyOrderAfterOrderFormSubmit in Hfirst. rewrite Hsame in Hfirst.
    injection Hfirst as <-. unfold modifyOrderAfterOrderFormSubmit. by rewrite Hsame.
  - destruct (modifyOrderAfterOrderFormSubmit_inv o o' pm Hsame Hfirst)
      as (p & base & cm & _ & _ & _ & Hmethod & _).
    unfold modifyOrderAfterOrderFormSubmit, samePaymentMethod. rewrite Hmethod. simpl.
    by rewrite String.eqb_refl.
Qed.

(** The error of the commission manager is never looked at: when it returns
    no commission, for whatever reason, the form submit panics instead of
    failing with that error. *)
Theorem modifyOrderAfterOrderFormSubmit_nil_commission (o : Order A)
    (pm : PaymentMethod A) (p : Project A) (base : pmOutcomeData A) :
  samePaymentMethod o pm = false ->
  FindProjectById om (PoId (OProject o)) = Some p ->
  checkPaymentMethodLimits om
    {| c_order := amountOnly (ProjectIncomeAmount o); c_project := p;
       c_oCurrency := ProjectIncomeCurrency o; c_paymentMethod := Some pm |}
  = Ok base ->
  (CalculateCommission om (PoId (OProject o)) (PmId pm) (pmo_amount base)).1 = None ->
  modifyOrderAfterOrderFormSubmit om o pm = Panic.
Proof.
  intros Hother Hp Hbase Hnil. unfold modifyOrderAfterOrderFormSubmit.
  rewrite Hother, Hp, Hbase. simpl. by rewrite Hnil.
Qed.

End FormSubmit.

(** ** Filters of a listing *)

Section FilterProperties.
Variable model : OrderFilterFields.

Lemma statusCodes_omap (ss : list string) : statusCodes ss = omap Atoi ss.
Proof.
  unfold statusCodes.
  enough (Hgen : forall acc,
            fold_left (fun ssi s => match Atoi s with
                                    | Some si => ssi ++ [si]
                                    | None => ssi
                                    end) ss acc = acc ++ omap Atoi ss)
    by apply (Hgen []).
  induction ss as [|s ss IH]; intros acc; simpl.
  - by rewrite app_nil_r.
  - rewrite IH. destruct (Atoi s); [|done]. by rewrite <- app_assoc.
Qed.

(** The six keys [ProcessFilters] writes. *)
Lemma ProcessFilters_steps (values : gmap string (list string))
    (filter f : gmap string FilterValue) :
  ProcessFilters model values filter = Ok f ->
  exists f1 f2 f3 f4 f5 pmDates prjDates,
    (f1 = filter \/ exists v, f1 = <["_id" := v]> filter)
    /\ (f2 = f1 \/ exists v, f2 = <["payment_method.id" := v]> f1)
    /\ (f3 = f2 \/ exists v, f3 = <["payer_data.country_code_a2" := v]> f2)
    /\ f4 = match values !! OrderFilterFieldStatuses model with
            | Some ss =>
                if (0 <? length (statusCodes ss))%nat
                then <["status" := FvInInts (statusCodes ss)]> f3 else f3
            | None => f3
            end
    /\ (f5 = f4 \/ exists v, f5 = <["$or" := v]> f4)
    /\ f = setDates "pm_order_close_date" prjDates
             (setDates "pm_order_close_date" pmDates f5).
Proof.
  unfold ProcessFilters. intros Hrun.
  destruct (match values !! OrderFilterFieldId model with
            | Some id => _
            | None => Ok filter
            end) as [f1| |] eqn:H1; [|done..].
  assert (Hf1 : f1 = filter \/ exists v, f1 = <["_id" := v]> filter).
  { destruct (values !! OrderFilterFieldId model) as [id|];
      [|injection H1 as ->; by left].
    destruct (head id) as [first|]; [|done]. simpl in H1.
    destruct (ObjectIdHex first) as [oid| |]; [|done..]. simpl in H1.
    injection H1 as <-. right. by eexists. }
  simpl in Hrun.
  destruct (match values !! OrderFilterFieldPaymentMethods model with
            | Some pms => _
            | None => Ok f1
            end) as [f2| |] eqn:H2; [|done..].
  assert (Hf2 : f2 = f1 \/ exists v, f2 = <["payment_method.id" := v]> f1).
  { destruct (values !! OrderFilterFieldPaymentMethods model) as [pms|];
      [|injection H2 as ->; by left].
    destruct (objectIdsHex pms []) as [fPms| |]; [|done..]. simpl in H2.
    injection H2 as <-. right. by eexists. }
  simpl in Hrun.
  set (f3 := match values !! OrderFilterFieldCountries model with
             | Some cs => <["payer_data.country_code_a2" := FvInStrings cs]> f2
             | None => f2
             end) in Hrun.
  assert (Hf3 : f3 = f2 \/ exists v, f3 = <["payer_data.country_code_a2" := v]> f2).
  { unfold f3. destruct (values !! OrderFilterFieldCountries model); [|by left].
    right. by eexists. }
  set (f4 := match values !! OrderFilterFieldStatuses model with
             | Some ss => _
             | None => f3
             end) in Hrun.
  destruct (match values !! OrderFilterFieldAccount model with
            | Some a => _
            | None => Ok f4
            end) as [f5| |] eqn:H5; [|done..].
  assert (Hf5 : f5 = f4 \/ exists v, f5 = <["$or" := v]> f4).
  { destruct (values !! OrderFilterFieldAccount model) as [a|];
      [|injection H5 as ->; by left].
    destruct (head a) as [first|]; [|done]. simpl in H5.
    injection H5 as <-. right. by eexists. }
  simpl in Hrun.
  destruct (dateBound values (OrderFilterFieldPMDateFrom model) "$gte" ∅)
    as [d1| |]; [|done..]. simpl in Hrun.
  destruct (dateBound values (OrderFilterFieldPMDateTo model) "$lte" d1)
    as [pmDates| |]; [|done..]. simpl in Hrun.
  destruct (dateBound values (OrderFilterFieldProjectDateFrom model) "$gte" ∅)
    as [d2| |]; [|done..]. simpl in Hrun.
  destruct (dateBound values (OrderFilterFieldProjectDateTo model) "$lte" d2)
    as [prjDates| |]; [|done..]. simpl in Hrun.
  injection Hrun as <-.
  by exists f1, f2, f3, f4, f5, pmDates, prjDates.
Qed.

(** [ProcessFilters] writes six keys and no other. *)
Lemma ProcessFilters_other_keys (values : gmap string (list string))
    (filter f : gmap string FilterValue) (k : string) :
  ProcessFilters model values filter = Ok f ->
  k ∉ ["_id"; "payment_method.id"; "payer_data.country_code_a2"; "status"; "$or";
       "pm_order_close_date"] ->
  f !! k = filter !! k.
Proof.
  intros Hrun Hk.
  destruct (ProcessFilters_steps values filter f Hrun)
    as (f1 & f2 & f3 & f4 & f5 & pmDates & prjDates & H1 & H2 & H3 & H4 & H5 & ->).
  assert (Hne : forall key : string,
            key ∈ ["_id"; "payment_method.id"; "payer_data.country_code_a2"; "status";
                   "$or"; "pm_order_close_date"] -> key <> k).
  { intros key Hin ->. by apply Hk. }
  assert (Hdates : forall d g, setDates "pm_order_close_date" d g !! k = g !! k).
  { intros d g. unfold setDates. destruct (0 <? size d)%nat; [|done].
    apply lookup_insert_ne, Hne. repeat constructor. }
  rewrite !Hdates.
  assert (E5 : f5 !! k = f4 !! k).
  { destruct H5 as [->|[v ->]]; [done|]. apply lookup_insert_ne, Hne. repeat constructor. }
  assert (E4 : f4 !! k = f3 !! k).
  { subst f4. destruct (values !! OrderFilterFieldStatuses model) as [ss|]; [|done].
    destruct (0 <? length (statusCodes ss))%nat; [|done].
    apply lookup_insert_ne, Hne. repeat constructor. }
  assert (E3 : f3 !! k = f2 !! k).
  { destruct H3 as [->|[v ->]]; [done|]. apply lookup_insert_ne, Hne. repeat constructor. }
  assert (E2 : f2 !! k = f1 !! k).
  { destruct H2 as [->|[v ->]]; [done|]. apply lookup_insert_ne, Hne. repeat constructor. }
  assert (E1 : f1 !! k = filter !! k).
  { destruct H1 as [->|[v ->]]; [done|]. apply lookup_insert_ne, Hne. repeat constructor. }
  congruence.
Qed.

(** [ProcessFilters] adds to the filter it is given: whatever the caller put
    under a key other than the six it writes is still there afterwards, in
    particular the restriction to the projects of the caller. *)
Theorem ProcessFilters_keeps_other_keys (values : gmap string (list string))
    (filter f : gmap string FilterValue) (k : string) :
  ProcessFilters model values filter = Ok f ->
  k ∉ ["_id"; "payment_method.id"; "payer_data.country_code_a2"; "status"; "$or";
       "pm_order_close_date"] ->
  f !! k = filter !! k.
Proof.
  exact (ProcessFilters_other_keys values filter f k).
Qed.

(** Status codes that do not parse as integers are skipped without a word;
    when none of the supplied codes parses, no status filter is set at all
    and the listing is not restricted by status. *)
Theorem ProcessFilters_statuses (values : gmap string (list string))
    (filter f : gmap string FilterValue) (ss : list string) :
  values !! OrderFilterFieldStatuses model = Some ss ->
  ProcessFilters model values filter = Ok f ->
  f !! "status"
  = match omap Atoi ss with
    | [] => filter !! "status"
    | codes => Some (FvInInts codes)
    end.
Proof.
  intros Hss Hrun.
  destruct (ProcessFilters_steps values filter f Hrun)
    as (f1 & f2 & f3 & f4 & f5 & pmDates & prjDates & H1 & H2 & H3 & H4 & H5 & ->).
  assert (Hdates : forall d g, setDates "pm_order_close_date" d g !! "status"
                               = g !! "status").
  { intros d g. unfold setDates. destruct (0 <? size d)%nat; [|done].
    by apply lookup_insert_ne. }
  rewrite !Hdates.
  assert (E5 : f5 !! "status" = f4 !! "status").
  { destruct H5 as [->|[v ->]]; [done|]. by apply lookup_insert_ne. }
  assert (E3 : f3 !! "status" = filter !! "status").
  { transitivity (f2 !! "status").
    { destruct H3 as [->|[v ->]]; [done|]. by apply lookup_insert_ne. }
    transitivity (f1 !! "status").
    { destruct H2 as [->|[v ->]]; [done|]. by apply lookup_insert_ne. }
    destruct H1 as [->|[v ->]]; [done|]. by apply lookup_insert_ne. }
  rewrite E5, H4, Hss, statusCodes_omap.
  destruct (omap Atoi ss) as [|code codes]; simpl; [done|].
  apply lookup_insert_eq.
Qed.

(** An order id filter that is no object id (twenty-four hexadecimal
    digits), or that has no value, is not answered with an error: building
    the filter panics. *)
Theorem ProcessFilters_bad_id_panics (values : gmap string (list string))
    (filter : gmap string FilterValue) (id : list string) :
  values !! OrderFilterFieldId model = Some id ->
  (forall first, head id = Some first -> IsObjectIdHex first = false) ->
  ProcessFilters model values filter = Panic.
Proof.
  intros Hid Hbad. unfold ProcessFilters. rewrite Hid.
  destruct (head id) as [first|] eqn:Hhead; [|done]. simpl.
  unfold ObjectIdHex. by rewrite (Hbad first eq_refl).
Qed.

End FilterProperties.

(** ** Conditions of [FindAll] *)

Section ListingProperties.
Context {A Item : Type}.
Variable model : OrderFilterFields.
Variable GetOrdersCountByConditions : option (gmap string FilterValue) -> Z * option error.
Variable FindAllOrders :
  option (gmap string FilterValue) -> Z -> Z -> list (Order A) * option error.
Variable transformOrders : list (Order A) -> FindAllParams -> Outcome (list Item).

Lemma projectIds_eq (params : FindAllParams) :
  projectIds params = (map_to_list (FaProjects params)).*1.
Proof.
  unfold projectIds.
  enough (Hgen : forall (l acc : list ObjectId),
            fold_left (fun pFilter k => pFilter ++ [k]) l acc = acc ++ l)
    by apply (Hgen _ []).
  induction l as [|k l IH]; intros acc; simpl.
  - by rewrite app_nil_r.
  - rewrite IH, <- app_assoc. done.
Qed.

(** The listing is restricted to the projects of the caller only when the
    request carries at least one filter value: then both queries receive a
    condition whose ["project.id"] is the set of the caller's project ids;
    without filter values both queries receive the [nil] condition, and the
    restriction built beforehand is not used. *)
Theorem FindAll_condition (params : FindAllParams) (res : OrderPaginate Item) :
  FindAll model GetOrdersCountByConditions FindAllOrders transformOrders params
  = Ok res ->
  exists f,
    findAllCondition model params = Ok f
    /\ PgCount res = (GetOrdersCountByConditions f).1
    /\ (FaValues params = ∅ -> f = None)
    /\ (FaValues params <> ∅ ->
        exists condition ids,
          f = Some condition
          /\ condition !! "project.id" = Some (FvInObjectIds ids)
          /\ NoDup ids
          /\ forall id, id ∈ ids <-> is_Some (FaProjects params !! id)).
Proof.
  unfold FindAll. intros Hrun.
  destruct (findAllCondition model params) as [f| |] eqn:Hf; [|done..].
  simpl in Hrun.
  destruct (if (0 <? length _)%nat then _ else _) as [ot| |]; [|done..].
  simpl in Hrun. injection Hrun as <-. exists f. simpl.
  split; [done|]. split; [done|].
  unfold findAllCondition in Hf. split.
  - intros Hempty. rewrite Hempty, map_size_empty in Hf. by injection Hf as <-.
  - intros Hvalues.
    assert (Hsize : (0 <? size (FaValues params))%nat = true).
    { apply Nat.ltb_lt. apply map_size_non_empty_iff in Hvalues. lia. }
    rewrite Hsize in Hf.
    destruct (ProcessFilters model (FaValues params) _) as [condition| |] eqn:Hrun;
      [|done..].
    simpl in Hf. injection Hf as <-.
    exists condition, (projectIds params). split; [done|]. split.
    + rewrite (ProcessFilters_other_keys model _ _ _ "project.id" Hrun).
      * apply lookup_insert_eq.
      * intros Hin. repeat (apply elem_of_cons in Hin as [Hin|Hin]; [done|]).
        by apply elem_of_nil in Hin.
    + rewrite projectIds_eq. split; [apply NoDup_fst_map_to_list|].
      intros id. rewrite list_elem_of_fmap. split.
      * intros [[id' v] [-> Hin]]. apply elem_of_map_to_list in Hin. by exists v.
      * intros [v Hv]. exists (id, v). split; [done|]. by apply elem_of_map_to_list.
Qed.

End ListingProperties.

(** ** What the signature does not tell apart *)

Section SignatureAmbiguity.
Context {A : Type} `{Amount A} {Store : Type}.
Variable om : OrderManager A Store.

Lemma string_app_assoc (s1 s2 s3 : string) : (s1 +:+ s2) +:+ s3 = s1 +:+ s2 +:+ s3.
Proof.
  induction s1 as [|ch s1 IH]; [done|].
  change (String ch ((s1 +:+ s2) +:+ s3) = String ch (s1 +:+ s2 +:+ s3)).
  by rewrite IH.
Qed.

Lemma requestSignature_signedText (params : gmap string string) (secret : string)
    (iter : list string) :
  requestSignature om params secret iter
  = sha256 om (signedText params secret (sortStrings iter)).
Proof.
  unfold requestSignature, signedText.
  by rewrite collectKeys_eq, signatureElements_eq.
Qed.

Lemma sortStrings_sorted (keys sorted : list string) :
  keys ≡ₚ sorted -> StronglySorted String.le sorted -> sortStrings keys = sorted.
Proof.
  intros Hperm Hsorted. unfold sortStrings.
  apply (StronglySorted_unique String.le); [|done|].
  - apply StronglySorted_merge_sort; apply _.
  - by rewrite merge_sort_Permutation.
Qed.

(** The text that is hashed joins [key=value] strings with "|" and nothing
    keeps a value from containing "|" or "=": a request with the two
    parameters [k1 = v1] and [k2 = v2] (keys in this order) and a request
    with the single parameter [k1 = v1|k2=v2] have the same signature under
    every secret, so [checkSignature] gives both the same answer. *)
Theorem checkSignature_ambiguous (c1 c2 : check A) (k1 k2 v1 v2 : string) :
  String.le k1 k2 -> k1 <> k2 ->
  RawRequestParams (c_order c1) = {[ k1 := v1; k2 := v2 ]} ->
  RawRequestParams (c_order c2) = {[ k1 := v1 +:+ "|" +:+ k2 +:+ "=" +:+ v2 ]} ->
  SecretKey (c_project c1) = SecretKey (c_project c2) ->
  Signature (c_order c1) = Signature (c_order c2) ->
  checkSignature om c1 = checkSignature om c2.
Proof.
  intros Hle Hne Hp1 Hp2 Hsecret Hsig.
  unfold checkSignature. rewrite !requestSignature_signedText, Hp1, Hp2, Hsecret, Hsig.
  assert (Hkeys2 : sortStrings (map_to_list
            ({[ k1 := v1 +:+ "|" +:+ k2 +:+ "=" +:+ v2 ]} : gmap string string)).*1
            = [k1]).
  { by rewrite map_to_list_singleton. }
  assert (Hkeys1 : sortStrings (map_to_list
            ({[ k1 := v1; k2 := v2 ]} : gmap string string)).*1 = [k1; k2]).
  { apply sortStrings_sorted.
    - rewrite map_to_list_insert by (by apply lookup_singleton_ne).
      by rewrite map_to_list_singleton.
    - repeat constructor; done. }
  rewrite Hkeys1, Hkeys2. unfold signedText. simpl.
  rewrite lookup_insert_eq, lookup_insert_ne, !lookup_singleton_eq by done. simpl.
  by rewrite !string_app_assoc.
Qed.

End SignatureAmbiguity.

(** ** Buckets of the revenue dynamics *)

Section RevenueEdges.
Context {A : Type} `{Amount A}.
Variable model : RevenueDynamicRequestPeriods.
Variable FormatAmount : A -> A.
Variable PointDateString : RevenueDynamicPointDate -> string.

Lemma refundPoints_missing_year (pRefund : list (FacetPoint A)) (acc : gmap string A) :
  (exists b, b ∈ pRefund /\ ~ hasYear model b) ->
  refundPoints model FormatAmount PointDateString pRefund acc = Panic.
Proof.
  revert acc. induction pRefund as [|x rest IH]; intros acc [b [Hin Hbad]].
  - by apply elem_of_nil in Hin.
  - simpl. unfold getRevenueDynamicPointsKey.
    destruct (FacetId x !! RevenueDynamicRequestPeriodYear model) as [year|] eqn:Hyear;
      [|done].
    simpl. apply IH. apply elem_of_cons in Hin as [->|Hin]; [|by exists b].
    destruct Hbad. by exists year.
Qed.

Lemma refundPoints_never_fails (pRefund : list (FacetPoint A)) (acc : gmap string A)
    (e : error) :
  refundPoints model FormatAmount PointDateString pRefund acc <> Err e.
Proof.
  revert acc. induction pRefund as [|x rest IH]; intros acc; [done|].
  simpl. unfold getRevenueDynamicPointsKey.
  destruct (FacetId x !! RevenueDynamicRequestPeriodYear model); [|done].
  simpl. apply IH.
Qed.

Lemma revenuePoints_missing_year (refPoints : gmap string A)
    (pRevenue : list (FacetPoint A)) (acc : list (RevenueDynamicPoint A)) :
  (exists b, b ∈ pRevenue /\ ~ hasYear model b) ->
  revenuePoints model FormatAmount PointDateString refPoints pRevenue acc = Panic.
Proof.
  revert acc. induction pRevenue as [|x rest IH]; intros acc [b [Hin Hbad]].
  - by apply elem_of_nil in Hin.
  - simpl. unfold revenuePoint, getRevenueDynamicPointsKey.
    destruct (FacetId x !! RevenueDynamicRequestPeriodYear model) as [year|] eqn:Hyear;
      [|done].
    simpl.
    assert (Hrest : revenuePoints model FormatAmount PointDateString refPoints rest
                      (acc ++ [{| Date := pointDate model (FacetId x);
                                  PointAmount :=
                                    match refPoints !! bucketKey model PointDateString x with
                                    | Some refVal => FormatAmount (asub (FacetTotal x) refVal)
                                    | None => FormatAmount (FacetTotal x)
                                    end |}]) = Panic).
    { apply IH. apply elem_of_cons in Hin as [->|Hin]; [|by exists b].
      destruct Hbad. by exists year. }
    unfold bucketKey, pointDate in Hrest. rewrite Hyear in Hrest. simpl in Hrest.
    by destruct (refPoints !! _).
Qed.

(** The year of a bucket is asserted, not tested: one refund or revenue
    bucket without a year makes the whole aggregation panic, whatever the
    other buckets and the summaries are. *)
Theorem GetRevenueDynamic_missing_year (res : list (RevenueDynamicFacet A))
    (facet : RevenueDynamicFacet A) (b : FacetPoint A) :
  head res = Some facet ->
  b ∈ FacetPointsRefund facet \/ b ∈ FacetPointsRevenue facet ->
  FacetId b !! RevenueDynamicRequestPeriodYear model = None ->
  GetRevenueDynamic model FormatAmount PointDateString res None = Panic.
Proof.
  intros Hres Hin Hnone.
  assert (Hbad : ~ hasYear model b).
  { unfold hasYear. rewrite Hnone. by intros [? ?]. }
  unfold GetRevenueDynamic. rewrite Hres. simpl.
  destruct (refundPoints model FormatAmount PointDateString
              (FacetPointsRefund facet) ∅) as [refPoints|e|] eqn:Hrefund; [| |done].
  - simpl. destruct Hin as [Hin|Hin].
    + rewrite refundPoints_missing_year in Hrefund; [done|by exists b].
    + rewrite revenuePoints_missing_year; [done|by exists b].
  - by destruct (refundPoints_never_fails _ _ _ Hrefund).
Qed.

(** A period field that is missing and one that is zero give the same
    period: adding a zero month, week, day or hour to the id of a bucket
    does not change its key. *)
Theorem getRevenueDynamicPointsKey_zero_field (pointId : gmap string Z)
    (field : string) :
  field <> RevenueDynamicRequestPeriodYear model ->
  pointId !! field = None ->
  getRevenueDynamicPointsKey model (<[field := 0]> pointId)
  = getRevenueDynamicPointsKey model pointId.
Proof.
  intros Hyear Hnone. unfold getRevenueDynamicPointsKey.
  rewrite (lookup_insert_ne pointId field (RevenueDynamicRequestPeriodYear model))
    by done.
  assert (Hsame : forall name, default 0 (<[field := 0]> pointId !! name)
                               = default 0 (pointId !! name)).
  { intros name. destruct (decide (field = name)) as [->|Hne].
    - by rewrite lookup_insert_eq, Hnone.
    - by rewrite lookup_insert_ne. }
  by rewrite !Hsame.
Qed.

End RevenueEdges.

(** ** Request binders *)

Section BinderProperties.
Variable names : RequestParameters.

(** The loop of [OrderFormBinder] over the entries of a form, each key met
    once: a key of the form gets its first value in the raw parameters, and
    in the additional ones unless it is reserved; other keys keep what the
    maps had. *)
Lemma orderFormParams_lookup (reserved : gset string)
    (params : list (string * list string))
    (addParams rawParams add raw : gmap string string) (key : string) :
  NoDup params.*1 ->
  orderFormParams reserved params addParams rawParams = Ok (add, raw) ->
  raw !! key = match (list_to_map params : gmap string (list string)) !! key with
               | Some value => head value
               | None => rawParams !! key
               end
  /\ add !! key = match (list_to_map params : gmap string (list string)) !! key with
                  | Some value =>
                      if decide (key ∈ reserved) then addParams !! key else head value
                  | None => addParams !! key
                  end.
Proof.
  revert addParams rawParams.
  induction params as [|[k value] rest IH]; intros addParams rawParams Hnodup Hrun.
  - simpl in Hrun. injection Hrun as <- <-. simpl. by rewrite lookup_empty.
  - simpl in Hnodup. apply NoDup_cons in Hnodup as [Hfresh Hnodup].
    simpl in Hrun. destruct value as [|first others]; [discriminate Hrun|].
    simpl in Hrun. destruct (IH _ _ Hnodup Hrun) as [Hraw Hadd]. clear IH Hrun.
    simpl. destruct (decide (k = key)) as [->|Hne].
    + rewrite lookup_insert_eq.
      rewrite (not_elem_of_list_to_map_1 rest key Hfresh) in Hraw, Hadd.
      rewrite lookup_insert_eq in Hraw. split; [exact Hraw|].
      rewrite Hadd. destruct (decide (key ∈ reserved)); [done|].
      by rewrite lookup_insert_eq.
    + rewrite (lookup_insert_ne _ k key) by done.
      rewrite (lookup_insert_ne rawParams k key) in Hraw by done.
      split; [exact Hraw|]. rewrite Hadd.
      destruct (decide (k ∈ reserved)); [done|].
      by rewrite (lookup_insert_ne addParams k key) by done.
Qed.

(** A form bound by [OrderFormBinder]: the raw parameters are the form with
    the first value of every parameter, the additional parameters are the raw
    ones without the reserved words, and what the default binding filled is
    kept. *)
Theorem OrderFormBinder_Bind_maps {T : Type} (OrderReservedWords : gset string)
    (o o' : OrderCreateRequest T) (bindErr : option error)
    (formParams : gmap string (list string) * option error) :
  OrderFormBinder_Bind OrderReservedWords o bindErr formParams = Ok o' ->
  bindErr = None /\ formParams.2 = None
  /\ OcrBound o' = OcrBound o
  /\ forall key,
       OcrRawParams o' !! key = formParams.1 !! key ≫= head
       /\ OcrOther o' !! key
          = if decide (key ∈ OrderReservedWords) then None
            else OcrRawParams o' !! key.
Proof.
  unfold OrderFormBinder_Bind. destruct bindErr as [e|]; [discriminate|].
  destruct formParams as [params [e|]]; [discriminate|]. simpl.
  destruct (orderFormParams OrderReservedWords (map_to_list params) ∅ ∅)
    as [[add raw]| |] eqn:Hloop; [|discriminate..].
  simpl. intros [= <-]. simpl. split_and!; try done. intros key.
  destruct (orderFormParams_lookup _ _ _ _ _ _ key (NoDup_fst_map_to_list params) Hloop)
    as [Hraw Hadd].
  rewrite list_to_map_to_list in Hraw, Hadd. rewrite Hraw, Hadd.
  rewrite !lookup_empty.
  destruct (params !! key) as [value|]; simpl;
    by destruct (decide (key ∈ OrderReservedWords)).
Qed.

(** A parameter of the form without a value makes [OrderFormBinder] read the
    first element of an empty slice. *)
Lemma orderFormParams_empty_value (reserved : gset string)
    (params : list (string * list string)) (addParams rawParams : gmap string string)
    (key : string) :
  (key, []) ∈ params ->
  orderFormParams reserved params addParams rawParams = Panic.
Proof.
  revert addParams rawParams.
  induction params as [|[k value] rest IH]; intros addParams rawParams Hin.
  - by apply elem_of_nil in Hin.
  - apply elem_of_cons in Hin as [[= <- <-]|Hin]; [reflexivity|].
    simpl. destruct value as [|first others]; [reflexivity|]. simpl. by apply IH.
Qed.

(** The merchant listing does not tell signed from unsigned: whenever the
    [is_signed] parameter is present and accepted, the filter is 2, for "0"
    and "false" as for "1" and "true"; two accepted requests over the same
    structure are bound alike whatever they asked for. *)
Theorem OnboardingMerchantListingBinder_is_signed_lost (LimitDefault : Z)
    (structure res1 res2 : MerchantListingRequest) (bindErr : option error)
    (params1 params2 : gmap string (list string)) :
  is_Some (params1 !! RequestParameterIsSigned names) ->
  is_Some (params2 !! RequestParameterIsSigned names) ->
  OnboardingMerchantListingBinder_Bind names LimitDefault structure bindErr params1
  = Ok res1 ->
  OnboardingMerchantListingBinder_Bind names LimitDefault structure bindErr params2
  = Ok res2 ->
  MlIsSigned res1 = 2 /\ res1 = res2.
Proof.
  unfold OnboardingMerchantListingBinder_Bind.
  intros [v1 ->] [v2 ->]. destruct bindErr as [e|]; [discriminate|].
  destruct v1 as [|first1 rest1]; [discriminate|].
  destruct v2 as [|first2 rest2]; [discriminate|]. simpl.
  destruct (String.eqb first1 "0" || String.eqb first1 "false");
    [|destruct (String.eqb first1 "1" || String.eqb first1 "true"); [|discriminate]];
    (destruct (String.eqb first2 "0" || String.eqb first2 "false");
     [|destruct (String.eqb first2 "1" || String.eqb first2 "true"); [|discriminate]]);
    by intros [= <-] [= <-].
Qed.

(** The limit of an accepted merchant listing is positive or the default of
    the binder. *)
Theorem OnboardingMerchantListingBinder_limit (LimitDefault : Z)
    (structure res : MerchantListingRequest) (bindErr : option error)
    (params : gmap string (list string)) :
  OnboardingMerchantListingBinder_Bind names LimitDefault structure bindErr params
  = Ok res ->
  MlLimit res = (if MlLimit structure <=? 0 then LimitDefault else MlLimit structure)
  /\ (params !! RequestParameterIsSigned names = None ->
      MlIsSigned res = MlIsSigned structure).
Proof.
  unfold OnboardingMerchantListingBinder_Bind.
  destruct bindErr as [e|]; [discriminate|].
  destruct (params !! RequestParameterIsSigned names) as [v|].
  - destruct v as [|first rest]; [discriminate|]. simpl.
    destruct (String.eqb first "0" || String.eqb first "false");
      [|destruct (String.eqb first "1" || String.eqb first "true"); [|discriminate]];
      intros [= <-]; simpl; by destruct (MlLimit structure <=? 0).
  - intros [= <-]. by destruct (MlLimit structure <=? 0).
Qed.

Lemma ParseInt32_range (s : string) (i : Z) :
  ParseInt32 s = Some i -> - 2 ^ 31 <= i <= 2 ^ 31 - 1.
Proof.
  unfold ParseInt32. destruct (ParseInt s) as [v|]; [|discriminate]. simpl.
  destruct ((- 2 ^ 31 <=? v) && (v <=? 2 ^ 31 - 1)) eqn:Hrange; [|discriminate].
  intros [= <-]. apply andb_true_iff in Hrange as [Hlo Hhi].
  apply Z.leb_le in Hlo. apply Z.leb_le in Hhi. lia.
Qed.

Lemma numberParam_Ok (numError : string -> error) (params : gmap string (list string))
    (name : string) (default i : Z) :
  - 2 ^ 31 <= default <= 2 ^ 31 - 1 ->
  numberParam numError params name default = Ok i ->
  - 2 ^ 31 <= i <= 2 ^ 31 - 1
  /\ (forall first rest,
        params !! name = Some (first :: rest) -> ParseInt32 first = Some i)
  /\ (params !! name = None -> i = default).
Proof.
  intros Hdefault. unfold numberParam.
  destruct (params !! name) as [v|]; [|by intros [= <-]].
  destruct v as [|first rest]; [discriminate|]. simpl.
  destruct (ParseInt32 first) as [j|] eqn:Hparse; [|discriminate].
  intros [= <-]. split; [by eapply ParseInt32_range|split; [|done]].
  by intros ? ? [= <- <-].
Qed.

Lemma textParam_Ok (params : gmap string (list string)) (name current text : string) :
  textParam params name current = Ok text ->
  match params !! name with
  | Some v => exists first,
      head v = Some first /\ text = if decide (first = "") then current else first
  | None => text = current
  end.
Proof.
  unfold textParam. destruct (params !! name) as [v|]; [|by intros [= <-]].
  destruct v as [|first rest]; [discriminate|]. simpl.
  destruct (String.eqb first "") eqn:Hempty; simpl; intros [= <-]; exists first.
  - apply String.eqb_eq in Hempty. by rewrite decide_True.
  - apply String.eqb_neq in Hempty. by rewrite decide_False.
Qed.

(** A bound products listing: limit and offset are 32-bit numbers when the
    defaults of the binder are, the one the request gave when it gave one,
    negative ones included; nothing replaces a limit below one. *)
Theorem ProductsGetProductsListBinder_numbers (numError : string -> error)
    (LimitDefault OffsetDefault : Z) (structure res : ListProductsRequest)
    (params : gmap string (list string)) :
  - 2 ^ 31 <= LimitDefault <= 2 ^ 31 - 1 ->
  - 2 ^ 31 <= OffsetDefault <= 2 ^ 31 - 1 ->
  ProductsGetProductsListBinder_Bind names numError LimitDefault OffsetDefault
    structure params = Ok res ->
  - 2 ^ 31 <= LpLimit res <= 2 ^ 31 - 1
  /\ - 2 ^ 31 <= LpOffset res <= 2 ^ 31 - 1
  /\ (forall first rest,
        params !! RequestParameterLimit names = Some (first :: rest) ->
        ParseInt32 first = Some (LpLimit res))
  /\ (params !! RequestParameterLimit names = None -> LpLimit res = LimitDefault)
  /\ (forall first rest,
        params !! RequestParameterOffset names = Some (first :: rest) ->
        ParseInt32 first = Some (LpOffset res))
  /\ (params !! RequestParameterOffset names = None -> LpOffset res = OffsetDefault).
Proof.
  intros HlimitDefault HoffsetDefault. unfold ProductsGetProductsListBinder_Bind.
  destruct (numberParam numError params (RequestParameterLimit names) LimitDefault)
    as [limit| |] eqn:Hlimit; [|discriminate..].
  destruct (numberParam numError params (RequestParameterOffset names) OffsetDefault)
    as [offset| |] eqn:Hoffset; [|discriminate..].
  simpl.
  destruct (textParam params (RequestParameterName names) (LpName structure))
    as [name| |]; [|discriminate..].
  destruct (textParam params (RequestParameterSku names) (LpSku structure))
    as [sku| |]; [|discriminate..].
  destruct (textParam params (RequestParameterProjectId names) (LpProjectId structure))
    as [projectId| |]; [|discriminate..].
  simpl. intros [= <-]. simpl.
  destruct (numberParam_Ok _ _ _ _ _ HlimitDefault Hlimit) as (? & ? & ?).
  destruct (numberParam_Ok _ _ _ _ _ HoffsetDefault Hoffset) as (? & ? & ?).
  repeat (split; [assumption|]). assumption.
Qed.

(** The text filters of a products listing: a parameter given with an empty
    first value does not erase what the structure holds, any other first
    value replaces it. *)
Theorem ProductsGetProductsListBinder_texts (numError : string -> error)
    (LimitDefault OffsetDefault : Z) (structure res : ListProductsRequest)
    (params : gmap string (list string)) :
  ProductsGetProductsListBinder_Bind names numError LimitDefault OffsetDefault
    structure params = Ok res ->
  let text name current :=
    match params !! name with
    | Some ("" :: _) | None => current
    | Some (first :: _) => first
    | Some [] => current
    end in
  LpName res = text (RequestParameterName names) (LpName structure)
  /\ LpSku res = text (RequestParameterSku names) (LpSku structure)
  /\ LpProjectId res = text (RequestParameterProjectId names) (LpProjectId structure).
Proof.
  unfold ProductsGetProductsListBinder_Bind.
  destruct (numberParam numError params (RequestParameterLimit names) LimitDefault)
    as [limit| |]; [|discriminate..].
  destruct (numberParam numError params (RequestParameterOffset names) OffsetDefault)
    as [offset| |]; [|discriminate..].
  simpl.
  destruct (textParam params (RequestParameterName names) (LpName structure))
    as [name| |] eqn:Hname; [|discriminate..].
  destruct (textParam params (RequestParameterSku names) (LpSku structure))
    as [sku| |] eqn:Hsku; [|discriminate..].
  destruct (textParam params (RequestParameterProjectId names) (LpProjectId structure))
    as [projectId| |] eqn:Hproject; [|discriminate..].
  simpl. intros [= <-]. simpl.
  assert (Htext : forall name current text,
             textParam params name current = Ok text ->
             text = match params !! name with
                    | Some ("" :: _) | None => current
                    | Some (first :: _) => first
                    | Some [] => current
                    end).
  { intros n current text Hrun. apply textParam_Ok in Hrun.
    destruct (params !! n) as [v|]; [|done].
    destruct Hrun as (first & Hhead & ->). destruct v as [|f rest]; [done|].
    injection Hhead as ->. destruct (decide (first = "")) as [->|Hne]; [done|].
    destruct first; [done|]. reflexivity. }
  split_and!; by apply Htext.
Qed.

(** [OnboardingChangePaymentMethodBinder] accepts a request exactly when the
    default binding succeeded, both path parameters are ObjectId strings
    and the payment method of the body carries the id of the path; it then
    only sets the merchant.  (The tests for the empty string add nothing:
    the empty string is no ObjectId.) *)
Theorem OnboardingChangePaymentMethodBinder_Ok
    (structure res : MerchantPaymentMethodRequest) (bindErr : option error)
    (merchantId methodId : string) :
  OnboardingChangePaymentMethodBinder_Bind names structure bindErr merchantId methodId
  = Ok res
  <-> bindErr = None
      /\ IsObjectIdHex merchantId = true /\ IsObjectIdHex methodId = true
      /\ MpmPaymentMethodId structure = Some methodId
      /\ res = {| MpmMerchantId := merchantId; MpmPaymentMethodId := Some methodId |}.
Proof.
  unfold OnboardingChangePaymentMethodBinder_Bind. split.
  - destruct bindErr as [e|]; [discriminate|].
    destruct (String.eqb merchantId "" || negb (IsObjectIdHex merchantId))
      eqn:Hmerchant; [discriminate|].
    destruct (String.eqb methodId "" || negb (IsObjectIdHex methodId))
      eqn:Hmethod; [discriminate|].
    apply orb_false_iff in Hmerchant as [_ Hmerchant].
    apply orb_false_iff in Hmethod as [_ Hmethod].
    apply negb_false_iff in Hmerchant. apply negb_false_iff in Hmethod.
    destruct (MpmPaymentMethodId structure) as [id|] eqn:Hid; [|discriminate]. simpl.
    destruct (String.eqb id methodId) eqn:Hsame; [|discriminate]. simpl.
    apply String.eqb_eq in Hsame as ->. by intros [= <-].
  - intros (-> & Hmerchant & Hmethod & Hid & ->).
    rewrite Hmerchant, Hmethod, Hid. simpl.
    assert (Hne : forall s, IsObjectIdHex s = true -> String.eqb s "" = false).
    { intros s Hs. destruct s; [discriminate Hs|reflexivity]. }
    rewrite (Hne _ Hmerchant), (Hne _ Hmethod). simpl.
    by rewrite String.eqb_refl.
Qed.

(** Without a payment method in the body the comparison of the ids reads
    through a nil pointer, once both path parameters passed. *)
Theorem OnboardingChangePaymentMethodBinder_nil_method
    (structure : MerchantPaymentMethodRequest) (merchantId methodId : string) :
  IsObjectIdHex merchantId = true -> IsObjectIdHex methodId = true ->
  MpmPaymentMethodId structure = None ->
  OnboardingChangePaymentMethodBinder_Bind names structure None merchantId methodId
  = Panic.
Proof.
  intros Hmerchant Hmethod Hid. unfold OnboardingChangePaymentMethodBinder_Bind.
  rewrite Hmerchant, Hmethod, Hid. simpl.
  assert (Hne : forall s, IsObjectIdHex s = true -> String.eqb s "" = false).
  { intros s Hs. destruct s; [discriminate Hs|reflexivity]. }
  by rewrite (Hne _ Hmerchant), (Hne _ Hmethod).
Qed.

End BinderProperties.

(** ** The further properties at work *)

Lemma Process_store_discipline_witness :
  exists o st',
    Process (Demo.om Demo.fairCommission) Demo.cardRequest [] = (Ok o, st')
    /\ InsertOrder (Demo.om Demo.fairCommission) [] o = (None, st').
Proof.
  destruct (Process (Demo.om Demo.fairCommission) Demo.cardRequest [])
    as [[o| |] st'] eqn:Hrun; [|vm_compute in Hrun; discriminate Hrun..].
  exists o, st'. split; [reflexivity|].
  destruct (Process_store_discipline (Demo.om Demo.fairCommission) Demo.cardRequest
              [] st' (Ok o) Hrun) as [[_ Hno]|(nOrder & dbErr & Hinsert & Hr)].
  - by destruct (Hno o).
  - destruct dbErr as [e|]; [discriminate Hr|]. by injection Hr as ->.
Defined.

Lemma getPaymentMethod_first_of_latest_witness :
  getPaymentMethod Demo.signedRequest
    (PPaymentMethods (Demo.project Demo.fixedProjectId true))
  = Ok (Some {| PpmId := Demo.cardId; AddedAt := 200 |})
  /\ exists cpms i,
       PPaymentMethods (Demo.project Demo.fixedProjectId true) !! "card" = Some cpms
       /\ cpms !! i = Some {| PpmId := Demo.cardId; AddedAt := 200 |}
       /\ forall j other, (j < i)%nat -> cpms !! j = Some other -> AddedAt other < 200.
Proof.
  assert (Hget : getPaymentMethod Demo.signedRequest
                   (PPaymentMethods (Demo.project Demo.fixedProjectId true))
                 = Ok (Some {| PpmId := Demo.cardId; AddedAt := 200 |}))
    by (vm_compute; reflexivity).
  split; [exact Hget|].
  destruct (getPaymentMethod_first_of_latest _ _ _ Hget)
    as (name & cpms & i & ppm & Hname & Hcpms & Hopm & Hi & Hlt & _).
  injection Hname as <-. injection Hopm as <-. exists cpms, i. done.
Defined.

Lemma checkPaymentMethod_sound_witness :
  checkPaymentMethod (Demo.om Demo.fairCommission) Demo.signedCheck = Ok Demo.card
  /\ exists opm,
       getPaymentMethod Demo.signedRequest
         (PPaymentMethods (Demo.project Demo.fixedProjectId true)) = Ok (Some opm)
       /\ PmFindById (Demo.om Demo.fairCommission) (PpmId opm) = Some Demo.card.
Proof.
  assert (Hrun : checkPaymentMethod (Demo.om Demo.fairCommission) Demo.signedCheck
                 = Ok Demo.card) by (vm_compute; reflexivity).
  split; [exact Hrun|].
  destruct (checkPaymentMethod_sound (Demo.om Demo.fairCommission) Demo.signedCheck
              Demo.card Hrun) as (opm & ps & Hget & Hfind & _).
  exists opm. split; assumption.
Defined.

Lemma getOrderFixedPackage_sound_witness :
  exists g ofp fps fp,
    getOrderFixedPackage (Demo.om Demo.fairCommission) Demo.signedCheck = Ok (g, ofp)
    /\ PFixedPackage (c_project Demo.signedCheck) !! OfpRegion ofp = Some fps
    /\ fps !! OfpId ofp = Some fp
    /\ OfpName ofp = FpName fp /\ OfpPrice ofp = FpPrice fp.
Proof.
  destruct (getOrderFixedPackage (Demo.om Demo.fairCommission) Demo.signedCheck)
    as [[g ofp]| |] eqn:Hrun; [|vm_compute in Hrun; discriminate Hrun..].
  destruct (getOrderFixedPackage_sound (Demo.om Demo.fairCommission) Demo.signedCheck
              g ofp Hrun)
    as (fps & fp & cur & _ & _ & Hfps & Hfp & _ & _ & Hname & _ & Hprice).
  exists g, ofp, fps, fp. by split_and!.
Defined.

Lemma paymentMethodAmounts_total_witness :
  exists pmOut commissions vatAmount base,
    paymentMethodAmounts (Demo.om Demo.fairCommission) Demo.cardRequest
      (Demo.project Demo.fixedProjectId true)
      (newCheck Demo.cardRequest (Demo.project Demo.fixedProjectId true)
         (Some Demo.usd) (Some Demo.card))
      (Some Demo.card) (Some Demo.california)
    = Ok (Some pmOut, commissions, vatAmount)
    /\ checkPaymentMethodLimits (Demo.om Demo.fairCommission)
         (newCheck Demo.cardRequest (Demo.project Demo.fixedProjectId true)
            (Some Demo.usd) (Some Demo.card)) = Ok base
    /\ pmo_currency pmOut = pmo_currency base.
Proof.
  destruct (paymentMethodAmounts (Demo.om Demo.fairCommission) Demo.cardRequest
              (Demo.project Demo.fixedProjectId true)
              (newCheck Demo.cardRequest (Demo.project Demo.fixedProjectId true)
                 (Some Demo.usd) (Some Demo.card))
              (Some Demo.card) (Some Demo.california))
    as [[[pmOutcome commissions] vatAmount]| |] eqn:Hrun;
    [|vm_compute in Hrun; discriminate Hrun..].
  destruct (paymentMethodAmounts_total (Demo.om Demo.fairCommission) Demo.cardRequest
              (Demo.project Demo.fixedProjectId true) _ _ _ _ _ _
              (ex_intro _ "card" eq_refl) Hrun)
    as (base & pmv & pmOut & Hbase & _ & _ & -> & Hcurrency & _).
  exists pmOut, commissions, vatAmount, base. by split_and!.
Defined.

Lemma Process_created_order_witness :
  exists o st',
    Process (Demo.om Demo.fairCommission) Demo.cardRequest [] = (Ok o, st')
    /\ Status o = OrderStatusNew
    /\ Id o = NewObjectId (Demo.om Demo.fairCommission)
    /\ ProjectOrderId o = None
    /\ ProjectIncomeAmount o = 500.
Proof.
  destruct (Process (Demo.om Demo.fairCommission) Demo.cardRequest [])
    as [[o| |] st'] eqn:Hrun; [|vm_compute in Hrun; discriminate Hrun..].
  exists o, st'. split; [reflexivity|].
  destruct (Process_created_order (Demo.om Demo.fairCommission) Demo.cardRequest
              [] st' o Hrun)
    as (p & code & oc & _ & _ & _ & Hstatus & Hid & _ & _ & Hoid & _ & Hincome & _).
  by split_and!.
Defined.

Lemma Process_needs_currency_witness :
  exists r,
    Process (Demo.om Demo.fairCommission) Demo.noCurrencyRequest [] = (r, [])
    /\ forall o, r <> Ok o.
Proof.
  exact (Process_needs_currency (Demo.om Demo.fairCommission) Demo.noCurrencyRequest
           [] eq_refl).
Defined.

Lemma Process_passed_checks_witness :
  exists o st',
    Process (Demo.om Demo.fairCommission) Demo.signedRequest [] = (Ok o, st')
    /\ requestSignature (Demo.om Demo.fairCommission)
         (RawRequestParams Demo.signedRequest) "secret"
         (map_to_list (RawRequestParams Demo.signedRequest)).*1
       = "sha256:amount=500|currency=USD|secret".
Proof.
  destruct (Process (Demo.om Demo.fairCommission) Demo.signedRequest [])
    as [[o| |] st'] eqn:Hrun; [|vm_compute in Hrun; discriminate Hrun..].
  exists o, st'. split; [reflexivity|].
  destruct (Process_passed_checks (Demo.om Demo.fairCommission) Demo.signedRequest
              [] st' o Hrun) as (p & oc & Hproject & _ & Hsignature & _).
  injection Hproject as <-. exact (Hsignature _ eq_refl).
Defined.

Lemma Process_payment_method_of_order_witness :
  exists o st',
    Process (Demo.om Demo.fairCommission) Demo.cardRequest [] = (Ok o, st')
    /\ exists oc pmv,
         checkPaymentMethod (Demo.om Demo.fairCommission)
           (newCheck Demo.cardRequest (Demo.project Demo.fixedProjectId true)
              (Some oc) None) = Ok pmv
         /\ PaymentMethodOutcomeCurrency o = Some (PmCurrency pmv).
Proof.
  destruct (Process (Demo.om Demo.fairCommission) Demo.cardRequest [])
    as [[o| |] st'] eqn:Hrun; [|vm_compute in Hrun; discriminate Hrun..].
  exists o, st'. split; [reflexivity|].
  destruct (proj2 (Process_payment_method_of_order (Demo.om Demo.fairCommission)
                     Demo.cardRequest [] st' o Hrun) (ex_intro _ "card" eq_refl))
    as (p & oc & pmv & base & pmOut & Hproject & Hcheck & _ & _ & Hcurrency & _).
  injection Hproject as <-. exists oc, pmv. split; assumption.
Defined.

(** The table of the installation finds what was appended to it. *)
Lemma demo_insert_then_found (commission : CommissionOrder Z) (oid : string)
    (s : list (Order Z)) (nOrder : Order Z) (s' : list (Order Z)) :
  InsertOrder (Demo.om commission) s nOrder = (None, s') ->
  ProjectOrderId nOrder = Some oid ->
  is_Some (FindOrderByProjectOrderId (Demo.om commission) s' oid).
Proof.
  simpl. intros [= <-] Hoid. induction s as [|x s IH]; simpl.
  - rewrite bool_decide_eq_true_2 by done. by eexists.
  - destruct (bool_decide (ProjectOrderId x = Some oid)); [by eexists|exact IH].
Qed.

Lemma Process_twice_same_order_id_witness :
  exists o st1 r,
    Process (Demo.om Demo.fairCommission) (Demo.numberedRequest 500 "N-1") []
    = (Ok o, st1)
    /\ Process (Demo.om Demo.fairCommission) (Demo.numberedRequest 50 "N-1") st1
       = (r, st1)
    /\ forall o', r <> Ok o'.
Proof.
  destruct (Process (Demo.om Demo.fairCommission) (Demo.numberedRequest 500 "N-1") [])
    as [[o| |] st1] eqn:Hrun; [|vm_compute in Hrun; discriminate Hrun..].
  destruct (Process_twice_same_order_id (Demo.om Demo.fairCommission)
              (Demo.numberedRequest 500 "N-1") (Demo.numberedRequest 50 "N-1")
              [] st1 o "N-1"
              (demo_insert_then_found Demo.fairCommission "N-1") eq_refl eq_refl Hrun)
    as (r & Hsecond & Hno).
  exists o, st1, r. by split_and!.
Defined.

Lemma processNotifyPaymentAmounts_Ok_witness :
  exists o',
    processNotifyPaymentAmounts (Demo.om Demo.fairCommission) Demo.storedOrder = Ok o'
    /\ PaymentMethodIncomeCurrency o' = Some Demo.usd
    /\ Status o' = OrderStatusPaymentSystemCreate
    /\ PaymentMethodFeeAmount o' = 2.
Proof.
  destruct (processNotifyPaymentAmounts (Demo.om Demo.fairCommission) Demo.storedOrder)
    as [o'| |] eqn:Hrun; [|vm_compute in Hrun; discriminate Hrun..].
  exists o'. split; [reflexivity|].
  destruct (processNotifyPaymentAmounts_Ok (Demo.om Demo.fairCommission)
              Demo.storedOrder o' Hrun)
    as (income & psp & opm & ps & Hincome & _ & _ & _ & Hcurrency & _ & _ & _ & _
        & _ & Hstatus & _ & _ & _ & _ & _ & _ & Hfee & _).
  injection Hincome as <-. by split_and!.
Defined.

Lemma ProcessNotifyPayment_store_discipline_witness :
  exists res st',
    ProcessNotifyPayment (Demo.om Demo.fairCommission) Demo.declined ∅
      [Demo.storedOrder] = (Ok res, st')
    /\ exists o2,
         UpdateOrder (Demo.om Demo.fairCommission) [Demo.storedOrder]
           (set_UpdatedAt (Now (Demo.om Demo.fairCommission)) o2) = (None, st')
         /\ res.1 = set_UpdatedAt (Now (Demo.om Demo.fairCommission)) o2.
Proof.
  destruct (ProcessNotifyPayment (Demo.om Demo.fairCommission) Demo.declined ∅
              [Demo.storedOrder])
    as [[res| |] st'] eqn:Hrun; [|vm_compute in Hrun; discriminate Hrun..].
  exists res, st'. split; [reflexivity|].
  destruct (ProcessNotifyPayment_store_discipline (Demo.om Demo.fairCommission)
              Demo.declined ∅ [Demo.storedOrder] st' (Ok res) Hrun)
    as [[_ Hno]|(o & o1 & o2 & h & hErr & dbErr & _ & _ & _ & _ & _ & Hupdate & Hr)].
  - by destruct (Hno res).
  - destruct dbErr as [e|]; [discriminate Hr|]. injection Hr as ->.
    exists o2. split; [exact Hupdate|reflexivity].
Defined.

(** The strict table of the installation: what is found has the id asked
    for, and an update that succeeded can be read back. *)
Lemma demo_found_has_id (s : list (Order Z)) (id : ObjectId) (found : Order Z) :
  FindOrderById Demo.strictOm s id = Some found -> Id found = id.
Proof.
  simpl. intros Hfind. apply find_some in Hfind as [_ Hid].
  by apply String.eqb_eq in Hid.
Qed.

Lemma demo_update_then_found (s : list (Order Z)) (updated : Order Z)
    (s' : list (Order Z)) :
  UpdateOrder Demo.strictOm s updated = (None, s') ->
  FindOrderById Demo.strictOm s' (Id updated) = Some updated.
Proof.
  simpl. unfold Demo.strictUpdate.
  destruct (existsb (fun x => String.eqb (Id x) (Id updated)) s) eqn:Hexists;
    [|discriminate].
  intros [= <-]. induction s as [|x s IH]; [discriminate Hexists|].
  simpl in *. destruct (String.eqb (Id x) (Id updated)) eqn:Hx.
  - by rewrite String.eqb_refl.
  - rewrite Hx. by apply IH.
Qed.

Lemma demo_handler_keeps_id (opn : OrderPaymentNotification) (stored : Order Z)
    (settings : gmap string string) (h : PaymentHandler Z) :
  GetPaymentHandler Demo.strictOm stored settings = inl h ->
  Id (ProcessPayment h stored opn).1 = Id stored.
Proof.
  simpl. intros [= <-]. simpl.
  destruct (OpnRequest opn !! "status") as [status|]; [|reflexivity].
  by repeat case_match.
Qed.

Lemma ProcessNotifyPayment_once_witness :
  exists o hErr st',
    ProcessNotifyPayment Demo.strictOm Demo.declined ∅ [Demo.storedOrder]
    = (Ok (o, hErr), st')
    /\ ProcessNotifyPayment Demo.strictOm Demo.paidLater {[ "key" := "other" ]} st'
       = (Err (orderErrorOrderAlreadyHasEndedStatus (Status o)), st').
Proof.
  destruct (ProcessNotifyPayment Demo.strictOm Demo.declined ∅ [Demo.storedOrder])
    as [[[o hErr]| |] st'] eqn:Hrun; [|vm_compute in Hrun; discriminate Hrun..].
  exists o, hErr, st'. split; [reflexivity|].
  exact (proj2 (ProcessNotifyPayment_once Demo.strictOm Demo.declined Demo.paidLater
                  ∅ {[ "key" := "other" ]} [Demo.storedOrder] st' o hErr
                  demo_found_has_id demo_update_then_found
                  (demo_handler_keeps_id Demo.declined) eq_refl Hrun)).
Defined.

Lemma modifyOrderAfterOrderFormSubmit_Ok_witness :
  samePaymentMethod Demo.storedOrder Demo.wallet = false
  /\ exists o',
       modifyOrderAfterOrderFormSubmit (Demo.om Demo.fairCommission) Demo.storedOrder
         Demo.wallet = Ok o'
       /\ PaymentMethodFeeAmount o' = 2
       /\ Status o' = OrderStatusPaymentSystemCreate
       /\ ProjectIncomeAmount o' = 500.
Proof.
  split; [reflexivity|].
  destruct (modifyOrderAfterOrderFormSubmit (Demo.om Demo.fairCommission)
              Demo.storedOrder Demo.wallet)
    as [o'| |] eqn:Hrun; [|vm_compute in Hrun; discriminate Hrun..].
  exists o'. split; [reflexivity|].
  destruct (modifyOrderAfterOrderFormSubmit_Ok (Demo.om Demo.fairCommission)
              Demo.storedOrder o' Demo.wallet eq_refl Hrun)
    as (p & base & cm & _ & _ & Hcm & _ & _ & Hfee & _ & _ & Hstatus & _ & Hincome & _).
  injection Hcm as <-. by split_and!.
Defined.

Lemma modifyOrderAfterOrderFormSubmit_twice_witness :
  exists o',
    modifyOrderAfterOrderFormSubmit (Demo.om Demo.fairCommission) Demo.storedOrder
      Demo.wallet = Ok o'
    /\ modifyOrderAfterOrderFormSubmit (Demo.om Demo.fairCommission) o' Demo.wallet
       = Ok o'.
Proof.
  destruct (modifyOrderAfterOrderFormSubmit (Demo.om Demo.fairCommission)
              Demo.storedOrder Demo.wallet)
    as [o'| |] eqn:Hrun; [|vm_compute in Hrun; discriminate Hrun..].
  exists o'. split; [reflexivity|].
  exact (modifyOrderAfterOrderFormSubmit_twice (Demo.om Demo.fairCommission)
           Demo.storedOrder o' Demo.wallet Hrun).
Defined.

Lemma modifyOrderAfterOrderFormSubmit_nil_commission_witness :
  (CalculateCommission Demo.noCommissionOm Demo.fixedProjectId Demo.walletId 500).1
  = None
  /\ modifyOrderAfterOrderFormSubmit Demo.noCommissionOm Demo.storedOrder Demo.wallet
     = Panic.
Proof.
  split; [reflexivity|].
  apply (modifyOrderAfterOrderFormSubmit_nil_commission Demo.noCommissionOm
           Demo.storedOrder Demo.wallet (Demo.project Demo.fixedProjectId true)
           {| pmo_amount := 500; pmo_currency := Demo.usd |});
    reflexivity.
Defined.

Lemma ProcessFilters_keeps_other_keys_witness :
  exists f,
    ProcessFilters Demo.filterFields Demo.bothRanges
      {[ "project.id" := FvInObjectIds [Demo.openProjectId] ]} = Ok f
    /\ f !! "project.id" = Some (FvInObjectIds [Demo.openProjectId]).
Proof.
  destruct (ProcessFilters Demo.filterFields Demo.bothRanges
              {[ "project.id" := FvInObjectIds [Demo.openProjectId] ]})
    as [f| |] eqn:Hrun; [|vm_compute in Hrun; discriminate Hrun..].
  exists f. split; [reflexivity|].
  rewrite (ProcessFilters_keeps_other_keys Demo.filterFields Demo.bothRanges
             {[ "project.id" := FvInObjectIds [Demo.openProjectId] ]} f "project.id"
             Hrun).
  - reflexivity.
  - intros Hin. repeat (apply elem_of_cons in Hin as [Hin|Hin]; [discriminate Hin|]).
    by apply elem_of_nil in Hin.
Defined.

Lemma ProcessFilters_statuses_witness :
  exists f,
    ProcessFilters Demo.filterFields (FaValues Demo.listing) ∅ = Ok f
    /\ f !! "status" = Some (FvInInts [1; 3]).
Proof.
  destruct (ProcessFilters Demo.filterFields (FaValues Demo.listing) ∅)
    as [f| |] eqn:Hrun; [|vm_compute in Hrun; discriminate Hrun..].
  exists f. split; [reflexivity|].
  exact (ProcessFilters_statuses Demo.filterFields (FaValues Demo.listing) ∅ f
           ["1"; "paid"; "3"] eq_refl Hrun).
Defined.

Lemma ProcessFilters_bad_id_panics_witness :
  ProcessFilters Demo.filterFields {[ "id" := ["1234"] ]} ∅ = Panic.
Proof.
  apply (ProcessFilters_bad_id_panics Demo.filterFields {[ "id" := ["1234"] ]} ∅
           ["1234"]).
  - reflexivity.
  - intros first [= <-]. reflexivity.
Defined.

Lemma FindAll_condition_witness :
  exists res condition ids,
    FindAll Demo.filterFields Demo.countOrders Demo.findOrders Demo.noItems
      Demo.listing = Ok res
    /\ findAllCondition Demo.filterFields Demo.listing = Ok (Some condition)
    /\ condition !! "project.id" = Some (FvInObjectIds ids)
    /\ (Demo.openProjectId ∈ ids /\ Demo.fixedProjectId ∈ ids).
Proof.
  destruct (FindAll Demo.filterFields Demo.countOrders Demo.findOrders Demo.noItems
              Demo.listing) as [res| |] eqn:Hrun;
    [|vm_compute in Hrun; discriminate Hrun..].
  destruct (FindAll_condition Demo.filterFields Demo.countOrders Demo.findOrders
              Demo.noItems Demo.listing res Hrun) as (f & Hf & _ & _ & Hsome).
  destruct Hsome as (condition & ids & -> & Hids & _ & Hin).
  - intros Hempty. by apply (f_equal (fun m => m !! "status[]")) in Hempty.
  - exists res, condition, ids. split; [reflexivity|].
    split; [exact Hf|]. split; [exact Hids|].
    split; apply Hin; by eexists.
Defined.

Lemma checkSignature_ambiguous_witness :
  RawRequestParams (c_order Demo.mergedCheck) = {[ "amount" := "500|currency=USD" ]}
  /\ checkSignature (Demo.om Demo.fairCommission) Demo.signedCheck
     = checkSignature (Demo.om Demo.fairCommission) Demo.mergedCheck.
Proof.
  split; [reflexivity|].
  apply (checkSignature_ambiguous (Demo.om Demo.fairCommission) Demo.signedCheck
           Demo.mergedCheck "amount" "currency" "500" "USD").
  - vm_compute. exact I.
  - discriminate.
  - vm_compute. reflexivity.
  - reflexivity.
  - reflexivity.
  - reflexivity.
Defined.

Lemma GetRevenueDynamic_missing_year_witness :
  GetRevenueDynamic Demo.periods (fun a : Z => a) Demo.periodString
    [Demo.brokenFacet] None = Panic.
Proof.
  apply (GetRevenueDynamic_missing_year Demo.periods (fun a : Z => a)
           Demo.periodString [Demo.brokenFacet] Demo.brokenFacet
           {| FacetId := {[ "month" := 2 ]}; FacetTotal := 100 |}).
  - reflexivity.
  - right. simpl. apply elem_of_cons. right. apply elem_of_cons. by left.
  - reflexivity.
Defined.

Lemma getRevenueDynamicPointsKey_zero_field_witness :
  getRevenueDynamicPointsKey Demo.periods (<["week" := 0]> Demo.january)
  = getRevenueDynamicPointsKey Demo.periods Demo.january.
Proof.
  apply (getRevenueDynamicPointsKey_zero_field Demo.periods Demo.january "week").
  - discriminate.
  - reflexivity.
Defined.

Lemma OrderFormBinder_Bind_maps_witness :
  exists o',
    OrderFormBinder_Bind {[ "amount"; "currency" ]}
      {| OcrBound := Demo.cardRequest; OcrOther := ∅; OcrRawParams := ∅ |} None
      ({[ "amount" := ["500"]; "level" := ["7"; "8"] ]}, None) = Ok o'
    /\ OcrRawParams o' !! "amount" = Some "500"
    /\ OcrOther o' !! "amount" = None
    /\ OcrOther o' !! "level" = Some "7".
Proof.
  destruct (OrderFormBinder_Bind {[ "amount"; "currency" ]}
              {| OcrBound := Demo.cardRequest; OcrOther := ∅; OcrRawParams := ∅ |} None
              ({[ "amount" := ["500"]; "level" := ["7"; "8"] ]}, None))
    as [o'| |] eqn:Hrun; [|vm_compute in Hrun; discriminate Hrun..].
  exists o'. split; [reflexivity|].
  destruct (OrderFormBinder_Bind_maps _ _ _ _ _ Hrun) as (_ & _ & _ & Hmaps).
  destruct (Hmaps "amount") as [Hraw Hother].
  destruct (Hmaps "level") as [Hraw' Hother'].
  rewrite Hother, Hother', Hraw'. split; [exact Hraw|]. split; reflexivity.
Defined.

Lemma OnboardingMerchantListingBinder_is_signed_lost_witness :
  exists res,
    OnboardingMerchantListingBinder_Bind Demo.parameters 100
      {| MlLimit := 0; MlIsSigned := 0 |} None {[ "is_signed" := ["false"] ]} = Ok res
    /\ OnboardingMerchantListingBinder_Bind Demo.parameters 100
         {| MlLimit := 0; MlIsSigned := 0 |} None {[ "is_signed" := ["true"] ]} = Ok res
    /\ MlIsSigned res = 2.
Proof.
  exists {| MlLimit := 100; MlIsSigned := 2 |}.
  split; [reflexivity|]. split; [reflexivity|].
  destruct (OnboardingMerchantListingBinder_is_signed_lost Demo.parameters 100
              {| MlLimit := 0; MlIsSigned := 0 |}
              {| MlLimit := 100; MlIsSigned := 2 |}
              {| MlLimit := 100; MlIsSigned := 2 |} None
              {[ "is_signed" := ["false"] ]} {[ "is_signed" := ["true"] ]})
    as [Hsigned _]; [by exists ["false"]|by exists ["true"]|reflexivity..|].
  exact Hsigned.
Defined.

Lemma ProductsGetProductsListBinder_numbers_witness :
  exists res,
    ProductsGetProductsListBinder_Bind Demo.parameters Demo.numError 100 0
      {| LpLimit := 0; LpOffset := 0; LpName := ""; LpSku := ""; LpProjectId := "" |}
      {[ "limit" := ["-5"] ]} = Ok res
    /\ LpLimit res = -5 /\ LpOffset res = 0.
Proof.
  destruct (ProductsGetProductsListBinder_Bind Demo.parameters Demo.numError 100 0
              {| LpLimit := 0; LpOffset := 0; LpName := ""; LpSku := "";
                 LpProjectId := "" |}
              {[ "limit" := ["-5"] ]})
    as [res| |] eqn:Hrun; [|vm_compute in Hrun; discriminate Hrun..].
  exists res. split; [reflexivity|].
  destruct (ProductsGetProductsListBinder_numbers Demo.parameters Demo.numError 100 0
              _ res _ ltac:(lia) ltac:(lia) Hrun)
    as (_ & _ & Hlimit & _ & _ & Hoffset).
  split; [|by apply Hoffset].
  specialize (Hlimit "-5" [] eq_refl).
  assert (Hparse : ParseInt32 "-5" = Some (-5)) by (vm_compute; reflexivity).
  rewrite Hparse in Hlimit. by injection Hlimit as <-.
Defined.

Lemma ProductsGetProductsListBinder_texts_witness :
  exists res,
    ProductsGetProductsListBinder_Bind Demo.parameters Demo.numError 100 0
      {| LpLimit := 0; LpOffset := 0; LpName := "sword"; LpSku := "sw-1";
         LpProjectId := "" |}
      {[ "name" := [""]; "sku" := ["sh-2"] ]} = Ok res
    /\ LpName res = "sword" /\ LpSku res = "sh-2".
Proof.
  destruct (ProductsGetProductsListBinder_Bind Demo.parameters Demo.numError 100 0
              {| LpLimit := 0; LpOffset := 0; LpName := "sword"; LpSku := "sw-1";
                 LpProjectId := "" |}
              {[ "name" := [""]; "sku" := ["sh-2"] ]})
    as [res| |] eqn:Hrun; [|vm_compute in Hrun; discriminate Hrun..].
  exists res. split; [reflexivity|].
  destruct (ProductsGetProductsListBinder_texts Demo.parameters Demo.numError 100 0
              _ res _ Hrun) as (Hname & Hsku & _).
  split; [exact Hname|exact Hsku].
Defined.

Lemma OnboardingChangePaymentMethodBinder_Ok_witness :
  OnboardingChangePaymentMethodBinder_Bind Demo.parameters
    {| MpmMerchantId := ""; MpmPaymentMethodId := Some Demo.cardId |} None
    Demo.openProjectId Demo.cardId
  = Ok {| MpmMerchantId := Demo.openProjectId; MpmPaymentMethodId := Some Demo.cardId |}.
Proof.
  apply (proj2 (OnboardingChangePaymentMethodBinder_Ok Demo.parameters _ _ None
                  Demo.openProjectId Demo.cardId)).
  repeat split; reflexivity.
Defined.

Lemma OnboardingChangePaymentMethodBinder_nil_method_witness :
  OnboardingChangePaymentMethodBinder_Bind Demo.parameters
    {| MpmMerchantId := ""; MpmPaymentMethodId := None |} None
    Demo.openProjectId Demo.cardId
  = Panic.
Proof.
  apply (OnboardingChangePaymentMethodBinder_nil_method Demo.parameters);
    reflexivity.
Defined.
